(** * CHIP-8 interpreter core: machine state, instruction handlers, dispatch

    A shallow embedding of the interpreter source and [chip8/chip8.h].  Every
    C integer is a [Z] with its wrap-around written out, every array is a
    [list Z] read and updated by index, and an access outside a declared
    array (undefined in C) is a [Fault] that names the index the code used. *)

From Stdlib Require Import ZArith Lia Bool List.
From stdpp Require Import base tactics option list numbers.

Local Open Scope Z_scope.

(** ** [VirtualMachineDescription] *)

Definition MEMORY_SIZE : Z := 0x1000.
Definition VIDEO_SIZE : Z := 0x0800.
Definition START_ADDRESS : Z := 0x0200.
Definition FONTSET_ADDRESS : Z := 0x0050.
Definition REGISTER_COUNT : Z := 16.
Definition STACK_LEVELS : Z := 16.
Definition CLOCK_HZ : Z := 60.
Definition KEY_COUNT : Z := 16.
Definition VIDEO_WIDTH : Z := 64.
Definition VIDEO_HEIGHT : Z := 32.

Definition fontset : list Z :=
  [ 0xF0; 0x90; 0x90; 0x90; 0xF0;   (* 0 *)
    0x20; 0x60; 0x20; 0x20; 0x70;   (* 1 *)
    0xF0; 0x10; 0xF0; 0x80; 0xF0;   (* 2 *)
    0xF0; 0x10; 0xF0; 0x10; 0xF0;   (* 3 *)
    0x90; 0x90; 0xF0; 0x10; 0x10;   (* 4 *)
    0xF0; 0x80; 0xF0; 0x10; 0xF0;   (* 5 *)
    0xF0; 0x80; 0xF0; 0x90; 0xF0;   (* 6 *)
    0xF0; 0x10; 0x20; 0x40; 0x40;   (* 7 *)
    0xF0; 0x90; 0xF0; 0x90; 0xF0;   (* 8 *)
    0xF0; 0x90; 0xF0; 0x10; 0xF0;   (* 9 *)
    0xF0; 0x90; 0xF0; 0x90; 0x90;   (* A *)
    0xE0; 0x90; 0xE0; 0x90; 0xE0;   (* B *)
    0xF0; 0x80; 0x80; 0x80; 0xF0;   (* C *)
    0xE0; 0x90; 0x90; 0x90; 0xE0;   (* D *)
    0xF0; 0x80; 0xF0; 0x80; 0xF0;   (* E *)
    0xF0; 0x80; 0xF0; 0x80; 0x80 ]. (* F *)

(** Modelled from the spec: the macro [FONT_SIZE] that [Chip8_Create] passes
    to [copyMemory] is not declared in the header at hand; the glyph table is
    16 glyphs of 5 bytes. *)
Definition FONT_SIZE : Z := 80.

(** ** Function pointers

    [OpcodeFunc] values are pointers to the functions of the interpreter.  The
    sub-tables only ever hold instruction handlers and the array [dispatcher]
    only ever holds the sixteen [dispatcherN], so the two kinds are kept
    apart. *)

Inductive OpcodeFunc : Type :=
  | fp_OP_00E0 | fp_OP_00EE | fp_OP_0nnn | fp_OP_1nnn | fp_OP_2nnn
  | fp_OP_3xkk | fp_OP_4xkk | fp_OP_5xy0 | fp_OP_6xkk | fp_OP_7xkk
  | fp_OP_8xy0 | fp_OP_8xy1 | fp_OP_8xy2 | fp_OP_8xy3 | fp_OP_8xy4
  | fp_OP_8xy5 | fp_OP_8xy6 | fp_OP_8xy7 | fp_OP_8xyE | fp_OP_9xy0
  | fp_OP_Annn | fp_OP_Bnnn | fp_OP_Cxkk | fp_OP_Dxyn | fp_OP_Ex9E
  | fp_OP_ExA1 | fp_OP_Fx07 | fp_OP_Fx0A | fp_OP_Fx15 | fp_OP_Fx18
  | fp_OP_Fx1E | fp_OP_Fx29 | fp_OP_Fx33 | fp_OP_Fx55 | fp_OP_Fx65.

Inductive DispatcherFunc : Type :=
  | fp_dispatcher0 | fp_dispatcher1 | fp_dispatcher2 | fp_dispatcher3
  | fp_dispatcher4 | fp_dispatcher5 | fp_dispatcher6 | fp_dispatcher7
  | fp_dispatcher8 | fp_dispatcher9 | fp_dispatcherA | fp_dispatcherB
  | fp_dispatcherC | fp_dispatcherD | fp_dispatcherE | fp_dispatcherF.

Global Instance OpcodeFunc_eq_dec : EqDecision OpcodeFunc.
Proof. solve_decision. Defined.

(** The jump tables of a [CPU].  The structure declaration the handlers are
    written against (fields [v], [i], [dispatcher], [table0] .. [tableF]) is
    not the one of the header at hand, so the tables' lengths are not known;
    they are a parameter of [setupOpcodeTables] below. *)
Record Tables : Type := mkTables {
  dispatcher : list DispatcherFunc;
  table0 : list OpcodeFunc; table1 : list OpcodeFunc;
  table2 : list OpcodeFunc; table3 : list OpcodeFunc;
  table4 : list OpcodeFunc; table5 : list OpcodeFunc;
  table6 : list OpcodeFunc; table7 : list OpcodeFunc;
  table8 : list OpcodeFunc; table9 : list OpcodeFunc;
  tableA : list OpcodeFunc; tableB : list OpcodeFunc;
  tableC : list OpcodeFunc; tableD : list OpcodeFunc;
  tableE : list OpcodeFunc; tableF : list OpcodeFunc
}.

(** ** [struct CPU]

    The fields as the handlers use them: the register file is [v], the index
    register is [i], and a [gfx] cell is reached through a [uint32_t*],
    compared with [0xFFFFFFFF] and toggled by it, so a cell is that 32-bit
    value ([0] unlit, [0xFFFFFFFF] lit).  Array lengths are those of the
    header.  [seed] is the function-local [static] of [OP_Cxkk]: it is not a
    field of the C structure, but it is state that survives between calls,
    so it travels with the machine here. *)
Record CPU : Type := mkCPU {
  memory : list Z;      (* unsigned char  [MEMORY_SIZE]    *)
  v : list Z;           (* unsigned char  [REGISTER_COUNT] *)
  i : Z;                (* unsigned short                  *)
  pc : Z;               (* unsigned short                  *)
  stack : list Z;       (* unsigned short [STACK_LEVELS]   *)
  sp : Z;               (* unsigned short                  *)
  opcode : Z;           (* unsigned short                  *)
  delaytimer : Z;       (* unsigned char                   *)
  soundtimer : Z;       (* unsigned char                   *)
  key : list Z;         (* unsigned char  [KEY_COUNT]      *)
  gfx : list Z;         (* uint32_t [VIDEO_WIDTH * VIDEO_HEIGHT] *)
  tables : Tables;
  seed : Z              (* static uint32_t seed            *)
}.

Definition set_memory (cpu : CPU) (x : list Z) : CPU :=
  mkCPU x (v cpu) (i cpu) (pc cpu) (stack cpu) (sp cpu) (opcode cpu)
        (delaytimer cpu) (soundtimer cpu) (key cpu) (gfx cpu) (tables cpu) (seed cpu).
Definition set_v (cpu : CPU) (x : list Z) : CPU :=
  mkCPU (memory cpu) x (i cpu) (pc cpu) (stack cpu) (sp cpu) (opcode cpu)
        (delaytimer cpu) (soundtimer cpu) (key cpu) (gfx cpu) (tables cpu) (seed cpu).
Definition set_i (cpu : CPU) (x : Z) : CPU :=
  mkCPU (memory cpu) (v cpu) x (pc cpu) (stack cpu) (sp cpu) (opcode cpu)
        (delaytimer cpu) (soundtimer cpu) (key cpu) (gfx cpu) (tables cpu) (seed cpu).
Definition set_pc (cpu : CPU) (x : Z) : CPU :=
  mkCPU (memory cpu) (v cpu) (i cpu) x (stack cpu) (sp cpu) (opcode cpu)
        (delaytimer cpu) (soundtimer cpu) (key cpu) (gfx cpu) (tables cpu) (seed cpu).
Definition set_stack (cpu : CPU) (x : list Z) : CPU :=
  mkCPU (memory cpu) (v cpu) (i cpu) (pc cpu) x (sp cpu) (opcode cpu)
        (delaytimer cpu) (soundtimer cpu) (key cpu) (gfx cpu) (tables cpu) (seed cpu).
Definition set_sp (cpu : CPU) (x : Z) : CPU :=
  mkCPU (memory cpu) (v cpu) (i cpu) (pc cpu) (stack cpu) x (opcode cpu)
        (delaytimer cpu) (soundtimer cpu) (key cpu) (gfx cpu) (tables cpu) (seed cpu).
Definition set_opcode (cpu : CPU) (x : Z) : CPU :=
  mkCPU (memory cpu) (v cpu) (i cpu) (pc cpu) (stack cpu) (sp cpu) x
        (delaytimer cpu) (soundtimer cpu) (key cpu) (gfx cpu) (tables cpu) (seed cpu).
Definition set_delaytimer (cpu : CPU) (x : Z) : CPU :=
  mkCPU (memory cpu) (v cpu) (i cpu) (pc cpu) (stack cpu) (sp cpu) (opcode cpu)
        x (soundtimer cpu) (key cpu) (gfx cpu) (tables cpu) (seed cpu).
Definition set_soundtimer (cpu : CPU) (x : Z) : CPU :=
  mkCPU (memory cpu) (v cpu) (i cpu) (pc cpu) (stack cpu) (sp cpu) (opcode cpu)
        (delaytimer cpu) x (key cpu) (gfx cpu) (tables cpu) (seed cpu).
Definition set_key (cpu : CPU) (x : list Z) : CPU :=
  mkCPU (memory cpu) (v cpu) (i cpu) (pc cpu) (stack cpu) (sp cpu) (opcode cpu)
        (delaytimer cpu) (soundtimer cpu) x (gfx cpu) (tables cpu) (seed cpu).
Definition set_gfx (cpu : CPU) (x : list Z) : CPU :=
  mkCPU (memory cpu) (v cpu) (i cpu) (pc cpu) (stack cpu) (sp cpu) (opcode cpu)
        (delaytimer cpu) (soundtimer cpu) (key cpu) x (tables cpu) (seed cpu).
Definition set_tables (cpu : CPU) (x : Tables) : CPU :=
  mkCPU (memory cpu) (v cpu) (i cpu) (pc cpu) (stack cpu) (sp cpu) (opcode cpu)
        (delaytimer cpu) (soundtimer cpu) (key cpu) (gfx cpu) x (seed cpu).
Definition set_seed (cpu : CPU) (x : Z) : CPU :=
  mkCPU (memory cpu) (v cpu) (i cpu) (pc cpu) (stack cpu) (sp cpu) (opcode cpu)
        (delaytimer cpu) (soundtimer cpu) (key cpu) (gfx cpu) (tables cpu) x.

(** ** Array accesses *)

(** What an access outside an array is reported as: the array and the index
    the code computed. *)
Inductive fault : Type :=
  | MemoryFault (addr : Z)
  | VideoFault (index : Z)
  | StackFault (index : Z)
  | KeyFault (index : Z)
  | TableFault (index : Z).

Inductive Result (A : Type) : Type :=
  | Ok (a : A)
  | Fault (f : fault).
Arguments Ok {A} a.
Arguments Fault {A} f.

Definition bind {A B : Type} (r : Result A) (k : A -> Result B) : Result B :=
  match r with
  | Ok a => k a
  | Fault f => Fault f
  end.

Notation "'do' x <- e ; k" := (bind e (fun x => k))
  (at level 10, x name, e at level 100, k at level 200).

(** [a[k]] and [a[k] = x] for an index that is in range by construction (a
    register selected by an opcode nibble, a constant), or that was checked
    by [load] and [store] below. *)
Definition get (a : list Z) (k : Z) : Z := default 0 (a !! Z.to_nat k).
Definition put (a : list Z) (k : Z) (x : Z) : list Z := <[Z.to_nat k := x]> a.

(** [a[k]] and [a[k] = x] on an array declared with [size] elements, where
    the index is computed from machine state. *)
Definition load (oob : Z -> fault) (size : Z) (a : list Z) (k : Z) : Result Z :=
  if (0 <=? k) && (k <? size) then Ok (get a k) else Fault (oob k).
Definition store (oob : Z -> fault) (size : Z) (a : list Z) (k : Z) (x : Z)
  : Result (list Z) :=
  if (0 <=? k) && (k <? size) then Ok (put a k x) else Fault (oob k).

(** [for (size_t k = start; ...; k++) body], run [n] times. *)
Fixpoint for_loop (n : nat) (k : Z) (body : Z -> CPU -> Result CPU) (cpu : CPU)
  : Result CPU :=
  match n with
  | O => Ok cpu
  | S n' => do cpu' <- body k cpu; for_loop n' (k + 1) body cpu'
  end.

(** Conversions to the unsigned C types. *)
Definition u8 (z : Z) : Z := z mod 256.
Definition u16 (z : Z) : Z := z mod 65536.
Definition u32 (z : Z) : Z := z mod 4294967296.

(** ** [clearMemory], [copyMemory] *)

(** [clearMemory(a, num)] on an array of cells of [width] bytes: the first
    [num / width] cells become zero. *)
Definition clearMemory (width : Z) (a : list Z) (num : Z) : list Z :=
  replicate (Z.to_nat (num / width)) 0 ++ drop (Z.to_nat (num / width)) a.

(** [copyMemory(a + at, src, num)] on byte arrays. *)
Definition copyMemory (a : list Z) (at_ : Z) (src : list Z) (num : Z) : list Z :=
  take (Z.to_nat at_) a ++ take (Z.to_nat num) src
    ++ drop (Z.to_nat at_ + Z.to_nat num) a.

(** ** Instruction handlers

    Handlers that touch no array with a computed index cannot fault and are
    plain state transformers; the others return a [Result]. *)

Definition OP_00E0 (cpu : CPU) : CPU := (* CLS *)
  (* [VIDEO_SIZE] is a byte count and a [gfx] cell has four bytes *)
  set_gfx cpu (clearMemory 4 (gfx cpu) VIDEO_SIZE).

Definition OP_00EE (cpu : CPU) : Result CPU := (* RET *)
  let cpu := set_sp cpu (u16 (sp cpu - 1)) in
  do ret <- load StackFault STACK_LEVELS (stack cpu) (sp cpu);
  Ok (set_pc cpu ret).

Definition OP_0nnn (cpu : CPU) : CPU := (* SYS addr *)
  cpu.

Definition OP_1nnn (cpu : CPU) : CPU := (* JMP addr *)
  let address := Z.land (opcode cpu) 0x0FFF in
  set_pc cpu address.

Definition OP_2nnn (cpu : CPU) : Result CPU := (* CALL addr *)
  let address := Z.land (opcode cpu) 0x0FFF in
  do stk <- store StackFault STACK_LEVELS (stack cpu) (sp cpu) (pc cpu);
  let cpu := set_stack cpu stk in
  let cpu := set_sp cpu (u16 (sp cpu + 1)) in
  Ok (set_pc cpu address).

Definition OP_3xkk (cpu : CPU) : CPU := (* SE Vx, byte *)
  let x := Z.shiftr (Z.land (opcode cpu) 0x0F00) 8 in
  let byte := Z.land (opcode cpu) 0x00FF in
  if get (v cpu) x =? byte then set_pc cpu (u16 (pc cpu + 2)) else cpu.

Definition OP_4xkk (cpu : CPU) : CPU := (* SNE Vx, byte *)
  let x := Z.shiftr (Z.land (opcode cpu) 0x0F00) 8 in
  let byte := Z.land (opcode cpu) 0x00FF in
  if negb (get (v cpu) x =? byte) then set_pc cpu (u16 (pc cpu + 2)) else cpu.

Definition OP_5xy0 (cpu : CPU) : CPU := (* SE Vx, Vy *)
  let x := Z.shiftr (Z.land (opcode cpu) 0x0F00) 8 in
  let y := Z.shiftr (Z.land (opcode cpu) 0x00F0) 4 in
  if get (v cpu) x =? get (v cpu) y then set_pc cpu (u16 (pc cpu + 2)) else cpu.

Definition OP_6xkk (cpu : CPU) : CPU := (* LD Vx, byte *)
  let x := Z.shiftr (Z.land (opcode cpu) 0x0F00) 8 in
  let byte := Z.land (opcode cpu) 0x00FF in
  set_v cpu (put (v cpu) x byte).

Definition OP_7xkk (cpu : CPU) : CPU := (* ADD Vx, byte *)
  let x := Z.shiftr (Z.land (opcode cpu) 0x0F00) 8 in
  let byte := Z.land (opcode cpu) 0x00FF in
  set_v cpu (put (v cpu) x (u8 (get (v cpu) x + byte))).

Definition OP_8xy0 (cpu : CPU) : CPU := (* LD Vx, Vy *)
  let x := Z.shiftr (Z.land (opcode cpu) 0x0F00) 8 in
  let y := Z.shiftr (Z.land (opcode cpu) 0x00F0) 4 in
  set_v cpu (put (v cpu) x (get (v cpu) y)).

Definition OP_8xy1 (cpu : CPU) : CPU := (* OR Vx, Vy *)
  let x := Z.shiftr (Z.land (opcode cpu) 0x0F00) 8 in
  let y := Z.shiftr (Z.land (opcode cpu) 0x00F0) 4 in
  set_v cpu (put (v cpu) x (Z.lor (get (v cpu) x) (get (v cpu) y))).

Definition OP_8xy2 (cpu : CPU) : CPU := (* AND Vx, Vy *)
  let x := Z.shiftr (Z.land (opcode cpu) 0x0F00) 8 in
  let y := Z.shiftr (Z.land (opcode cpu) 0x00F0) 4 in
  set_v cpu (put (v cpu) x (Z.land (get (v cpu) x) (get (v cpu) y))).

Definition OP_8xy3 (cpu : CPU) : CPU := (* XOR Vx, Vy *)
  let x := Z.shiftr (Z.land (opcode cpu) 0x0F00) 8 in
  let y := Z.shiftr (Z.land (opcode cpu) 0x00F0) 4 in
  set_v cpu (put (v cpu) x (Z.lxor (get (v cpu) x) (get (v cpu) y))).

Definition OP_8xy4 (cpu : CPU) : CPU := (* ADD Vx, Vy *)
  let x := Z.shiftr (Z.land (opcode cpu) 0x0F00) 8 in
  let y := Z.shiftr (Z.land (opcode cpu) 0x00F0) 4 in
  let sum := u16 (get (v cpu) x + get (v cpu) y) in
  let cpu := set_v cpu (put (v cpu) x (Z.land sum 0xFF)) in
  set_v cpu (put (v cpu) 0xF (if 255 <? sum then 1 else 0)).

Definition OP_8xy5 (cpu : CPU) : CPU := (* SUB Vx, Vy *)
  let x := Z.shiftr (Z.land (opcode cpu) 0x0F00) 8 in
  let y := Z.shiftr (Z.land (opcode cpu) 0x00F0) 4 in
  let vX := get (v cpu) x in
  let cpu := set_v cpu (put (v cpu) x (u8 (get (v cpu) x - get (v cpu) y))) in
  set_v cpu (put (v cpu) 0xF (if get (v cpu) y <=? vX then 1 else 0)).

Definition OP_8xy6 (cpu : CPU) : CPU := (* SHR Vx {, Vy} *)
  let x := Z.shiftr (Z.land (opcode cpu) 0x0F00) 8 in
  let vX := get (v cpu) x in
  let cpu := set_v cpu (put (v cpu) x (Z.shiftr (get (v cpu) x) 1)) in
  set_v cpu (put (v cpu) 0xF (Z.land vX 0x01)).

Definition OP_8xy7 (cpu : CPU) : CPU := (* SUBN Vx, Vy *)
  let x := Z.shiftr (Z.land (opcode cpu) 0x0F00) 8 in
  let y := Z.shiftr (Z.land (opcode cpu) 0x00F0) 4 in
  let cpu := set_v cpu (put (v cpu) x (u8 (get (v cpu) y - get (v cpu) x))) in
  set_v cpu (put (v cpu) 0xF (if get (v cpu) x <? get (v cpu) y then 1 else 0)).

Definition OP_8xyE (cpu : CPU) : CPU := (* SHL Vx {, Vy} *)
  let x := Z.shiftr (Z.land (opcode cpu) 0x0F00) 8 in
  let vX := get (v cpu) x in
  let cpu := set_v cpu (put (v cpu) x (u8 (Z.shiftl (get (v cpu) x) 1))) in
  set_v cpu (put (v cpu) 0xF (Z.shiftr (Z.land vX 0x80) 7)).

Definition OP_9xy0 (cpu : CPU) : CPU := (* SNE Vx, Vy *)
  let x := Z.shiftr (Z.land (opcode cpu) 0x0F00) 8 in
  let y := Z.shiftr (Z.land (opcode cpu) 0x00F0) 4 in
  if negb (get (v cpu) x =? get (v cpu) y) then set_pc cpu (u16 (pc cpu + 2))
  else cpu.

Definition OP_Annn (cpu : CPU) : CPU := (* LD I, addr *)
  let address := Z.land (opcode cpu) 0x0FFF in
  set_i cpu address.

Definition OP_Bnnn (cpu : CPU) : CPU := (* JP V0, addr *)
  let address := Z.land (opcode cpu) 0x0FFF in
  set_pc cpu (u16 (address + get (v cpu) 0x0)).

Definition OP_Cxkk (cpu : CPU) : CPU := (* RND Vx, byte *)
  let x := Z.shiftr (Z.land (opcode cpu) 0x0F00) 8 in
  let byte := Z.land (opcode cpu) 0x00FF in
  (* LCG parameters *)
  let a := 1103515245 in
  let c := 12345 in
  let m := 2147483648 in
  (* Generate next pseudo random number *)
  let cpu := set_seed cpu (u32 (u32 (seed cpu * a) + c) mod m) in
  set_v cpu (put (v cpu) x (u8 (Z.land (seed cpu) byte))).

Definition OP_Dxyn (cpu : CPU) : Result CPU := (* DRW Vx, Vy, nibble *)
  let x := Z.shiftr (Z.land (opcode cpu) 0x0F00) 8 in
  let y := Z.shiftr (Z.land (opcode cpu) 0x00F0) 4 in
  let height := Z.land (opcode cpu) 0x000F in
  (* Wrap if going beyond screen boundaries *)
  let xPos := get (v cpu) x mod VIDEO_WIDTH in
  let yPos := get (v cpu) y mod VIDEO_HEIGHT in
  let cpu := set_v cpu (put (v cpu) 0xF 0) in
  for_loop (Z.to_nat height) 0 (fun row cpu =>
    do spriteByte <- load MemoryFault MEMORY_SIZE (memory cpu) (i cpu + row);
    for_loop 8 0 (fun col cpu =>
      let spritePixel := Z.land spriteByte (Z.shiftr 0x80 col) in
      let screenIndex := u16 ((yPos + row) * VIDEO_WIDTH + (xPos + col)) in
      if negb (spritePixel =? 0) then
        do screenPixel <- load VideoFault (VIDEO_WIDTH * VIDEO_HEIGHT)
                               (gfx cpu) screenIndex;
        let cpu := if screenPixel =? 0xFFFFFFFF
                   then set_v cpu (put (v cpu) 0xF 1) else cpu in
        do cells <- store VideoFault (VIDEO_WIDTH * VIDEO_HEIGHT) (gfx cpu)
                          screenIndex (Z.lxor screenPixel 0xFFFFFFFF);
        Ok (set_gfx cpu cells)
      else Ok cpu) cpu) cpu.

Definition OP_Ex9E (cpu : CPU) : Result CPU := (* SKP Vx *)
  let x := Z.shiftr (Z.land (opcode cpu) 0x0F00) 8 in
  let key_ := get (v cpu) x in
  do pressed <- load KeyFault KEY_COUNT (key cpu) key_;
  Ok (if negb (pressed =? 0) then set_pc cpu (u16 (pc cpu + 2)) else cpu).

Definition OP_ExA1 (cpu : CPU) : Result CPU := (* SKNP Vx *)
  let x := Z.shiftr (Z.land (opcode cpu) 0x0F00) 8 in
  let key_ := get (v cpu) x in
  do pressed <- load KeyFault KEY_COUNT (key cpu) key_;
  Ok (if pressed =? 0 then set_pc cpu (u16 (pc cpu + 2)) else cpu).

Definition OP_Fx07 (cpu : CPU) : CPU := (* LD Vx, DT *)
  let x := Z.shiftr (Z.land (opcode cpu) 0x0F00) 8 in
  set_v cpu (put (v cpu) x (delaytimer cpu)).

Definition OP_Fx0A (cpu : CPU) : CPU := (* LD Vx, K *)
  let x := Z.shiftr (Z.land (opcode cpu) 0x0F00) 8 in
  if negb (get (key cpu) 0x0 =? 0) then set_v cpu (put (v cpu) x 0)
  else if negb (get (key cpu) 0x1 =? 0) then set_v cpu (put (v cpu) x 0x1)
  else if negb (get (key cpu) 0x2 =? 0) then set_v cpu (put (v cpu) x 0x2)
  else if negb (get (key cpu) 0x3 =? 0) then set_v cpu (put (v cpu) x 0x3)
  else if negb (get (key cpu) 0x4 =? 0) then set_v cpu (put (v cpu) x 0x4)
  else if negb (get (key cpu) 0x5 =? 0) then set_v cpu (put (v cpu) x 0x5)
  else if negb (get (key cpu) 0x6 =? 0) then set_v cpu (put (v cpu) x 0x6)
  else if negb (get (key cpu) 0x7 =? 0) then set_v cpu (put (v cpu) x 0x7)
  else if negb (get (key cpu) 0x8 =? 0) then set_v cpu (put (v cpu) x 0x8)
  else if negb (get (key cpu) 0x9 =? 0) then set_v cpu (put (v cpu) x 0x9)
  else if negb (get (key cpu) 0xA =? 0) then set_v cpu (put (v cpu) x 0xA)
  else if negb (get (key cpu) 0xB =? 0) then set_v cpu (put (v cpu) x 0xB)
  else if negb (get (key cpu) 0xC =? 0) then set_v cpu (put (v cpu) x 0xC)
  else if negb (get (key cpu) 0xD =? 0) then set_v cpu (put (v cpu) x 0xD)
  else if negb (get (key cpu) 0xE =? 0) then set_v cpu (put (v cpu) x 0xE)
  else if negb (get (key cpu) 0xF =? 0) then set_v cpu (put (v cpu) x 0xF)
  else set_pc cpu (u16 (pc cpu - 2)).

Definition OP_Fx15 (cpu : CPU) : CPU := (* LD DT, Vx *)
  let x := Z.shiftr (Z.land (opcode cpu) 0x0F00) 8 in
  set_delaytimer cpu (get (v cpu) x).

Definition OP_Fx18 (cpu : CPU) : CPU := (* LD ST, Vx *)
  let x := Z.shiftr (Z.land (opcode cpu) 0x0F00) 8 in
  set_soundtimer cpu (get (v cpu) x).

Definition OP_Fx1E (cpu : CPU) : CPU := (* ADD I, Vx *)
  let x := Z.shiftr (Z.land (opcode cpu) 0x0F00) 8 in
  set_i cpu (u16 (i cpu + get (v cpu) x)).

Definition OP_Fx29 (cpu : CPU) : CPU := (* LD F, Vx *)
  let x := Z.shiftr (Z.land (opcode cpu) 0x0F00) 8 in
  let digit := get (v cpu) x in
  set_i cpu (u16 (FONTSET_ADDRESS + 5 * digit)).

Definition OP_Fx33 (cpu : CPU) : Result CPU := (* LD B, Vx *)
  let x := Z.shiftr (Z.land (opcode cpu) 0x0F00) 8 in
  let value := get (v cpu) x in
  (* Ones-place *)
  do m <- store MemoryFault MEMORY_SIZE (memory cpu) (i cpu + 2) (value mod 10);
  let cpu := set_memory cpu m in
  let value := value / 10 in
  (* Tens-place *)
  do m <- store MemoryFault MEMORY_SIZE (memory cpu) (i cpu + 1) (value mod 10);
  let cpu := set_memory cpu m in
  let value := value / 10 in
  (* Hundreds-place *)
  do m <- store MemoryFault MEMORY_SIZE (memory cpu) (i cpu) (value mod 10);
  Ok (set_memory cpu m).

Definition OP_Fx55 (cpu : CPU) : Result CPU := (* LD [I], Vx *)
  let x := Z.shiftr (Z.land (opcode cpu) 0x0F00) 8 in
  for_loop (Z.to_nat (x + 1)) 0 (fun k cpu =>
    do m <- store MemoryFault MEMORY_SIZE (memory cpu) (i cpu + k) (get (v cpu) k);
    Ok (set_memory cpu m)) cpu.

Definition OP_Fx65 (cpu : CPU) : Result CPU := (* LD Vx, [I] *)
  let x := Z.shiftr (Z.land (opcode cpu) 0x0F00) 8 in
  for_loop (Z.to_nat (x + 1)) 0 (fun k cpu =>
    do b <- load MemoryFault MEMORY_SIZE (memory cpu) (i cpu + k);
    Ok (set_v cpu (put (v cpu) k b))) cpu.

(** ** Calls through function pointers *)

Definition call (f : OpcodeFunc) (cpu : CPU) : Result CPU :=
  match f with
  | fp_OP_00E0 => Ok (OP_00E0 cpu)
  | fp_OP_00EE => OP_00EE cpu
  | fp_OP_0nnn => Ok (OP_0nnn cpu)
  | fp_OP_1nnn => Ok (OP_1nnn cpu)
  | fp_OP_2nnn => OP_2nnn cpu
  | fp_OP_3xkk => Ok (OP_3xkk cpu)
  | fp_OP_4xkk => Ok (OP_4xkk cpu)
  | fp_OP_5xy0 => Ok (OP_5xy0 cpu)
  | fp_OP_6xkk => Ok (OP_6xkk cpu)
  | fp_OP_7xkk => Ok (OP_7xkk cpu)
  | fp_OP_8xy0 => Ok (OP_8xy0 cpu)
  | fp_OP_8xy1 => Ok (OP_8xy1 cpu)
  | fp_OP_8xy2 => Ok (OP_8xy2 cpu)
  | fp_OP_8xy3 => Ok (OP_8xy3 cpu)
  | fp_OP_8xy4 => Ok (OP_8xy4 cpu)
  | fp_OP_8xy5 => Ok (OP_8xy5 cpu)
  | fp_OP_8xy6 => Ok (OP_8xy6 cpu)
  | fp_OP_8xy7 => Ok (OP_8xy7 cpu)
  | fp_OP_8xyE => Ok (OP_8xyE cpu)
  | fp_OP_9xy0 => Ok (OP_9xy0 cpu)
  | fp_OP_Annn => Ok (OP_Annn cpu)
  | fp_OP_Bnnn => Ok (OP_Bnnn cpu)
  | fp_OP_Cxkk => Ok (OP_Cxkk cpu)
  | fp_OP_Dxyn => OP_Dxyn cpu
  | fp_OP_Ex9E => OP_Ex9E cpu
  | fp_OP_ExA1 => OP_ExA1 cpu
  | fp_OP_Fx07 => Ok (OP_Fx07 cpu)
  | fp_OP_Fx0A => Ok (OP_Fx0A cpu)
  | fp_OP_Fx15 => Ok (OP_Fx15 cpu)
  | fp_OP_Fx18 => Ok (OP_Fx18 cpu)
  | fp_OP_Fx1E => Ok (OP_Fx1E cpu)
  | fp_OP_Fx29 => Ok (OP_Fx29 cpu)
  | fp_OP_Fx33 => OP_Fx33 cpu
  | fp_OP_Fx55 => OP_Fx55 cpu
  | fp_OP_Fx65 => OP_Fx65 cpu
  end.

(** A call through entry [k] of a table: the entry is read from the table
    as declared; an index past its last entry is a fault. *)
Definition call_entry (table : list OpcodeFunc) (k : Z) (cpu : CPU) : Result CPU :=
  match table !! Z.to_nat k with
  | Some f => call f cpu
  | None => Fault (TableFault k)
  end.

Definition dispatcher0 (cpu : CPU) : Result CPU :=
  call_entry (table0 (tables cpu)) (Z.land (opcode cpu) 0x000F) cpu.
Definition dispatcher1 (cpu : CPU) : Result CPU :=
  call_entry (table1 (tables cpu)) 0x0 cpu.
Definition dispatcher2 (cpu : CPU) : Result CPU :=
  call_entry (table2 (tables cpu)) 0x0 cpu.
Definition dispatcher3 (cpu : CPU) : Result CPU :=
  call_entry (table3 (tables cpu)) 0x0 cpu.
Definition dispatcher4 (cpu : CPU) : Result CPU :=
  call_entry (table4 (tables cpu)) 0x0 cpu.
Definition dispatcher5 (cpu : CPU) : Result CPU :=
  call_entry (table5 (tables cpu)) 0x0 cpu.
Definition dispatcher6 (cpu : CPU) : Result CPU :=
  call_entry (table6 (tables cpu)) 0x0 cpu.
Definition dispatcher7 (cpu : CPU) : Result CPU :=
  call_entry (table7 (tables cpu)) 0x0 cpu.
Definition dispatcher8 (cpu : CPU) : Result CPU :=
  call_entry (table8 (tables cpu)) (Z.land (opcode cpu) 0x000F) cpu.
Definition dispatcher9 (cpu : CPU) : Result CPU :=
  call_entry (table9 (tables cpu)) 0x0 cpu.
Definition dispatcherA (cpu : CPU) : Result CPU :=
  call_entry (tableA (tables cpu)) 0x0 cpu.
Definition dispatcherB (cpu : CPU) : Result CPU :=
  call_entry (tableB (tables cpu)) 0x0 cpu.
Definition dispatcherC (cpu : CPU) : Result CPU :=
  call_entry (tableC (tables cpu)) 0x0 cpu.
Definition dispatcherD (cpu : CPU) : Result CPU :=
  call_entry (tableD (tables cpu)) 0x0 cpu.
Definition dispatcherE (cpu : CPU) : Result CPU :=
  call_entry (tableE (tables cpu)) (Z.land (opcode cpu) 0x000F) cpu.
Definition dispatcherF (cpu : CPU) : Result CPU :=
  call_entry (tableF (tables cpu)) (Z.land (opcode cpu) 0x00FF) cpu.

Definition call_dispatcher (d : DispatcherFunc) (cpu : CPU) : Result CPU :=
  match d with
  | fp_dispatcher0 => dispatcher0 cpu | fp_dispatcher1 => dispatcher1 cpu
  | fp_dispatcher2 => dispatcher2 cpu | fp_dispatcher3 => dispatcher3 cpu
  | fp_dispatcher4 => dispatcher4 cpu | fp_dispatcher5 => dispatcher5 cpu
  | fp_dispatcher6 => dispatcher6 cpu | fp_dispatcher7 => dispatcher7 cpu
  | fp_dispatcher8 => dispatcher8 cpu | fp_dispatcher9 => dispatcher9 cpu
  | fp_dispatcherA => dispatcherA cpu | fp_dispatcherB => dispatcherB cpu
  | fp_dispatcherC => dispatcherC cpu | fp_dispatcherD => dispatcherD cpu
  | fp_dispatcherE => dispatcherE cpu | fp_dispatcherF => dispatcherF cpu
  end.

(** ** Jump-table set-up *)

Definition set_dispatcher (t : Tables) (x : list DispatcherFunc) : Tables :=
  mkTables x (table0 t) (table1 t) (table2 t) (table3 t) (table4 t) (table5 t)
    (table6 t) (table7 t) (table8 t) (table9 t) (tableA t) (tableB t) (tableC
    t) (tableD t) (tableE t) (tableF t).
Definition set_table0 (t : Tables) (x : list OpcodeFunc) : Tables :=
  mkTables (dispatcher t) x (table1 t) (table2 t) (table3 t) (table4 t)
    (table5 t) (table6 t) (table7 t) (table8 t) (table9 t) (tableA t) (tableB
    t) (tableC t) (tableD t) (tableE t) (tableF t).
Definition set_table1 (t : Tables) (x : list OpcodeFunc) : Tables :=
  mkTables (dispatcher t) (table0 t) x (table2 t) (table3 t) (table4 t)
    (table5 t) (table6 t) (table7 t) (table8 t) (table9 t) (tableA t) (tableB
    t) (tableC t) (tableD t) (tableE t) (tableF t).
Definition set_table2 (t : Tables) (x : list OpcodeFunc) : Tables :=
  mkTables (dispatcher t) (table0 t) (table1 t) x (table3 t) (table4 t)
    (table5 t) (table6 t) (table7 t) (table8 t) (table9 t) (tableA t) (tableB
    t) (tableC t) (tableD t) (tableE t) (tableF t).
Definition set_table3 (t : Tables) (x : list OpcodeFunc) : Tables :=
  mkTables (dispatcher t) (table0 t) (table1 t) (table2 t) x (table4 t)
    (table5 t) (table6 t) (table7 t) (table8 t) (table9 t) (tableA t) (tableB
    t) (tableC t) (tableD t) (tableE t) (tableF t).
Definition set_table4 (t : Tables) (x : list OpcodeFunc) : Tables :=
  mkTables (dispatcher t) (table0 t) (table1 t) (table2 t) (table3 t) x
    (table5 t) (table6 t) (table7 t) (table8 t) (table9 t) (tableA t) (tableB
    t) (tableC t) (tableD t) (tableE t) (tableF t).
Definition set_table5 (t : Tables) (x : list OpcodeFunc) : Tables :=
  mkTables (dispatcher t) (table0 t) (table1 t) (table2 t) (table3 t) (table4
    t) x (table6 t) (table7 t) (table8 t) (table9 t) (tableA t) (tableB t)
    (tableC t) (tableD t) (tableE t) (tableF t).
Definition set_table6 (t : Tables) (x : list OpcodeFunc) : Tables :=
  mkTables (dispatcher t) (table0 t) (table1 t) (table2 t) (table3 t) (table4
    t) (table5 t) x (table7 t) (table8 t) (table9 t) (tableA t) (tableB t)
    (tableC t) (tableD t) (tableE t) (tableF t).
Definition set_table7 (t : Tables) (x : list OpcodeFunc) : Tables :=
  mkTables (dispatcher t) (table0 t) (table1 t) (table2 t) (table3 t) (table4
    t) (table5 t) (table6 t) x (table8 t) (table9 t) (tableA t) (tableB t)
    (tableC t) (tableD t) (tableE t) (tableF t).
Definition set_table8 (t : Tables) (x : list OpcodeFunc) : Tables :=
  mkTables (dispatcher t) (table0 t) (table1 t) (table2 t) (table3 t) (table4
    t) (table5 t) (table6 t) (table7 t) x (table9 t) (tableA t) (tableB t)
    (tableC t) (tableD t) (tableE t) (tableF t).
Definition set_table9 (t : Tables) (x : list OpcodeFunc) : Tables :=
  mkTables (dispatcher t) (table0 t) (table1 t) (table2 t) (table3 t) (table4
    t) (table5 t) (table6 t) (table7 t) (table8 t) x (tableA t) (tableB t)
    (tableC t) (tableD t) (tableE t) (tableF t).
Definition set_tableA (t : Tables) (x : list OpcodeFunc) : Tables :=
  mkTables (dispatcher t) (table0 t) (table1 t) (table2 t) (table3 t) (table4
    t) (table5 t) (table6 t) (table7 t) (table8 t) (table9 t) x (tableB t)
    (tableC t) (tableD t) (tableE t) (tableF t).
Definition set_tableB (t : Tables) (x : list OpcodeFunc) : Tables :=
  mkTables (dispatcher t) (table0 t) (table1 t) (table2 t) (table3 t) (table4
    t) (table5 t) (table6 t) (table7 t) (table8 t) (table9 t) (tableA t) x
    (tableC t) (tableD t) (tableE t) (tableF t).
Definition set_tableC (t : Tables) (x : list OpcodeFunc) : Tables :=
  mkTables (dispatcher t) (table0 t) (table1 t) (table2 t) (table3 t) (table4
    t) (table5 t) (table6 t) (table7 t) (table8 t) (table9 t) (tableA t)
    (tableB t) x (tableD t) (tableE t) (tableF t).
Definition set_tableD (t : Tables) (x : list OpcodeFunc) : Tables :=
  mkTables (dispatcher t) (table0 t) (table1 t) (table2 t) (table3 t) (table4
    t) (table5 t) (table6 t) (table7 t) (table8 t) (table9 t) (tableA t)
    (tableB t) (tableC t) x (tableE t) (tableF t).
Definition set_tableE (t : Tables) (x : list OpcodeFunc) : Tables :=
  mkTables (dispatcher t) (table0 t) (table1 t) (table2 t) (table3 t) (table4
    t) (table5 t) (table6 t) (table7 t) (table8 t) (table9 t) (tableA t)
    (tableB t) (tableC t) (tableD t) x (tableF t).
Definition set_tableF (t : Tables) (x : list OpcodeFunc) : Tables :=
  mkTables (dispatcher t) (table0 t) (table1 t) (table2 t) (table3 t) (table4
    t) (table5 t) (table6 t) (table7 t) (table8 t) (table9 t) (tableA t)
    (tableB t) (tableC t) (tableD t) (tableE t) x.

(** [table[k] = f] for a constant [k]: inside the table as declared, or a
    fault. *)
Definition assign (table : list OpcodeFunc) (k : Z) (f : OpcodeFunc)
  : Result (list OpcodeFunc) :=
  if (Z.to_nat k <? length table)%nat then Ok (<[Z.to_nat k := f]> table)
  else Fault (TableFault k).

Definition assign_table0 (t : Tables) (k : Z) (f : OpcodeFunc) : Result Tables :=
  do l <- assign (table0 t) k f; Ok (set_table0 t l).
Definition assign_table1 (t : Tables) (k : Z) (f : OpcodeFunc) : Result Tables :=
  do l <- assign (table1 t) k f; Ok (set_table1 t l).
Definition assign_table2 (t : Tables) (k : Z) (f : OpcodeFunc) : Result Tables :=
  do l <- assign (table2 t) k f; Ok (set_table2 t l).
Definition assign_table3 (t : Tables) (k : Z) (f : OpcodeFunc) : Result Tables :=
  do l <- assign (table3 t) k f; Ok (set_table3 t l).
Definition assign_table4 (t : Tables) (k : Z) (f : OpcodeFunc) : Result Tables :=
  do l <- assign (table4 t) k f; Ok (set_table4 t l).
Definition assign_table5 (t : Tables) (k : Z) (f : OpcodeFunc) : Result Tables :=
  do l <- assign (table5 t) k f; Ok (set_table5 t l).
Definition assign_table6 (t : Tables) (k : Z) (f : OpcodeFunc) : Result Tables :=
  do l <- assign (table6 t) k f; Ok (set_table6 t l).
Definition assign_table7 (t : Tables) (k : Z) (f : OpcodeFunc) : Result Tables :=
  do l <- assign (table7 t) k f; Ok (set_table7 t l).
Definition assign_table8 (t : Tables) (k : Z) (f : OpcodeFunc) : Result Tables :=
  do l <- assign (table8 t) k f; Ok (set_table8 t l).
Definition assign_table9 (t : Tables) (k : Z) (f : OpcodeFunc) : Result Tables :=
  do l <- assign (table9 t) k f; Ok (set_table9 t l).
Definition assign_tableA (t : Tables) (k : Z) (f : OpcodeFunc) : Result Tables :=
  do l <- assign (tableA t) k f; Ok (set_tableA t l).
Definition assign_tableB (t : Tables) (k : Z) (f : OpcodeFunc) : Result Tables :=
  do l <- assign (tableB t) k f; Ok (set_tableB t l).
Definition assign_tableC (t : Tables) (k : Z) (f : OpcodeFunc) : Result Tables :=
  do l <- assign (tableC t) k f; Ok (set_tableC t l).
Definition assign_tableD (t : Tables) (k : Z) (f : OpcodeFunc) : Result Tables :=
  do l <- assign (tableD t) k f; Ok (set_tableD t l).
Definition assign_tableE (t : Tables) (k : Z) (f : OpcodeFunc) : Result Tables :=
  do l <- assign (tableE t) k f; Ok (set_tableE t l).
Definition assign_tableF (t : Tables) (k : Z) (f : OpcodeFunc) : Result Tables :=
  do l <- assign (tableF t) k f; Ok (set_tableF t l).

(** [initOpcodeTable(table, num)]: all [num] entries point at [OP_0nnn]. *)
Definition initOpcodeTable (num : nat) : list OpcodeFunc :=
  replicate num fp_OP_0nnn.

Definition setupDispatcher (cpu : CPU) : CPU :=
  set_tables cpu (set_dispatcher (tables cpu)
    [ fp_dispatcher0; fp_dispatcher1; fp_dispatcher2; fp_dispatcher3;
      fp_dispatcher4; fp_dispatcher5; fp_dispatcher6; fp_dispatcher7;
      fp_dispatcher8; fp_dispatcher9; fp_dispatcherA; fp_dispatcherB;
      fp_dispatcherC; fp_dispatcherD; fp_dispatcherE; fp_dispatcherF ]).

Definition assignOpcodeTableFunctions (cpu : CPU) : Result CPU :=
  let t := tables cpu in
  do t <- assign_table0 t 0x0 fp_OP_00E0;
  do t <- assign_table0 t 0xE fp_OP_00EE;
  do t <- assign_table1 t 0x0 fp_OP_1nnn;
  do t <- assign_table2 t 0x0 fp_OP_2nnn;
  do t <- assign_table3 t 0x0 fp_OP_3xkk;
  do t <- assign_table4 t 0x0 fp_OP_4xkk;
  do t <- assign_table5 t 0x0 fp_OP_5xy0;
  do t <- assign_table6 t 0x0 fp_OP_6xkk;
  do t <- assign_table7 t 0x0 fp_OP_7xkk;
  do t <- assign_table8 t 0x0 fp_OP_8xy0;
  do t <- assign_table8 t 0x1 fp_OP_8xy1;
  do t <- assign_table8 t 0x2 fp_OP_8xy2;
  do t <- assign_table8 t 0x3 fp_OP_8xy3;
  do t <- assign_table8 t 0x4 fp_OP_8xy4;
  do t <- assign_table8 t 0x5 fp_OP_8xy5;
  do t <- assign_table8 t 0x6 fp_OP_8xy6;
  do t <- assign_table8 t 0x7 fp_OP_8xy7;
  do t <- assign_table8 t 0xE fp_OP_8xyE;
  do t <- assign_table9 t 0x0 fp_OP_9xy0;
  do t <- assign_tableA t 0x0 fp_OP_Annn;
  do t <- assign_tableB t 0x0 fp_OP_Bnnn;
  do t <- assign_tableC t 0x0 fp_OP_Cxkk;
  do t <- assign_tableD t 0x0 fp_OP_Dxyn;
  do t <- assign_tableE t 0xE fp_OP_Ex9E;
  do t <- assign_tableE t 0x1 fp_OP_ExA1;
  do t <- assign_tableF t 0x07 fp_OP_Fx07;
  do t <- assign_tableF t 0x0A fp_OP_Fx0A;
  do t <- assign_tableF t 0x15 fp_OP_Fx15;
  do t <- assign_tableF t 0x18 fp_OP_Fx18;
  do t <- assign_tableF t 0x1E fp_OP_Fx1E;
  do t <- assign_tableF t 0x29 fp_OP_Fx29;
  do t <- assign_tableF t 0x33 fp_OP_Fx33;
  do t <- assign_tableF t 0x55 fp_OP_Fx55;
  do t <- assign_tableF t 0x65 fp_OP_Fx65;
  Ok (set_tables cpu t).

Section TableDeclarations.

(** [entries n] is [sizeof(cpu->tableN) / sizeof(cpu->tableN[0])], the
    number of entries table [n] is declared with. *)
Variable entries : nat -> nat.

Definition setupOpcodeTables (cpu : CPU) : CPU :=
  let t := tables cpu in
  let t := set_table0 t (initOpcodeTable (entries 0)) in
  let t := set_table1 t (initOpcodeTable (entries 1)) in
  let t := set_table2 t (initOpcodeTable (entries 2)) in
  let t := set_table3 t (initOpcodeTable (entries 3)) in
  let t := set_table4 t (initOpcodeTable (entries 4)) in
  let t := set_table5 t (initOpcodeTable (entries 5)) in
  let t := set_table6 t (initOpcodeTable (entries 6)) in
  let t := set_table7 t (initOpcodeTable (entries 7)) in
  let t := set_table8 t (initOpcodeTable (entries 8)) in
  let t := set_table9 t (initOpcodeTable (entries 9)) in
  let t := set_tableA t (initOpcodeTable (entries 10)) in
  let t := set_tableB t (initOpcodeTable (entries 11)) in
  let t := set_tableC t (initOpcodeTable (entries 12)) in
  let t := set_tableD t (initOpcodeTable (entries 13)) in
  let t := set_tableE t (initOpcodeTable (entries 14)) in
  let t := set_tableF t (initOpcodeTable (entries 15)) in
  set_tables cpu t.

(** The cleared structure.  A null function pointer has no counterpart in
    [OpcodeFunc]; the tables of a cleared [CPU] are empty until
    [setupDispatcher] and [setupOpcodeTables] have written every entry. *)
Definition cleared (seed0 : Z) : CPU :=
  mkCPU (replicate (Z.to_nat MEMORY_SIZE) 0)
        (replicate (Z.to_nat REGISTER_COUNT) 0)
        0 0
        (replicate (Z.to_nat STACK_LEVELS) 0)
        0 0 0 0
        (replicate (Z.to_nat KEY_COUNT) 0)
        (replicate (Z.to_nat (VIDEO_WIDTH * VIDEO_HEIGHT)) 0)
        (mkTables [] [] [] [] [] [] [] [] [] [] [] [] [] [] [] [] [])
        seed0.

Definition Chip8_Create (cpu : CPU) : Result CPU :=
  (* Initialize registers and memory once *)
  let cpu := cleared (seed cpu) in
  let cpu := set_pc cpu START_ADDRESS in
  (* Load fontset *)
  let cpu := set_memory cpu
               (copyMemory (memory cpu) FONTSET_ADDRESS fontset FONT_SIZE) in
  (* Setup dispatcher function pointers *)
  let cpu := setupDispatcher cpu in
  (* Set opcode table function pointers to OP_0nnn initially *)
  let cpu := setupOpcodeTables cpu in
  (* Populate opcode table function pointers with corresponding functions *)
  assignOpcodeTableFunctions cpu.

End TableDeclarations.

(** ** [Chip8_Cycle], in the three steps its body is written in *)

(** Fetch opcode; increment program counter. *)
Definition Cycle_fetch (cpu : CPU) : Result CPU :=
  do hi <- load MemoryFault MEMORY_SIZE (memory cpu) (pc cpu);
  do lo <- load MemoryFault MEMORY_SIZE (memory cpu) (pc cpu + 1);
  let cpu := set_opcode cpu (u16 (Z.lor (Z.shiftl hi 8) lo)) in
  Ok (set_pc cpu (u16 (pc cpu + 2))).

(** Decode opcode; execute opcode. *)
Definition Cycle_execute (cpu : CPU) : Result CPU :=
  let nibble := u8 (Z.shiftr (Z.land (opcode cpu) 0xF000) 12) in
  match dispatcher (tables cpu) !! Z.to_nat nibble with
  | Some d => call_dispatcher d cpu
  | None => Fault (TableFault nibble)
  end.

(** Update delay timer and sound timer if they have been set. *)
Definition Cycle_timers (cpu : CPU) : CPU :=
  let cpu := if 0 <? delaytimer cpu
             then set_delaytimer cpu (u8 (delaytimer cpu - 1)) else cpu in
  if 0 <? soundtimer cpu
  then set_soundtimer cpu (u8 (soundtimer cpu - 1)) else cpu.

Definition Chip8_Cycle (cpu : CPU) : Result CPU :=
  do cpu <- Cycle_fetch cpu;
  do cpu <- Cycle_execute cpu;
  Ok (Cycle_timers cpu).

Definition Chip8_Destroy (cpu : CPU) : CPU := cpu.

(** ** Operand fields of the latched opcode, as every handler decodes them *)

Definition op_x (cpu : CPU) : Z := Z.shiftr (Z.land (opcode cpu) 0x0F00) 8.
Definition op_y (cpu : CPU) : Z := Z.shiftr (Z.land (opcode cpu) 0x00F0) 4.
Definition op_n (cpu : CPU) : Z := Z.land (opcode cpu) 0x000F.
Definition op_kk (cpu : CPU) : Z := Z.land (opcode cpu) 0x00FF.
Definition op_nnn (cpu : CPU) : Z := Z.land (opcode cpu) 0x0FFF.
Definition op_top (cpu : CPU) : Z := Z.shiftr (Z.land (opcode cpu) 0xF000) 12.

(** ** Well-formed machine states: every field holds a value of its C type *)

Definition is_u8 (z : Z) : bool := (0 <=? z) && (z <? 256).
Definition is_u16 (z : Z) : bool := (0 <=? z) && (z <? 65536).
Definition is_u32 (z : Z) : bool := (0 <=? z) && (z <? 4294967296).

Definition array_of (elem : Z -> bool) (size : Z) (a : list Z) : bool :=
  (Z.of_nat (length a) =? size) && forallb elem a.

Definition wf_CPU (cpu : CPU) : bool :=
  array_of is_u8 MEMORY_SIZE (memory cpu)
  && array_of is_u8 REGISTER_COUNT (v cpu)
  && is_u16 (i cpu)
  && is_u16 (pc cpu)
  && array_of is_u16 STACK_LEVELS (stack cpu)
  && is_u16 (sp cpu)
  && is_u16 (opcode cpu)
  && is_u8 (delaytimer cpu)
  && is_u8 (soundtimer cpu)
  && array_of is_u8 KEY_COUNT (key cpu)
  && array_of is_u32 (VIDEO_WIDTH * VIDEO_HEIGHT) (gfx cpu)
  && is_u32 (seed cpu).

Record WF (cpu : CPU) : Prop := mkWF {
  wf_memory_len : length (memory cpu) = 4096%nat;
  wf_memory : forall k, 0 <= get (memory cpu) k < 256;
  wf_v_len : length (v cpu) = 16%nat;
  wf_v : forall k, 0 <= get (v cpu) k < 256;
  wf_i : 0 <= i cpu < 65536;
  wf_pc : 0 <= pc cpu < 65536;
  wf_stack_len : length (stack cpu) = 16%nat;
  wf_stack : forall k, 0 <= get (stack cpu) k < 65536;
  wf_sp : 0 <= sp cpu < 65536;
  wf_opcode : 0 <= opcode cpu < 65536;
  wf_delaytimer : 0 <= delaytimer cpu < 256;
  wf_soundtimer : 0 <= soundtimer cpu < 256;
  wf_key_len : length (key cpu) = 16%nat;
  wf_key : forall k, 0 <= get (key cpu) k < 256;
  wf_gfx_len : length (gfx cpu) = 2048%nat;
  wf_gfx : forall k, 0 <= get (gfx cpu) k < 4294967296;
  wf_seed : 0 <= seed cpu < 4294967296
}.

(** ** The loop bodies of [OP_Dxyn], named

    [OP_Dxyn] is the row loop over [Dxyn_row], which is the column loop over
    [Dxyn_pixel] (lemma [OP_Dxyn_loops]). *)

Definition Dxyn_pixel (xPos yPos spriteByte row col : Z) (cpu : CPU)
  : Result CPU :=
  let spritePixel := Z.land spriteByte (Z.shiftr 0x80 col) in
  let screenIndex := u16 ((yPos + row) * VIDEO_WIDTH + (xPos + col)) in
  if negb (spritePixel =? 0) then
    do screenPixel <- load VideoFault (VIDEO_WIDTH * VIDEO_HEIGHT)
                           (gfx cpu) screenIndex;
    let cpu := if screenPixel =? 0xFFFFFFFF
               then set_v cpu (put (v cpu) 0xF 1) else cpu in
    do cells <- store VideoFault (VIDEO_WIDTH * VIDEO_HEIGHT) (gfx cpu)
                      screenIndex (Z.lxor screenPixel 0xFFFFFFFF);
    Ok (set_gfx cpu cells)
  else Ok cpu.

Definition Dxyn_row (xPos yPos row : Z) (cpu : CPU) : Result CPU :=
  do spriteByte <- load MemoryFault MEMORY_SIZE (memory cpu) (i cpu + row);
  for_loop 8 0 (Dxyn_pixel xPos yPos spriteByte row) cpu.

(** ** The memory-indexed handlers as the specification words them

    The same four handlers with every address formed from the index register
    masked to 12 bits, [(I + offset) & 0x0FFF]; the handlers above are
    compared with these. *)

Definition masked (addr : Z) : Z := Z.land addr 0x0FFF.

Definition Dxyn_row_masked (xPos yPos row : Z) (cpu : CPU) : Result CPU :=
  do spriteByte <- load MemoryFault MEMORY_SIZE (memory cpu)
                        (masked (i cpu + row));
  for_loop 8 0 (Dxyn_pixel xPos yPos spriteByte row) cpu.

Definition OP_Dxyn_masked (cpu : CPU) : Result CPU :=
  let x := Z.shiftr (Z.land (opcode cpu) 0x0F00) 8 in
  let y := Z.shiftr (Z.land (opcode cpu) 0x00F0) 4 in
  let height := Z.land (opcode cpu) 0x000F in
  let xPos := get (v cpu) x mod VIDEO_WIDTH in
  let yPos := get (v cpu) y mod VIDEO_HEIGHT in
  let cpu := set_v cpu (put (v cpu) 0xF 0) in
  for_loop (Z.to_nat height) 0 (Dxyn_row_masked xPos yPos) cpu.

Definition OP_Fx33_masked (cpu : CPU) : Result CPU :=
  let x := Z.shiftr (Z.land (opcode cpu) 0x0F00) 8 in
  let value := get (v cpu) x in
  do m <- store MemoryFault MEMORY_SIZE (memory cpu) (masked (i cpu + 2))
                (value mod 10);
  let cpu := set_memory cpu m in
  let value := value / 10 in
  do m <- store MemoryFault MEMORY_SIZE (memory cpu) (masked (i cpu + 1))
                (value mod 10);
  let cpu := set_memory cpu m in
  let value := value / 10 in
  do m <- store MemoryFault MEMORY_SIZE (memory cpu) (masked (i cpu))
                (value mod 10);
  Ok (set_memory cpu m).

Definition OP_Fx55_masked (cpu : CPU) : Result CPU :=
  let x := Z.shiftr (Z.land (opcode cpu) 0x0F00) 8 in
  for_loop (Z.to_nat (x + 1)) 0 (fun k cpu =>
    do m <- store MemoryFault MEMORY_SIZE (memory cpu) (masked (i cpu + k))
                  (get (v cpu) k);
    Ok (set_memory cpu m)) cpu.

Definition OP_Fx65_masked (cpu : CPU) : Result CPU :=
  let x := Z.shiftr (Z.land (opcode cpu) 0x0F00) 8 in
  for_loop (Z.to_nat (x + 1)) 0 (fun k cpu =>
    do b <- load MemoryFault MEMORY_SIZE (memory cpu) (masked (i cpu + k));
    Ok (set_v cpu (put (v cpu) k b))) cpu.

(** ** Vocabulary of the statements *)

(** Pixel [col] of a sprite row, leftmost first. *)
Definition sprite_bit (spriteByte col : Z) : bool :=
  Z.testbit spriteByte (7 - col).

(** The sprite of a draw, as laid over the screen: [sprite_covers] holds of
    row [r] and column [c] when sprite rows [row0 .. row0 + rows - 1], placed
    with their left edge at column [xPos] and sprite row 0 on row [yPos],
    have a set pixel there. *)
Definition sprite_covers (mem : list Z) (I xPos yPos row0 : Z) (rows : nat)
    (r c : Z) : bool :=
  (yPos + row0 <=? r) && (r <? yPos + row0 + Z.of_nat rows)
  && (xPos <=? c) && (c <? xPos + 8)
  && sprite_bit (get mem (I + (r - yPos))) (c - xPos).

(** The set pixels of the sprite the latched draw opcode names. *)
Definition sprite_at (cpu : CPU) (r c : Z) : bool :=
  sprite_covers (memory cpu) (i cpu)
    (get (v cpu) (op_x cpu) mod VIDEO_WIDTH)
    (get (v cpu) (op_y cpu) mod VIDEO_HEIGHT)
    0 (Z.to_nat (op_n cpu)) r c.

(** No set pixel of the sprite the latched draw opcode names has its
    destination outside the framebuffer. *)
Definition sprite_inside (cpu : CPU) : bool :=
  let xPos := get (v cpu) (op_x cpu) mod VIDEO_WIDTH in
  let yPos := get (v cpu) (op_y cpu) mod VIDEO_HEIGHT in
  forallb (fun row =>
    forallb (fun col =>
      implb (sprite_bit (get (memory cpu) (i cpu + row)) col)
            ((xPos + col <? VIDEO_WIDTH) && (yPos + row <? VIDEO_HEIGHT)))
      (seqZ 0 8))
    (seqZ 0 (op_n cpu)).

Definition LIT : Z := 0xFFFFFFFF.

(** The opcodes whose sub-index has no handler assigned by
    [assignOpcodeTableFunctions]. *)
Definition unassigned (op : Z) : bool :=
  let top := Z.shiftr (Z.land op 0xF000) 12 in
  let low := Z.land op 0x000F in
  let byte := Z.land op 0x00FF in
  (top =? 0x0) && negb (existsb (Z.eqb low) [0x0; 0xE])
  || (top =? 0x8) && existsb (Z.eqb low) [0x8; 0x9; 0xA; 0xB; 0xC; 0xD; 0xF]
  || (top =? 0xE) && negb (existsb (Z.eqb low) [0x1; 0xE])
  || (top =? 0xF)
     && negb (existsb (Z.eqb byte)
                [0x07; 0x0A; 0x15; 0x18; 0x1E; 0x29; 0x33; 0x55; 0x65]).

(** The sub-index of [op] lies inside the sub-table its dispatcher reads,
    for tables declared with [entries n] entries. *)
Definition declared (entries : nat -> nat) (op : Z) : bool :=
  let top := Z.shiftr (Z.land op 0xF000) 12 in
  let low := Z.land op 0x000F in
  let byte := Z.land op 0x00FF in
  if top =? 0xF then (Z.to_nat byte <? entries 15)%nat
  else (Z.to_nat low <? entries (Z.to_nat top))%nat.

(** The number of entries of a table that point at a handler other than
    [OP_0nnn]. *)
Definition assigned_entries (table : list OpcodeFunc) : nat :=
  length (filter (fun f => f <> fp_OP_0nnn) table).

(** The tables [Chip8_Create] leaves behind, in closed form (lemma
    [Chip8_Create_tables]). *)
Definition single (f : OpcodeFunc) (num : nat) : list OpcodeFunc :=
  <[0%nat := f]> (initOpcodeTable num).

Definition installed (entries : nat -> nat) : Tables :=
  mkTables
    [ fp_dispatcher0; fp_dispatcher1; fp_dispatcher2; fp_dispatcher3;
      fp_dispatcher4; fp_dispatcher5; fp_dispatcher6; fp_dispatcher7;
      fp_dispatcher8; fp_dispatcher9; fp_dispatcherA; fp_dispatcherB;
      fp_dispatcherC; fp_dispatcherD; fp_dispatcherE; fp_dispatcherF ]
    (<[14%nat := fp_OP_00EE]> (<[0%nat := fp_OP_00E0]>
       (initOpcodeTable (entries 0%nat))))
    (single fp_OP_1nnn (entries 1%nat))
    (single fp_OP_2nnn (entries 2%nat))
    (single fp_OP_3xkk (entries 3%nat))
    (single fp_OP_4xkk (entries 4%nat))
    (single fp_OP_5xy0 (entries 5%nat))
    (single fp_OP_6xkk (entries 6%nat))
    (single fp_OP_7xkk (entries 7%nat))
    (<[14%nat := fp_OP_8xyE]> (<[7%nat := fp_OP_8xy7]>
     (<[6%nat := fp_OP_8xy6]> (<[5%nat := fp_OP_8xy5]>
     (<[4%nat := fp_OP_8xy4]> (<[3%nat := fp_OP_8xy3]>
     (<[2%nat := fp_OP_8xy2]> (<[1%nat := fp_OP_8xy1]>
     (<[0%nat := fp_OP_8xy0]> (initOpcodeTable (entries 8%nat)))))))))))
    (single fp_OP_9xy0 (entries 9%nat))
    (single fp_OP_Annn (entries 10%nat))
    (single fp_OP_Bnnn (entries 11%nat))
    (single fp_OP_Cxkk (entries 12%nat))
    (single fp_OP_Dxyn (entries 13%nat))
    (<[1%nat := fp_OP_ExA1]> (<[14%nat := fp_OP_Ex9E]>
       (initOpcodeTable (entries 14%nat))))
    (<[0x65%nat := fp_OP_Fx65]> (<[0x55%nat := fp_OP_Fx55]>
     (<[0x33%nat := fp_OP_Fx33]> (<[0x29%nat := fp_OP_Fx29]>
     (<[0x1E%nat := fp_OP_Fx1E]> (<[0x18%nat := fp_OP_Fx18]>
     (<[0x15%nat := fp_OP_Fx15]> (<[0x0A%nat := fp_OP_Fx0A]>
     (<[0x07%nat := fp_OP_Fx07]> (initOpcodeTable (entries 15%nat))))))))))).

Definition all_unlit (cells : list Z) : bool :=
  forallb (fun cell => cell =? 0) cells.

Definition is_Ok {A : Type} (r : Result A) : bool :=
  match r with
  | Ok _ => true
  | Fault _ => false
  end.

(** The framebuffer cell the draw plots pixel [col] of sprite row [row] at:
    one linear index, formed from both coordinates without a test of
    either. *)
Definition pixel_index (xPos yPos row col : Z) : Z :=
  (yPos + row) * VIDEO_WIDTH + (xPos + col).

(** Some set pixel of sprite rows [row0 .. row0 + rows - 1] is plotted at
    cell [idx]. *)
Definition hits_rows (mem : list Z) (I xPos yPos row0 : Z) (rows : nat)
    (idx : Z) : bool :=
  existsb (fun row =>
    existsb (fun col =>
      sprite_bit (get mem (I + row)) col
      && (pixel_index xPos yPos row col =? idx))
      (seqZ 0 8))
    (seqZ row0 (Z.of_nat rows)).

(** Some set pixel of the sprite the latched draw opcode names is plotted at
    cell [idx]. *)
Definition sprite_hits (cpu : CPU) (idx : Z) : bool :=
  hits_rows (memory cpu) (i cpu)
    (get (v cpu) (op_x cpu) mod VIDEO_WIDTH)
    (get (v cpu) (op_y cpu) mod VIDEO_HEIGHT)
    0 (Z.to_nat (op_n cpu)) idx.

(** Every set pixel of that sprite is plotted at a cell of the framebuffer:
    its index is below 64 * 32. *)
Definition sprite_in_gfx (cpu : CPU) : bool :=
  let xPos := get (v cpu) (op_x cpu) mod VIDEO_WIDTH in
  let yPos := get (v cpu) (op_y cpu) mod VIDEO_HEIGHT in
  forallb (fun row =>
    forallb (fun col =>
      implb (sprite_bit (get (memory cpu) (i cpu + row)) col)
            (pixel_index xPos yPos row col <? VIDEO_WIDTH * VIDEO_HEIGHT))
      (seqZ 0 8))
    (seqZ 0 (op_n cpu)).

(** Every sub-index a dispatcher can form lies inside its sub-table: the
    tables indexed by a low nibble have 16 entries and the table indexed by
    a low byte has 256. *)
Definition full_tables (entries : nat -> nat) : bool :=
  (16 <=? entries 0)%nat && (16 <=? entries 8)%nat && (16 <=? entries 14)%nat
  && (256 <=? entries 15)%nat.

(** ** The two-level decode in closed form

    The handler the tables of [Chip8_Create] hold for an opcode: chosen by
    the top nibble, then by the low nibble in families 0x0, 0x8 and 0xE and
    by the low byte in family 0xF.  The remaining nibbles take no part. *)

Definition decode (op : Z) : OpcodeFunc :=
  let top := Z.shiftr (Z.land op 0xF000) 12 in
  let low := Z.land op 0x000F in
  let byte := Z.land op 0x00FF in
  if top =? 0x0 then
    if low =? 0x0 then fp_OP_00E0
    else if low =? 0xE then fp_OP_00EE
    else fp_OP_0nnn
  else if top =? 0x1 then fp_OP_1nnn
  else if top =? 0x2 then fp_OP_2nnn
  else if top =? 0x3 then fp_OP_3xkk
  else if top =? 0x4 then fp_OP_4xkk
  else if top =? 0x5 then fp_OP_5xy0
  else if top =? 0x6 then fp_OP_6xkk
  else if top =? 0x7 then fp_OP_7xkk
  else if top =? 0x8 then
    if low =? 0x0 then fp_OP_8xy0
    else if low =? 0x1 then fp_OP_8xy1
    else if low =? 0x2 then fp_OP_8xy2
    else if low =? 0x3 then fp_OP_8xy3
    else if low =? 0x4 then fp_OP_8xy4
    else if low =? 0x5 then fp_OP_8xy5
    else if low =? 0x6 then fp_OP_8xy6
    else if low =? 0x7 then fp_OP_8xy7
    else if low =? 0xE then fp_OP_8xyE
    else fp_OP_0nnn
  else if top =? 0x9 then fp_OP_9xy0
  else if top =? 0xA then fp_OP_Annn
  else if top =? 0xB then fp_OP_Bnnn
  else if top =? 0xC then fp_OP_Cxkk
  else if top =? 0xD then fp_OP_Dxyn
  else if top =? 0xE then
    if low =? 0xE then fp_OP_Ex9E
    else if low =? 0x1 then fp_OP_ExA1
    else fp_OP_0nnn
  else
    if byte =? 0x07 then fp_OP_Fx07
    else if byte =? 0x0A then fp_OP_Fx0A
    else if byte =? 0x15 then fp_OP_Fx15
    else if byte =? 0x18 then fp_OP_Fx18
    else if byte =? 0x1E then fp_OP_Fx1E
    else if byte =? 0x29 then fp_OP_Fx29
    else if byte =? 0x33 then fp_OP_Fx33
    else if byte =? 0x55 then fp_OP_Fx55
    else if byte =? 0x65 then fp_OP_Fx65
    else fp_OP_0nnn.

(** The index a dispatcher reads its sub-table at. *)
Definition sub_index (op : Z) : Z :=
  let top := Z.shiftr (Z.land op 0xF000) 12 in
  if (top =? 0x0) || (top =? 0x8) || (top =? 0xE) then Z.land op 0x000F
  else if top =? 0xF then Z.land op 0x00FF
  else 0x0.

Definition in_table (entries : nat -> nat) (op : Z) : bool :=
  (Z.to_nat (sub_index op)
   <? entries (Z.to_nat (Z.shiftr (Z.land op 0xF000) 12)))%nat.

(** ** Footprints

    The fields of the machine a handler may assign, read off its body.  No
    handler assigns [opcode], [key] or the jump tables. *)

Inductive Field : Type :=
  | F_memory | F_v | F_i | F_pc | F_stack | F_sp
  | F_delaytimer | F_soundtimer | F_gfx | F_seed.

Definition writes (f : OpcodeFunc) : list Field :=
  match f with
  | fp_OP_00E0 => [F_gfx]
  | fp_OP_00EE => [F_sp; F_pc]
  | fp_OP_0nnn => []
  | fp_OP_1nnn => [F_pc]
  | fp_OP_2nnn => [F_stack; F_sp; F_pc]
  | fp_OP_3xkk | fp_OP_4xkk | fp_OP_5xy0 | fp_OP_9xy0 => [F_pc]
  | fp_OP_6xkk | fp_OP_7xkk => [F_v]
  | fp_OP_8xy0 | fp_OP_8xy1 | fp_OP_8xy2 | fp_OP_8xy3 | fp_OP_8xy4
  | fp_OP_8xy5 | fp_OP_8xy6 | fp_OP_8xy7 | fp_OP_8xyE => [F_v]
  | fp_OP_Annn => [F_i]
  | fp_OP_Bnnn => [F_pc]
  | fp_OP_Cxkk => [F_v; F_seed]
  | fp_OP_Dxyn => [F_v; F_gfx]
  | fp_OP_Ex9E | fp_OP_ExA1 => [F_pc]
  | fp_OP_Fx07 => [F_v]
  | fp_OP_Fx0A => [F_v; F_pc]
  | fp_OP_Fx15 => [F_delaytimer]
  | fp_OP_Fx18 => [F_soundtimer]
  | fp_OP_Fx1E | fp_OP_Fx29 => [F_i]
  | fp_OP_Fx33 | fp_OP_Fx55 => [F_memory]
  | fp_OP_Fx65 => [F_v]
  end.

Definition same_field (fld : Field) (a b : CPU) : Prop :=
  match fld with
  | F_memory => memory b = memory a
  | F_v => v b = v a
  | F_i => i b = i a
  | F_pc => pc b = pc a
  | F_stack => stack b = stack a
  | F_sp => sp b = sp a
  | F_delaytimer => delaytimer b = delaytimer a
  | F_soundtimer => soundtimer b = soundtimer a
  | F_gfx => gfx b = gfx a
  | F_seed => seed b = seed a
  end.

(** [b] differs from [a] in the fields [ws] at most. *)
Definition only_writes (ws : list Field) (a b : CPU) : Prop :=
  opcode b = opcode a /\ key b = key a /\ tables b = tables a /\
  forall fld, ~ In fld ws -> same_field fld a b.

(** ** Vocabulary of the further properties *)

(** The least number of entries table [n] can be declared with for the
    assignments of [assignOpcodeTableFunctions] to stay inside it: one past
    the highest sub-index assigned. *)
Definition least_entries (n : nat) : nat :=
  match n with
  | 0 | 8 | 14 => 0xF
  | 15 => 0x66
  | _ => 1
  end%nat.

Definition long_enough (entries : nat -> nat) : bool :=
  forallb (fun n => (least_entries n <=? entries n)%nat) (seq 0 16).

(** The glyph table is in memory at [FONTSET_ADDRESS]. *)
Definition font_loaded (cpu : CPU) : bool :=
  forallb (fun k => get (memory cpu) (FONTSET_ADDRESS + k) =? get fontset k)
          (seqZ 0 (Z.of_nat (length fontset))).

(** The handlers that store a flag in V[0xF]. *)
Definition flag_writers : list OpcodeFunc :=
  [ fp_OP_8xy4; fp_OP_8xy5; fp_OP_8xy6; fp_OP_8xy7; fp_OP_8xyE; fp_OP_Dxyn ].

(** The indexes handler [f] forms on [cpu] lie inside their arrays.  For
    the draw this asks that no set sprite pixel leaves the screen, which is
    more than the handler needs: a pixel past the right edge still has its
    index inside the framebuffer unless it is on the last row. *)
Definition in_bounds (f : OpcodeFunc) (cpu : CPU) : bool :=
  match f with
  | fp_OP_00EE => (1 <=? sp cpu) && (sp cpu <=? STACK_LEVELS)
  | fp_OP_2nnn => sp cpu <? STACK_LEVELS
  | fp_OP_Dxyn => sprite_inside cpu && (i cpu + op_n cpu <=? MEMORY_SIZE)
  | fp_OP_Ex9E | fp_OP_ExA1 => get (v cpu) (op_x cpu) <? KEY_COUNT
  | fp_OP_Fx33 => i cpu + 2 <? MEMORY_SIZE
  | fp_OP_Fx55 | fp_OP_Fx65 => i cpu + op_x cpu <? MEMORY_SIZE
  | _ => true
  end.

(** ** Concrete machines

    The tables declared with an entry for every sub-index, the machine
    [Chip8_Create] builds with them, and the states the examples run on. *)

Definition every_subindex (n : nat) : nat :=
  match n with
  | 0 | 8 | 14 => 16
  | 15 => 256
  | _ => 1
  end%nat.

Definition initial_seed : Z := 0xB16B00B5.

Definition state_of (r : Result CPU) : CPU :=
  match r with
  | Ok cpu => cpu
  | Fault _ => cleared 0
  end.

Definition power_on : CPU :=
  state_of (Chip8_Create every_subindex (cleared initial_seed)).

(** [memory[a] = b] and [V[k] = b] written from outside, to set a scene. *)
Definition poke (cpu : CPU) (a b : Z) : CPU :=
  set_memory cpu (put (memory cpu) a b).
Definition set_reg (cpu : CPU) (k b : Z) : CPU :=
  set_v cpu (put (v cpu) k b).

(** ADD V0, V1 with V0 = 0xFF and V1 = 0x01. *)
Definition carry_scene : CPU :=
  set_opcode (set_reg (set_reg power_on 0 0xFF) 1 0x01) 0x8014.

(** SUBN V0, V1 with V0 = V1 = 4. *)
Definition subn_scene : CPU :=
  set_opcode (set_reg (set_reg power_on 0 4) 1 4) 0x8017.

(** ADD VF, V1 with VF = 200 and V1 = 100. *)
Definition flag_destination_scene : CPU :=
  set_opcode (set_reg (set_reg power_on 0xF 200) 1 100) 0x8F14.

(** CALL 0xABC from pc = 0x202 with fifteen return addresses stacked. *)
Definition deep_call_scene : CPU :=
  set_sp (set_opcode (set_pc power_on 0x0202) 0x2ABC) 15.

(** LD [I], V3 with I = 0x300 and V0 .. V3 = 1, 2, 3, 4. *)
Definition dump_scene : CPU :=
  set_opcode
    (set_i (set_reg (set_reg (set_reg (set_reg power_on 0 1) 1 2) 2 3) 3 4)
           0x300)
    0xF355.

(** LD [I], V0 after LD I, 0xFFF and ADD I, V0 with V0 = 1: I = 0x1000. *)
Definition index_past_memory : CPU :=
  set_opcode
    (OP_Fx1E (set_opcode (set_reg (OP_Annn (set_opcode power_on 0xAFFF)) 0 1)
                         0xF01E))
    0xF055.

(** DRW V0, V1, 5 of the glyph "0" at column 10, row 5. *)
Definition glyph_scene : CPU :=
  set_opcode (set_i (set_reg (set_reg power_on 0 10) 1 5) FONTSET_ADDRESS)
             0xD015.

(** DRW V0, V1, 1 of the row 0xFF at column 62, row 0. *)
Definition right_edge_scene : CPU :=
  set_opcode (set_i (set_reg (poke power_on 0x300 0xFF) 0 62) 0x300) 0xD011.

(** DRW V0, V1, 1 of the row 0xF0 at column 0, row 0. *)
Definition f0_scene : CPU :=
  set_opcode (set_i (poke power_on 0x300 0xF0) 0x300) 0xD011.

(** LD V3, K at pc = 0x200 with key 5 held down. *)
Definition wait_key_scene : CPU :=
  set_key (poke (poke power_on 0x200 0xF3) 0x201 0x0A)
          (put (key power_on) 5 1).

(** LD B, V2 with V2 = 254 and I = 0x300. *)
Definition bcd_scene : CPU :=
  set_opcode (set_i (set_reg power_on 2 254) 0x300) 0xF233.

(** SHR V1 (or SHL V1: both handlers read x alone) with V1 = 0x85. *)
Definition shift_scene : CPU :=
  set_opcode (set_reg power_on 1 0x85) 0x8106.

(** XOR V0, V1 with V0 = 0x3C and V1 = 0x0F. *)
Definition xor_scene : CPU :=
  set_opcode (set_reg (set_reg power_on 0 0x3C) 1 0x0F) 0x8013.

(** CALL 0xABC from pc = 0x202 with all sixteen stack slots in use. *)
Definition full_stack_scene : CPU := set_sp deep_call_scene 16.

(** SKP V3 with V3 = 5 and key 5 held down. *)
Definition skip_key_scene : CPU :=
  set_opcode (set_reg wait_key_scene 3 5) 0xE39E.

(** SKP V3 with V3 = 0x20, which names no key. *)
Definition no_such_key_scene : CPU :=
  set_opcode (set_reg power_on 3 0x20) 0xE39E.

(** RND V1, 0x0F. *)
Definition random_scene : CPU := set_opcode power_on 0xC10F.

(** LD F, V2 with V2 = 0xA. *)
Definition glyph_address_scene : CPU :=
  set_opcode (set_reg power_on 2 0xA) 0xF229.

(** SE V0, 0x00 at pc = 0x200 with V0 = 0. *)
Definition skip_scene : CPU :=
  poke (poke power_on 0x200 0x30) 0x201 0x00.

(** LD V1, 0x2A at pc = 0x200 with the delay timer at 7. *)
Definition timer_scene : CPU :=
  set_delaytimer (poke (poke power_on 0x200 0x61) 0x201 0x2A) 7.

(** LD [I], V1 with I = 0xFFF: the second byte has index 0x1000. *)
Definition straddle_scene : CPU :=
  set_opcode (set_i power_on 0xFFF) 0xF155.

(** DRW V0, V1, 1 of the row 0xFF at column 62 of the last row. *)
Definition bottom_right_scene : CPU :=
  set_opcode
    (set_i (set_reg (set_reg (poke power_on 0x300 0xFF) 0 62) 1 31) 0x300)
    0xD011.

(** The machine [Chip8_Create] builds with the shortest tables it can fill,
    and on it the unassigned opcode 0x000F at pc = 0x200. *)
Definition short_tables : CPU :=
  state_of (Chip8_Create least_entries (cleared initial_seed)).

Definition short_tables_scene : CPU :=
  poke (poke short_tables 0x200 0x00) 0x201 0x0F.

(** The unassigned opcode 0x000F at pc = 0x200, on the machine built with
    an entry for every sub-index. *)
Definition last_entry_scene : CPU :=
  poke (poke power_on 0x200 0x00) 0x201 0x0F.

(** * Basic facts *)

Section Arrays.

Implicit Types (a : list Z) (k j x : Z).

Lemma length_put a k x : length (put a k x) = length a.
Proof. apply length_insert. Qed.

Lemma get_put_eq a k x :
  (Z.to_nat k < length a)%nat -> get (put a k x) k = x.
Proof.
  intros Hk. unfold get, put. by rewrite list_lookup_insert_eq.
Qed.

Lemma get_put_ne a k j x :
  0 <= k -> 0 <= j -> k <> j -> get (put a k x) j = get a j.
Proof.
  intros Hk Hj Hne. unfold get, put.
  rewrite list_lookup_insert_ne; [done | lia].
Qed.

Lemma get_put a k j x :
  0 <= k -> 0 <= j -> (Z.to_nat k < length a)%nat ->
  get (put a k x) j = if decide (j = k) then x else get a j.
Proof.
  intros Hk Hj Hlen. case_decide as E.
  - subst j. by apply get_put_eq.
  - apply get_put_ne; lia.
Qed.

Lemma get_outside a k : (length a <= Z.to_nat k)%nat -> get a k = 0.
Proof. intros Hk. unfold get. by rewrite lookup_ge_None_2. Qed.

Lemma array_of_spec (elem : Z -> bool) (lo hi size : Z) a :
  (forall z, elem z = true -> lo <= z < hi) -> lo <= 0 < hi ->
  array_of elem size a = true ->
  Z.of_nat (length a) = size /\ forall k, lo <= get a k < hi.
Proof.
  intros Helem H0 Ha. unfold array_of in Ha.
  apply andb_true_iff in Ha as [Hlen Hall]. split; [lia |].
  intros k. unfold get.
  destruct (a !! Z.to_nat k) as [z|] eqn:E; simpl; [| lia].
  apply Helem. rewrite forallb_forall in Hall. apply Hall.
  apply list_elem_of_In. by eapply list_elem_of_lookup_2.
Qed.

End Arrays.

Lemma is_u8_spec z : is_u8 z = true -> 0 <= z < 256.
Proof. unfold is_u8. lia. Qed.
Lemma is_u16_spec z : is_u16 z = true -> 0 <= z < 65536.
Proof. unfold is_u16. lia. Qed.
Lemma is_u32_spec z : is_u32 z = true -> 0 <= z < 4294967296.
Proof. unfold is_u32. lia. Qed.

Lemma wf_CPU_WF cpu : wf_CPU cpu = true -> WF cpu.
Proof.
  unfold wf_CPU. rewrite !andb_true_iff.
  intros [[[[[[[[[[[Hm Hv] Hi] Hpc] Hst] Hsp] Hop] Hdt] Hsnd] Hk] Hg] Hs].
  apply (array_of_spec _ 0 256) in Hm as [? ?]; [| apply is_u8_spec | lia].
  apply (array_of_spec _ 0 256) in Hv as [? ?]; [| apply is_u8_spec | lia].
  apply (array_of_spec _ 0 65536) in Hst as [? ?]; [| apply is_u16_spec | lia].
  apply (array_of_spec _ 0 256) in Hk as [? ?]; [| apply is_u8_spec | lia].
  apply (array_of_spec _ 0 4294967296) in Hg as [? ?];
    [| apply is_u32_spec | lia].
  apply is_u16_spec in Hi, Hpc, Hsp, Hop.
  apply is_u8_spec in Hdt, Hsnd. apply is_u32_spec in Hs.
  unfold MEMORY_SIZE, REGISTER_COUNT, STACK_LEVELS, KEY_COUNT,
    VIDEO_WIDTH, VIDEO_HEIGHT in *.
  constructor; (done || lia).
Qed.

Lemma power_on_created :
  Chip8_Create every_subindex (cleared initial_seed) = Ok power_on.
Proof. vm_compute. reflexivity. Qed.

(** The operand fields are the nibbles of the opcode. *)

Lemma op_x_eq cpu : op_x cpu = (opcode cpu / 256) mod 16.
Proof.
  unfold op_x. rewrite Z.shiftr_land.
  change (Z.shiftr 0x0F00 8) with (Z.ones 4).
  rewrite Z.land_ones, Z.shiftr_div_pow2 by lia. reflexivity.
Qed.

Lemma op_y_eq cpu : op_y cpu = (opcode cpu / 16) mod 16.
Proof.
  unfold op_y. rewrite Z.shiftr_land.
  change (Z.shiftr 0x00F0 4) with (Z.ones 4).
  rewrite Z.land_ones, Z.shiftr_div_pow2 by lia. reflexivity.
Qed.

Lemma op_top_eq cpu : op_top cpu = (opcode cpu / 4096) mod 16.
Proof.
  unfold op_top. rewrite Z.shiftr_land.
  change (Z.shiftr 0xF000 12) with (Z.ones 4).
  rewrite Z.land_ones, Z.shiftr_div_pow2 by lia. reflexivity.
Qed.

Lemma op_n_eq cpu : op_n cpu = opcode cpu mod 16.
Proof. unfold op_n. change 0x000F with (Z.ones 4). by rewrite Z.land_ones. Qed.

Lemma op_kk_eq cpu : op_kk cpu = opcode cpu mod 256.
Proof. unfold op_kk. change 0x00FF with (Z.ones 8). by rewrite Z.land_ones. Qed.

Lemma op_nnn_eq cpu : op_nnn cpu = opcode cpu mod 4096.
Proof. unfold op_nnn. change 0x0FFF with (Z.ones 12). by rewrite Z.land_ones. Qed.

Lemma op_x_range cpu : 0 <= op_x cpu < 16.
Proof. rewrite op_x_eq. apply Z.mod_pos_bound. lia. Qed.

Lemma op_y_range cpu : 0 <= op_y cpu < 16.
Proof. rewrite op_y_eq. apply Z.mod_pos_bound. lia. Qed.

Lemma op_n_range cpu : 0 <= op_n cpu < 16.
Proof. rewrite op_n_eq. apply Z.mod_pos_bound. lia. Qed.


(** * The flag-producing ALU handlers *)

(** Name the operand fields in the goal. *)
Ltac fold_operands :=
  repeat match goal with
  | |- context [Z.shiftr (Z.land (opcode ?c) 0x0F00) 8] =>
      change (Z.shiftr (Z.land (opcode c) 0x0F00) 8) with (op_x c)
  | |- context [Z.shiftr (Z.land (opcode ?c) 0x00F0) 4] =>
      change (Z.shiftr (Z.land (opcode c) 0x00F0) 4) with (op_y c)
  end.

(** Reads of written register files; the side conditions are index and
    length arithmetic. *)
Ltac regs :=
  cbn [v set_v]; fold_operands;
  rewrite ?length_put, ?get_put by (rewrite ?length_put; lia).

Lemma u16_small z : 0 <= z < 65536 -> u16 z = z.
Proof. intros. unfold u16. by rewrite Z.mod_small. Qed.

Lemma u8_small z : 0 <= z < 256 -> u8 z = z.
Proof. intros. unfold u8. by rewrite Z.mod_small. Qed.

Lemma u8_range z : 0 <= u8 z < 256.
Proof. unfold u8. apply Z.mod_pos_bound. lia. Qed.

Lemma land_1_mod a : Z.land a 1 = a mod 2.
Proof. exact (Z.land_ones a 1 ltac:(lia)). Qed.

Lemma land_1_bit a : Z.land a 1 = 0 \/ Z.land a 1 = 1.
Proof. rewrite land_1_mod. pose proof (Z.mod_pos_bound a 2). lia. Qed.

Lemma msb_bit a : 0 <= a < 256 -> Z.shiftr (Z.land a 0x80) 7 = a / 128.
Proof.
  intros Ha. rewrite Z.shiftr_land. change (Z.shiftr 0x80 7) with (Z.ones 1).
  rewrite Z.land_ones, Z.shiftr_div_pow2 by lia.
  change (2 ^ 7) with 128. change (2 ^ 1) with 2.
  apply Z.mod_small. split; [apply Z.div_pos; lia |].
  apply Z.div_lt_upper_bound; lia.
Qed.

(** C5 -- add-reg leaves 1 in register 0xF exactly when the sum of the two
    operand registers, read before the instruction, exceeds 255, and 0
    otherwise; sub-reg leaves 1 there exactly when the first operand is at
    least the second, and 0 otherwise.  This holds for every pair of register
    indices, equal ones and 0xF included. *)
Theorem add_sub_flag (cpu : CPU) :
  wf_CPU cpu = true ->
  let a := get (v cpu) (op_x cpu) in
  let b := get (v cpu) (op_y cpu) in
  (get (v (OP_8xy4 cpu)) 0xF = 1 <-> a + b > 255) /\
  (get (v (OP_8xy4 cpu)) 0xF = 0 <-> a + b <= 255) /\
  (get (v (OP_8xy5 cpu)) 0xF = 1 <-> a >= b) /\
  (get (v (OP_8xy5 cpu)) 0xF = 0 <-> a < b).
Proof.
  intros Hwf a b. apply wf_CPU_WF in Hwf.
  pose proof (wf_v_len _ Hwf) as Hlen.
  pose proof (op_x_range cpu) as Hx. pose proof (op_y_range cpu) as Hy.
  pose proof (wf_v _ Hwf (op_x cpu)) as Ha.
  pose proof (wf_v _ Hwf (op_y cpu)) as Hb.
  fold a in Ha. fold b in Hb.
  assert (E4 : get (v (OP_8xy4 cpu)) 0xF = if 255 <? a + b then 1 else 0).
  { unfold OP_8xy4. regs. rewrite decide_True by done.
    fold a b. by rewrite u16_small by lia. }
  assert (E5 : get (v (OP_8xy5 cpu)) 0xF = if b <=? a then 1 else 0).
  { unfold OP_8xy5. regs. rewrite decide_True by done. fold a b.
    case_decide as E.
    - assert (b = a) as -> by (subst b a; by rewrite E).
      rewrite Z.sub_diag. change (u8 0) with 0.
      destruct (Z.leb_spec 0 a), (Z.leb_spec a a); lia.
    - reflexivity. }
  rewrite E4, E5.
  destruct (Z.ltb_spec 255 (a + b)), (Z.leb_spec b a); repeat split; lia.
Qed.

(** Scenario 2: V0 = 0xFF plus V1 = 0x01 wraps to 0 and carries. *)
Lemma add_sub_flag_witness :
  wf_CPU carry_scene = true /\
  get (v (OP_8xy4 carry_scene)) 0x0 = 0x00 /\
  get (v (OP_8xy4 carry_scene)) 0xF = 1.
Proof.
  assert (Hwf : wf_CPU carry_scene = true) by (vm_compute; reflexivity).
  split; [exact Hwf |]. split; [vm_compute; reflexivity |].
  destruct (add_sub_flag carry_scene Hwf) as ([_ Hcarry] & _).
  apply Hcarry. vm_compute. reflexivity.
Defined.

(** C4 -- subn-reg stores (V[y] - V[x]) mod 256 in V[x] and then compares
    the registers as they stand after that store: register 0xF becomes 1 when
    V[y] exceeds the new V[x] and 0 otherwise.  For distinct x and y the
    compared V[y] is the operand's value before the instruction; for x = y
    both sides are the new value and the flag is 0.  Registers other than x
    and 0xF keep their values. *)
Theorem subn_flag_after_store (cpu : CPU) :
  wf_CPU cpu = true ->
  let x := op_x cpu in
  let y := op_y cpu in
  let r := (get (v cpu) y - get (v cpu) x) mod 256 in
  let V1 := put (v cpu) x r in
  let V2 := v (OP_8xy7 cpu) in
  get V1 x = r /\
  (forall k, 0 <= k -> k <> x -> get V1 k = get (v cpu) k) /\
  get V2 0xF = (if get V1 x <? get V1 y then 1 else 0) /\
  (forall k, 0 <= k -> k <> 0xF -> get V2 k = get V1 k) /\
  (x <> y -> get V2 0xF = if r <? get (v cpu) y then 1 else 0) /\
  (x = y -> get V2 0xF = 0).
Proof.
  intros Hwf x y r V1 V2. apply wf_CPU_WF in Hwf.
  pose proof (wf_v_len _ Hwf) as Hlen.
  pose proof (op_x_range cpu) as Hx. pose proof (op_y_range cpu) as Hy.
  fold x in Hx. fold y in Hy.
  assert (E : V2 = put V1 0xF (if get V1 x <? get V1 y then 1 else 0)).
  { reflexivity. }
  assert (E1 : get V1 x = r).
  { subst V1. apply get_put_eq. lia. }
  assert (L1 : length V1 = 16%nat).
  { subst V1. rewrite length_put. done. }
  split; [done |]. split.
  { intros k Hk Hne. subst V1. apply get_put_ne; lia. }
  split.
  { rewrite E. apply get_put_eq. lia. }
  split.
  { intros k Hk Hne. rewrite E. apply get_put_ne; lia. }
  split.
  - intros Hne. rewrite E, get_put_eq by lia. rewrite E1.
    subst V1. rewrite get_put_ne by lia. reflexivity.
  - intros Heq. rewrite E, get_put_eq by lia. rewrite <- Heq.
    by rewrite Z.ltb_irrefl.
Qed.

(** With V0 = V1 = 4 the new V0 is 0 and V1 = 4 exceeds it: the flag is 1,
    where a comparison with the old V0 would have given 0. *)
Lemma subn_flag_after_store_witness :
  wf_CPU subn_scene = true /\
  get (v (OP_8xy7 subn_scene)) 0x0 = 0 /\
  get (v (OP_8xy7 subn_scene)) 0xF = 1 /\
  (get (v subn_scene) 0x0 <? get (v subn_scene) 0x1) = false.
Proof.
  split; [vm_compute; reflexivity |]. split; [vm_compute; reflexivity |].
  split; [| vm_compute; reflexivity].
  destruct (subn_flag_after_store subn_scene) as (_ & _ & _ & _ & Hflag & _);
    [vm_compute; reflexivity |].
  rewrite Hflag; [vm_compute; reflexivity | vm_compute; discriminate].
Defined.

(** C10 -- when the destination index x of a flag-producing ALU handler is
    0xF, register 0xF ends up holding the flag (0 or 1), because the flag is
    stored after the result: the carry for add-reg, the no-borrow bit for
    sub-reg, the shifted-out bit for shr and shl, and the post-store
    comparison for subn-reg.  The arithmetic result is overwritten. *)
Theorem flag_overwrites_result (cpu : CPU) :
  wf_CPU cpu = true ->
  op_x cpu = 0xF ->
  let a := get (v cpu) 0xF in
  let b := get (v cpu) (op_y cpu) in
  get (v (OP_8xy4 cpu)) 0xF = (if 255 <? a + b then 1 else 0) /\
  get (v (OP_8xy5 cpu)) 0xF = (if b <=? a then 1 else 0) /\
  get (v (OP_8xy6 cpu)) 0xF = a mod 2 /\
  get (v (OP_8xy7 cpu)) 0xF =
    (if decide (op_y cpu = 0xF) then 0
     else if (b - a) mod 256 <? b then 1 else 0) /\
  get (v (OP_8xyE cpu)) 0xF = a / 128 /\
  (forall f, In f [OP_8xy4; OP_8xy5; OP_8xy6; OP_8xy7; OP_8xyE] ->
     get (v (f cpu)) 0xF = 0 \/ get (v (f cpu)) 0xF = 1).
Proof.
  intros Hwf HxF a b. apply wf_CPU_WF in Hwf.
  pose proof (wf_v_len _ Hwf) as Hlen.
  pose proof (op_y_range cpu) as Hy.
  pose proof (wf_v _ Hwf 0xF) as Ha. pose proof (wf_v _ Hwf (op_y cpu)) as Hb.
  fold a in Ha. fold b in Hb.
  assert (E4 : get (v (OP_8xy4 cpu)) 0xF = if 255 <? a + b then 1 else 0).
  { unfold OP_8xy4. regs. rewrite decide_True by done.
    rewrite HxF. fold a b. by rewrite u16_small by lia. }
  assert (E5 : get (v (OP_8xy5 cpu)) 0xF = if b <=? a then 1 else 0).
  { unfold OP_8xy5. regs. rewrite decide_True by done. rewrite HxF. fold a b.
    case_decide as E; [| done].
    assert (b = a) as -> by (subst b a; by rewrite E).
    rewrite Z.sub_diag. change (u8 0) with 0.
    destruct (Z.leb_spec 0 a), (Z.leb_spec a a); lia. }
  assert (E6 : get (v (OP_8xy6 cpu)) 0xF = a mod 2).
  { unfold OP_8xy6. regs. rewrite decide_True by done.
    rewrite HxF. fold a. apply land_1_mod. }
  assert (E7 : get (v (OP_8xy7 cpu)) 0xF =
               if decide (op_y cpu = 0xF) then 0
               else if (b - a) mod 256 <? b then 1 else 0).
  { unfold OP_8xy7. regs. rewrite decide_True by done. rewrite HxF.
    rewrite decide_True by done. fold a b. unfold u8.
    case_decide as E; [by rewrite Z.ltb_irrefl | done]. }
  assert (EE : get (v (OP_8xyE cpu)) 0xF = a / 128).
  { unfold OP_8xyE. regs. rewrite decide_True by done.
    rewrite HxF. fold a. by apply msb_bit. }
  do 5 (split; [done |]).
  intros f Hf. simpl in Hf.
  assert (Hdiv : 0 <= a / 128 < 2).
  { split; [apply Z.div_pos; lia | apply Z.div_lt_upper_bound; lia]. }
  pose proof (Z.mod_pos_bound a 2).
  destruct Hf as [<-|[<-|[<-|[<-|[<-|[]]]]]].
  - rewrite E4. destruct (255 <? a + b); lia.
  - rewrite E5. destruct (b <=? a); lia.
  - rewrite E6. lia.
  - rewrite E7. case_decide; [lia |]. destruct (_ <? b); lia.
  - rewrite EE. lia.
Qed.

(** ADD VF, V1 with VF = 200 and V1 = 100: register 0xF ends as the carry 1,
    not as the sum 300 mod 256 = 44. *)
Lemma flag_overwrites_result_witness :
  wf_CPU flag_destination_scene = true /\
  op_x flag_destination_scene = 0xF /\
  get (v (OP_8xy4 flag_destination_scene)) 0xF = 1 /\
  (200 + 100) mod 256 = 44.
Proof.
  split; [vm_compute; reflexivity |]. split; [vm_compute; reflexivity |].
  split; [| vm_compute; reflexivity].
  destruct (flag_overwrites_result flag_destination_scene) as (Hadd & _);
    [vm_compute; reflexivity | vm_compute; reflexivity |].
  rewrite Hadd. vm_compute. reflexivity.
Defined.

(** * Faults, loops and checked accesses *)

Lemma bind_Ok {A B : Type} (r : Result A) (k : A -> Result B) (b : B) :
  bind r k = Ok b -> exists a, r = Ok a /\ k a = Ok b.
Proof. destruct r as [a|f]; simpl; [eauto | discriminate]. Qed.

Lemma load_in_range oob size a k :
  0 <= k < size -> load oob size a k = Ok (get a k).
Proof.
  intros Hk. unfold load.
  destruct (Z.leb_spec 0 k), (Z.ltb_spec k size); simpl; (done || lia).
Qed.

Lemma load_out_of_range oob size a k :
  ~ 0 <= k < size -> load oob size a k = Fault (oob k).
Proof.
  intros Hk. unfold load.
  destruct (Z.leb_spec 0 k), (Z.ltb_spec k size); simpl; (done || lia).
Qed.

Lemma store_in_range oob size a k x :
  0 <= k < size -> store oob size a k x = Ok (put a k x).
Proof.
  intros Hk. unfold store.
  destruct (Z.leb_spec 0 k), (Z.ltb_spec k size); simpl; (done || lia).
Qed.

Lemma store_out_of_range oob size a k x :
  ~ 0 <= k < size -> store oob size a k x = Fault (oob k).
Proof.
  intros Hk. unfold store.
  destruct (Z.leb_spec 0 k), (Z.ltb_spec k size); simpl; (done || lia).
Qed.

Lemma for_loop_S n k body cpu :
  for_loop (S n) k body cpu
  = do cpu' <- body k cpu; for_loop n (k + 1) body cpu'.
Proof. reflexivity. Qed.

(** A property kept by every iteration is kept by the loop. *)
Lemma for_loop_invariant (P : CPU -> Prop) body n :
  (forall k c c', P c -> body k c = Ok c' -> P c') ->
  forall k cpu cpu', P cpu -> for_loop n k body cpu = Ok cpu' -> P cpu'.
Proof.
  intros Hbody. induction n as [|n IH]; intros k cpu cpu' HP Hrun.
  - simpl in Hrun. by inversion Hrun; subst.
  - rewrite for_loop_S in Hrun. apply bind_Ok in Hrun as (c1 & H1 & H2).
    eapply IH; [| exact H2]. by eapply Hbody.
Qed.

(** Two bodies that agree on the states the loop goes through give the
    same loop. *)
Lemma for_loop_agree (P : CPU -> Prop) b1 b2 n :
  forall k cpu,
  (forall j c, k <= j < k + Z.of_nat n -> P c -> b1 j c = b2 j c) ->
  (forall j c c', P c -> b1 j c = Ok c' -> P c') ->
  P cpu -> for_loop n k b1 cpu = for_loop n k b2 cpu.
Proof.
  induction n as [|n IH]; intros k cpu Hagree Hkeep HP; [done |].
  rewrite !for_loop_S. rewrite <- Hagree by (done || lia).
  destruct (b1 k cpu) as [c1|f] eqn:E; simpl; [| done].
  apply IH; [| done | by eapply Hkeep].
  intros j c Hj Hc. apply Hagree; (done || lia).
Qed.

(** * Call and return *)

(** C7 -- with 15 return addresses on the stack, call stores the program
    counter in slot 15, leaves the stack pointer at 16 and jumps to its
    target; a return executed on any later state with that stack and stack
    pointer puts the stack pointer back to 15 and the program counter back
    to the saved value. *)
Theorem call_then_return_at_15 (cpu : CPU) :
  wf_CPU cpu = true ->
  sp cpu = 15 ->
  exists cpu1,
    OP_2nnn cpu = Ok cpu1 /\
    get (stack cpu1) 15 = pc cpu /\
    sp cpu1 = 16 /\
    pc cpu1 = op_nnn cpu /\
    forall c, stack c = stack cpu1 -> sp c = sp cpu1 ->
      exists cpu2,
        OP_00EE c = Ok cpu2 /\ sp cpu2 = 15 /\ pc cpu2 = pc cpu.
Proof.
  intros Hwf Hsp. apply wf_CPU_WF in Hwf.
  pose proof (wf_stack_len _ Hwf) as Hlen.
  unfold OP_2nnn. rewrite Hsp, store_in_range by (unfold STACK_LEVELS; lia).
  cbn [bind]. eexists. split; [reflexivity |].
  cbn [stack sp pc set_stack set_sp set_pc].
  assert (Hslot : get (put (stack cpu) 15 (pc cpu)) 15 = pc cpu).
  { apply get_put_eq. lia. }
  split; [exact Hslot |]. split; [by rewrite Hsp |]. split; [reflexivity |].
  intros c Hstack Hsp'. cbn [stack sp pc set_stack set_sp set_pc] in *.
  unfold OP_00EE. cbn [stack sp pc set_stack set_sp set_pc].
  rewrite Hsp', Hstack, Hsp. change (u16 (u16 (15 + 1) - 1)) with 15.
  rewrite load_in_range by (unfold STACK_LEVELS; lia). cbn [bind].
  eexists. split; [reflexivity |]. cbn [stack sp pc set_stack set_sp set_pc].
  split; [done | exact Hslot].
Qed.

Lemma call_then_return_at_15_witness :
  wf_CPU deep_call_scene = true /\
  sp deep_call_scene = 15 /\
  exists cpu1,
    OP_2nnn deep_call_scene = Ok cpu1 /\ sp cpu1 = 16 /\ pc cpu1 = 0xABC /\
    exists cpu2, OP_00EE cpu1 = Ok cpu2 /\ sp cpu2 = 15 /\ pc cpu2 = 0x202.
Proof.
  split; [vm_compute; reflexivity |]. split; [reflexivity |].
  destruct (call_then_return_at_15 deep_call_scene)
    as (cpu1 & Hcall & _ & Hsp & Hpc & Hret);
    [vm_compute; reflexivity | reflexivity |].
  exists cpu1. split; [exact Hcall |]. split; [exact Hsp |].
  split; [rewrite Hpc; vm_compute; reflexivity |].
  destruct (Hret cpu1 eq_refl eq_refl) as (cpu2 & Hrun & Hsp2 & Hpc2).
  exists cpu2. split; [exact Hrun |]. split; [exact Hsp2 | exact Hpc2].
Defined.

(** * Register dump and load *)

Lemma Fx55_loop n : forall k cpu,
  0 <= k -> 0 <= i cpu -> i cpu + k + Z.of_nat n <= 4096 ->
  length (memory cpu) = 4096%nat ->
  exists m,
    for_loop n k (fun k cpu =>
      do m <- store MemoryFault MEMORY_SIZE (memory cpu) (i cpu + k)
                    (get (v cpu) k);
      Ok (set_memory cpu m)) cpu = Ok (set_memory cpu m) /\
    length m = 4096%nat /\
    (forall j, k <= j < k + Z.of_nat n -> get m (i cpu + j) = get (v cpu) j) /\
    (forall a, 0 <= a -> ~ i cpu + k <= a < i cpu + k + Z.of_nat n ->
       get m a = get (memory cpu) a).
Proof.
  induction n as [|n IH]; intros k cpu Hk Hi Hfit Hlen.
  - exists (memory cpu). split; [by destruct cpu |].
    split; [done |]. split; [lia | done].
  - rewrite for_loop_S.
    rewrite store_in_range by (unfold MEMORY_SIZE; lia). cbn [bind].
    set (m1 := put (memory cpu) (i cpu + k) (get (v cpu) k)).
    destruct (IH (k + 1) (set_memory cpu m1)) as (m & Hrun & Hm & Hin & Hout).
    + lia.
    + done.
    + cbn [i set_memory]. lia.
    + cbn [memory set_memory]. subst m1. by rewrite length_put.
    + cbn [i v memory set_memory] in *.
      exists m. split; [exact Hrun |]. split; [done |]. split.
      * intros j Hj. destruct (decide (j = k)) as [->|Hne].
        -- rewrite Hout by lia. subst m1. apply get_put_eq. lia.
        -- apply Hin. lia.
      * intros a Ha Hrange. rewrite Hout by lia.
        subst m1. apply get_put_ne; lia.
Qed.

Lemma Fx65_loop n : forall k cpu,
  0 <= k -> k + Z.of_nat n <= 16 ->
  0 <= i cpu -> i cpu + k + Z.of_nat n <= 4096 ->
  length (v cpu) = 16%nat ->
  exists V,
    for_loop n k (fun k cpu =>
      do b <- load MemoryFault MEMORY_SIZE (memory cpu) (i cpu + k);
      Ok (set_v cpu (put (v cpu) k b))) cpu = Ok (set_v cpu V) /\
    length V = 16%nat /\
    (forall j, k <= j < k + Z.of_nat n ->
       get V j = get (memory cpu) (i cpu + j)) /\
    (forall j, 0 <= j -> ~ k <= j < k + Z.of_nat n -> get V j = get (v cpu) j).
Proof.
  induction n as [|n IH]; intros k cpu Hk Hregs Hi Hfit Hlen.
  - exists (v cpu). split; [by destruct cpu |].
    split; [done |]. split; [lia | done].
  - rewrite for_loop_S.
    rewrite load_in_range by (unfold MEMORY_SIZE; lia). cbn [bind].
    set (V1 := put (v cpu) k (get (memory cpu) (i cpu + k))).
    destruct (IH (k + 1) (set_v cpu V1)) as (V & Hrun & HV & Hin & Hout).
    + lia.
    + lia.
    + done.
    + cbn [i set_v]. lia.
    + cbn [v set_v]. subst V1. by rewrite length_put.
    + cbn [i v memory set_v] in *.
      exists V. split; [exact Hrun |]. split; [done |]. split.
      * intros j Hj. destruct (decide (j = k)) as [->|Hne].
        -- rewrite Hout by lia. subst V1. apply get_put_eq. lia.
        -- apply Hin. lia.
      * intros j Hj Hrange. rewrite Hout by lia.
        subst V1. apply get_put_ne; lia.
Qed.

(** C6 -- with I + x inside memory, reg-dump Vx followed by reg-load Vx with
    the same x and I leaves V[0] .. V[x] as they were before the dump; the
    load brings those values back even when the registers were overwritten
    in between. *)
Theorem dump_then_load_restores (cpu : CPU) :
  wf_CPU cpu = true ->
  i cpu + op_x cpu < 4096 ->
  exists cpu1,
    OP_Fx55 cpu = Ok cpu1 /\
    (exists cpu2,
       OP_Fx65 cpu1 = Ok cpu2 /\
       forall k, 0 <= k <= op_x cpu -> get (v cpu2) k = get (v cpu) k) /\
    (forall V, length V = 16%nat ->
       exists cpu2,
         OP_Fx65 (set_v cpu1 V) = Ok cpu2 /\
         forall k, 0 <= k <= op_x cpu -> get (v cpu2) k = get (v cpu) k).
Proof.
  intros Hwf Hfit. apply wf_CPU_WF in Hwf.
  pose proof (op_x_range cpu) as Hx.
  pose proof (wf_i _ Hwf) as Hi.
  unfold OP_Fx55. fold (op_x cpu).
  destruct (Fx55_loop (Z.to_nat (op_x cpu + 1)) 0 cpu)
    as (m & Hrun & Hm & Hin & _); [lia | lia | lia | apply Hwf |].
  rewrite Hrun. eexists. split; [reflexivity |].
  assert (Hload : forall V, length V = 16%nat ->
    exists cpu2,
      OP_Fx65 (set_v (set_memory cpu m) V) = Ok cpu2 /\
      forall k, 0 <= k <= op_x cpu -> get (v cpu2) k = get (v cpu) k).
  { intros V HV. unfold OP_Fx65. cbn [opcode set_v set_memory].
    fold (op_x cpu).
    destruct (Fx65_loop (Z.to_nat (op_x cpu + 1)) 0
                (set_v (set_memory cpu m) V))
      as (V' & Hrun' & _ & Hin' & _);
      cbn [i v memory set_v set_memory]; [lia | lia | lia | lia | done |].
    rewrite Hrun'. eexists. split; [reflexivity |].
    intros k Hk. cbn [i v memory set_v set_memory] in *.
    rewrite Hin' by lia. apply Hin. lia. }
  split; [| exact Hload].
  destruct (Hload (v cpu) (wf_v_len _ Hwf)) as (cpu2 & Hrun2 & Hregs).
  exists cpu2. split; [| exact Hregs].
  rewrite <- Hrun2. f_equal.
Qed.

Lemma dump_then_load_restores_witness :
  wf_CPU dump_scene = true /\
  exists cpu1 cpu2,
    OP_Fx55 dump_scene = Ok cpu1 /\
    OP_Fx65 (set_v cpu1 (replicate 16 0)) = Ok cpu2 /\
    get (v cpu2) 0 = 1 /\ get (v cpu2) 1 = 2 /\
    get (v cpu2) 2 = 3 /\ get (v cpu2) 3 = 4.
Proof.
  split; [vm_compute; reflexivity |].
  destruct (dump_then_load_restores dump_scene) as (cpu1 & Hdump & _ & Hload);
    [vm_compute; reflexivity | vm_compute; reflexivity |].
  destruct (Hload (replicate 16 0) eq_refl) as (cpu2 & Hrun & Hregs).
  exists cpu1, cpu2. split; [exact Hdump |]. split; [exact Hrun |].
  rewrite !Hregs by (vm_compute; split; discriminate).
  vm_compute. repeat split.
Defined.

(** * Addresses formed from the index register *)

Lemma masked_small a : 0 <= a < 4096 -> masked a = a.
Proof.
  intros Ha. unfold masked. change 0x0FFF with (Z.ones 12).
  rewrite Z.land_ones by lia. apply Z.mod_small. lia.
Qed.

Lemma OP_Dxyn_loops cpu :
  OP_Dxyn cpu =
  for_loop (Z.to_nat (op_n cpu)) 0
    (Dxyn_row (get (v cpu) (op_x cpu) mod VIDEO_WIDTH)
              (get (v cpu) (op_y cpu) mod VIDEO_HEIGHT))
    (set_v cpu (put (v cpu) 0xF 0)).
Proof. reflexivity. Qed.

Lemma Dxyn_pixel_keeps xPos yPos sb row col c c' :
  Dxyn_pixel xPos yPos sb row col c = Ok c' ->
  i c' = i c /\ memory c' = memory c /\ opcode c' = opcode c.
Proof.
  unfold Dxyn_pixel. destruct (negb _); [| by inversion 1].
  intros H. apply bind_Ok in H as (px & _ & H).
  apply bind_Ok in H as (cells & _ & H). inversion H; subst; clear H.
  by destruct (px =? 0xFFFFFFFF).
Qed.

Lemma Dxyn_row_keeps xPos yPos row c c' :
  Dxyn_row xPos yPos row c = Ok c' ->
  i c' = i c /\ memory c' = memory c /\ opcode c' = opcode c.
Proof.
  unfold Dxyn_row. intros H. apply bind_Ok in H as (sb & _ & H).
  revert H.
  apply (for_loop_invariant
           (fun s => i s = i c /\ memory s = memory c /\ opcode s = opcode c));
    [| done].
  intros k s s' (Hi & Hm & Ho) Hstep.
  apply Dxyn_pixel_keeps in Hstep as (-> & -> & ->). done.
Qed.

Lemma OP_Dxyn_keeps cpu cpu' :
  OP_Dxyn cpu = Ok cpu' ->
  i cpu' = i cpu /\ memory cpu' = memory cpu /\ opcode cpu' = opcode cpu.
Proof.
  rewrite OP_Dxyn_loops.
  apply (for_loop_invariant
           (fun s => i s = i cpu /\ memory s = memory cpu
                     /\ opcode s = opcode cpu)); [| done].
  intros k s s' (Hi & Hm & Ho) Hstep.
  apply Dxyn_row_keeps in Hstep as (-> & -> & ->). done.
Qed.

Lemma OP_Dxyn_in_range cpu :
  0 <= i cpu -> i cpu + op_n cpu <= 4096 ->
  OP_Dxyn cpu = OP_Dxyn_masked cpu.
Proof.
  intros Hi Hfit. pose proof (op_n_range cpu) as Hn.
  rewrite OP_Dxyn_loops. unfold OP_Dxyn_masked.
  fold (op_x cpu) (op_y cpu) (op_n cpu).
  apply (for_loop_agree (fun s => i s = i cpu)).
  - intros j c Hj Hc. unfold Dxyn_row, Dxyn_row_masked.
    rewrite masked_small; [done | lia].
  - intros j c c' Hc Hstep. apply Dxyn_row_keeps in Hstep as (-> & _). done.
  - done.
Qed.

Lemma OP_Dxyn_out_of_range cpu :
  4096 <= i cpu -> 0 < op_n cpu ->
  OP_Dxyn cpu = Fault (MemoryFault (i cpu)).
Proof.
  intros Hi Hn. rewrite OP_Dxyn_loops.
  destruct (Z.to_nat (op_n cpu)) as [|n] eqn:E; [lia |].
  rewrite for_loop_S. unfold Dxyn_row at 1. cbn [i memory set_v].
  rewrite load_out_of_range by (unfold MEMORY_SIZE; lia).
  cbn [bind]. by rewrite Z.add_0_r.
Qed.

Lemma OP_Fx33_in_range cpu :
  0 <= i cpu -> i cpu + 2 < 4096 ->
  OP_Fx33 cpu = OP_Fx33_masked cpu /\ exists c, OP_Fx33 cpu = Ok c.
Proof.
  intros Hi Hfit. split.
  - unfold OP_Fx33, OP_Fx33_masked. cbv zeta. cbn [i set_memory].
    by rewrite !masked_small by lia.
  - unfold OP_Fx33. cbv zeta.
    rewrite store_in_range by (unfold MEMORY_SIZE; lia). cbn [bind i set_memory].
    rewrite store_in_range by (unfold MEMORY_SIZE; lia). cbn [bind i set_memory].
    rewrite store_in_range by (unfold MEMORY_SIZE; lia). cbn [bind].
    eauto.
Qed.

Lemma OP_Fx33_out_of_range cpu :
  4096 <= i cpu + 2 -> OP_Fx33 cpu = Fault (MemoryFault (i cpu + 2)).
Proof.
  intros Hi. unfold OP_Fx33.
  by rewrite store_out_of_range by (unfold MEMORY_SIZE; lia).
Qed.

Lemma OP_Fx55_in_range cpu :
  0 <= i cpu -> i cpu + op_x cpu < 4096 -> length (memory cpu) = 4096%nat ->
  OP_Fx55 cpu = OP_Fx55_masked cpu /\ exists c, OP_Fx55 cpu = Ok c.
Proof.
  intros Hi Hfit Hlen. pose proof (op_x_range cpu) as Hx. split.
  - unfold OP_Fx55, OP_Fx55_masked. fold (op_x cpu).
    apply (for_loop_agree (fun s => i s = i cpu)); [| | done].
    + intros j c Hj Hc. rewrite masked_small; [done | lia].
    + intros j c c' Hc Hstep. apply bind_Ok in Hstep as (m & _ & Hstep).
      inversion Hstep; subst. done.
  - unfold OP_Fx55. fold (op_x cpu).
    destruct (Fx55_loop (Z.to_nat (op_x cpu + 1)) 0 cpu)
      as (m & Hrun & _); [lia | lia | lia | done |]. eauto.
Qed.

Lemma OP_Fx55_out_of_range cpu :
  4096 <= i cpu -> OP_Fx55 cpu = Fault (MemoryFault (i cpu)).
Proof.
  intros Hi. pose proof (op_x_range cpu) as Hx.
  unfold OP_Fx55. fold (op_x cpu).
  destruct (Z.to_nat (op_x cpu + 1)) as [|n] eqn:E; [lia |].
  rewrite for_loop_S.
  rewrite store_out_of_range by (unfold MEMORY_SIZE; lia).
  cbn [bind]. by rewrite Z.add_0_r.
Qed.

Lemma OP_Fx65_in_range cpu :
  0 <= i cpu -> i cpu + op_x cpu < 4096 -> length (v cpu) = 16%nat ->
  OP_Fx65 cpu = OP_Fx65_masked cpu /\ exists c, OP_Fx65 cpu = Ok c.
Proof.
  intros Hi Hfit Hlen. pose proof (op_x_range cpu) as Hx. split.
  - unfold OP_Fx65, OP_Fx65_masked. fold (op_x cpu).
    apply (for_loop_agree (fun s => i s = i cpu)); [| | done].
    + intros j c Hj Hc. rewrite masked_small; [done | lia].
    + intros j c c' Hc Hstep. apply bind_Ok in Hstep as (m & _ & Hstep).
      inversion Hstep; subst. done.
  - unfold OP_Fx65. fold (op_x cpu).
    destruct (Fx65_loop (Z.to_nat (op_x cpu + 1)) 0 cpu)
      as (m & Hrun & _); [lia | lia | lia | lia | done |]. eauto.
Qed.

Lemma OP_Fx65_out_of_range cpu :
  4096 <= i cpu -> OP_Fx65 cpu = Fault (MemoryFault (i cpu)).
Proof.
  intros Hi. pose proof (op_x_range cpu) as Hx.
  unfold OP_Fx65. fold (op_x cpu).
  destruct (Z.to_nat (op_x cpu + 1)) as [|n] eqn:E; [lia |].
  rewrite for_loop_S.
  rewrite load_out_of_range by (unfold MEMORY_SIZE; lia).
  cbn [bind]. by rewrite Z.add_0_r.
Qed.

(** A loop of [a + b] rounds is [a] rounds and then [b] more. *)
Lemma for_loop_app a b body : forall k cpu,
  for_loop (a + b) k body cpu
  = do c <- for_loop a k body cpu; for_loop b (k + Z.of_nat a) body c.
Proof.
  induction a as [|a IH]; intros k cpu.
  - cbn [for_loop bind Nat.add]. by rewrite Z.add_0_r.
  - cbn [Nat.add]. rewrite !for_loop_S.
    destruct (body k cpu) as [c1|flt]; cbn [bind]; [| done].
    rewrite IH. by replace (k + 1 + Z.of_nat a) with (k + Z.of_nat (S a)) by lia.
Qed.

(** A loop whose body cannot fault completes. *)
Lemma for_loop_total body n :
  (forall k c, is_Ok (body k c) = true) ->
  forall k cpu, is_Ok (for_loop n k body cpu) = true.
Proof.
  intros Hbody. induction n as [|n IH]; intros k cpu; [done |].
  rewrite for_loop_S. specialize (Hbody k cpu).
  destruct (body k cpu) as [c1|flt]; [| done]. cbn [bind]. apply IH.
Qed.

Lemma masked_range a : 0 <= masked a < 4096.
Proof.
  unfold masked. change 0x0FFF with (Z.ones 12).
  rewrite Z.land_ones by lia. apply Z.mod_pos_bound. lia.
Qed.

(** The register dump and load once an index reaches 4096: the loop stops
    at the first such index, which it formed without folding it back. *)
Lemma Fx55_loop_leaves_memory n : forall k cpu,
  0 <= k -> 0 <= i cpu -> (0 < n)%nat ->
  4096 <= i cpu + k + Z.of_nat n - 1 ->
  for_loop n k (fun k cpu =>
    do m <- store MemoryFault MEMORY_SIZE (memory cpu) (i cpu + k)
                  (get (v cpu) k);
    Ok (set_memory cpu m)) cpu
  = Fault (MemoryFault (Z.max (i cpu + k) 4096)).
Proof.
  induction n as [|n IH]; intros k cpu Hk Hi Hn Hpast; [lia |].
  rewrite for_loop_S.
  destruct (Z.lt_ge_cases (i cpu + k) 4096) as [Hin|Hout].
  - rewrite store_in_range by (unfold MEMORY_SIZE; lia). cbn [bind].
    rewrite IH by (cbn [i set_memory]; lia). cbn [i set_memory].
    do 2 f_equal. lia.
  - rewrite store_out_of_range by (unfold MEMORY_SIZE; lia). cbn [bind].
    do 2 f_equal. lia.
Qed.

Lemma Fx65_loop_leaves_memory n : forall k cpu,
  0 <= k -> 0 <= i cpu -> (0 < n)%nat ->
  4096 <= i cpu + k + Z.of_nat n - 1 ->
  for_loop n k (fun k cpu =>
    do b <- load MemoryFault MEMORY_SIZE (memory cpu) (i cpu + k);
    Ok (set_v cpu (put (v cpu) k b))) cpu
  = Fault (MemoryFault (Z.max (i cpu + k) 4096)).
Proof.
  induction n as [|n IH]; intros k cpu Hk Hi Hn Hpast; [lia |].
  rewrite for_loop_S.
  destruct (Z.lt_ge_cases (i cpu + k) 4096) as [Hin|Hout].
  - rewrite load_in_range by (unfold MEMORY_SIZE; lia). cbn [bind].
    rewrite IH by (cbn [i set_v]; lia). cbn [i set_v].
    do 2 f_equal. lia.
  - rewrite load_out_of_range by (unfold MEMORY_SIZE; lia). cbn [bind].
    do 2 f_equal. lia.
Qed.

(** The draw once the index of a sprite row reaches 4096: the rows below
    that index are drawn, then the row at it is read outside memory. *)
Lemma OP_Dxyn_leaves_memory cpu :
  0 <= i cpu -> 0 < op_n cpu -> 4096 < i cpu + op_n cpu ->
  OP_Dxyn cpu =
  do c <- for_loop (Z.to_nat (4096 - i cpu)) 0
            (Dxyn_row (get (v cpu) (op_x cpu) mod VIDEO_WIDTH)
                      (get (v cpu) (op_y cpu) mod VIDEO_HEIGHT))
            (set_v cpu (put (v cpu) 0xF 0));
  Fault (MemoryFault (Z.max (i cpu) 4096)).
Proof.
  intros Hi Hn Hpast. rewrite OP_Dxyn_loops.
  set (body := Dxyn_row _ _). set (cpu0 := set_v cpu _).
  set (a := Z.to_nat (4096 - i cpu)).
  assert (Hsplit : exists b, Z.to_nat (op_n cpu) = (a + S b)%nat).
  { exists (Z.to_nat (op_n cpu) - a - 1)%nat. subst a. lia. }
  destruct Hsplit as (b & ->). rewrite for_loop_app.
  destruct (for_loop a 0 body cpu0) as [c|flt] eqn:Hfirst; cbn [bind]; [| done].
  assert (Hc : i c = i cpu).
  { revert Hfirst.
    apply (for_loop_invariant (fun s => i s = i cpu)); [| done].
    intros k s s' Hs Hstep. subst body.
    apply Dxyn_row_keeps in Hstep as (-> & _). done. }
  rewrite for_loop_S. subst body. unfold Dxyn_row at 1. rewrite Hc.
  rewrite load_out_of_range by (unfold MEMORY_SIZE; subst a; lia).
  cbn [bind]. do 2 f_equal. subst a. lia.
Qed.

Lemma OP_Dxyn_no_rows cpu : op_n cpu = 0 -> OP_Dxyn cpu = OP_Dxyn_masked cpu.
Proof.
  intros Hn. rewrite OP_Dxyn_loops. unfold OP_Dxyn_masked. cbv zeta.
  fold (op_n cpu). rewrite Hn. reflexivity.
Qed.

Lemma OP_Fx33_masked_Ok cpu : is_Ok (OP_Fx33_masked cpu) = true.
Proof.
  unfold OP_Fx33_masked. cbv zeta.
  pose proof (masked_range (i cpu + 2)). pose proof (masked_range (i cpu + 1)).
  pose proof (masked_range (i cpu)).
  rewrite store_in_range by (unfold MEMORY_SIZE; lia).
  cbn [bind i set_memory].
  rewrite store_in_range by (unfold MEMORY_SIZE; lia).
  cbn [bind i set_memory].
  rewrite store_in_range by (unfold MEMORY_SIZE; lia). reflexivity.
Qed.

Lemma OP_Fx55_masked_Ok cpu : is_Ok (OP_Fx55_masked cpu) = true.
Proof.
  unfold OP_Fx55_masked. cbv zeta. apply for_loop_total.
  intros k s. pose proof (masked_range (i s + k)).
  by rewrite store_in_range by (unfold MEMORY_SIZE; lia).
Qed.

Lemma OP_Fx65_masked_Ok cpu : is_Ok (OP_Fx65_masked cpu) = true.
Proof.
  unfold OP_Fx65_masked. cbv zeta. apply for_loop_total.
  intros k s. pose proof (masked_range (i s + k)).
  by rewrite load_in_range by (unfold MEMORY_SIZE; lia).
Qed.

(** C1 (as amended) -- the index register is a 16-bit quantity that add-index
    updates modulo 65536 and that draw, bcd-store, reg-dump and reg-load use
    as it is: they index memory with I + offset and apply no mask.  While
    every index they form is below 4096 it equals (I + offset) & 0x0FFF, so
    each handler agrees with its masked wording (and the three stores and
    loads succeed).  As soon as an index I + offset is 4096 or more, whether
    I itself is below 4096 or not, the handler uses that index as it is,
    outside memory: bcd-store at I + 2, its first store; reg-dump and
    reg-load at the first index not below 4096, which is max (I, 4096); the
    draw at that same index, after the sprite rows below it.  The masked
    wordings of bcd-store, reg-dump and reg-load fold such an index back into
    memory and complete. *)
Theorem index_register_used_unmasked (cpu : CPU) :
  wf_CPU cpu = true ->
  i (OP_Fx1E cpu) = (i cpu + get (v cpu) (op_x cpu)) mod 65536 /\
  (i cpu + op_n cpu <= 4096 \/ op_n cpu = 0 ->
     OP_Dxyn cpu = OP_Dxyn_masked cpu) /\
  (i cpu + 2 < 4096 ->
     OP_Fx33 cpu = OP_Fx33_masked cpu /\ exists c, OP_Fx33 cpu = Ok c) /\
  (i cpu + op_x cpu < 4096 ->
     OP_Fx55 cpu = OP_Fx55_masked cpu /\ exists c, OP_Fx55 cpu = Ok c) /\
  (i cpu + op_x cpu < 4096 ->
     OP_Fx65 cpu = OP_Fx65_masked cpu /\ exists c, OP_Fx65 cpu = Ok c) /\
  (0 < op_n cpu -> 4096 < i cpu + op_n cpu ->
     OP_Dxyn cpu =
     do c <- for_loop (Z.to_nat (4096 - i cpu)) 0
               (Dxyn_row (get (v cpu) (op_x cpu) mod VIDEO_WIDTH)
                         (get (v cpu) (op_y cpu) mod VIDEO_HEIGHT))
               (set_v cpu (put (v cpu) 0xF 0));
     Fault (MemoryFault (Z.max (i cpu) 4096))) /\
  (4096 <= i cpu + 2 -> OP_Fx33 cpu = Fault (MemoryFault (i cpu + 2))) /\
  (4096 <= i cpu + op_x cpu ->
     OP_Fx55 cpu = Fault (MemoryFault (Z.max (i cpu) 4096))) /\
  (4096 <= i cpu + op_x cpu ->
     OP_Fx65 cpu = Fault (MemoryFault (Z.max (i cpu) 4096))) /\
  is_Ok (OP_Fx33_masked cpu) = true /\
  is_Ok (OP_Fx55_masked cpu) = true /\
  is_Ok (OP_Fx65_masked cpu) = true.
Proof.
  intros Hwf. apply wf_CPU_WF in Hwf.
  pose proof (wf_i _ Hwf) as Hi. pose proof (op_x_range cpu) as Hx.
  split; [reflexivity |].
  split.
  { intros [Hfit|Hnone];
      [apply OP_Dxyn_in_range; lia | by apply OP_Dxyn_no_rows]. }
  split; [intros; apply OP_Fx33_in_range; lia |].
  split; [intros; apply OP_Fx55_in_range; (lia || apply Hwf) |].
  split; [intros; apply OP_Fx65_in_range; (lia || apply Hwf) |].
  split; [intros; apply OP_Dxyn_leaves_memory; lia |].
  split; [intros; by apply OP_Fx33_out_of_range |].
  split.
  { intros Hpast. unfold OP_Fx55. fold (op_x cpu).
    rewrite Fx55_loop_leaves_memory by lia. by rewrite Z.add_0_r. }
  split.
  { intros Hpast. unfold OP_Fx65. fold (op_x cpu).
    rewrite Fx65_loop_leaves_memory by lia. by rewrite Z.add_0_r. }
  split; [apply OP_Fx33_masked_Ok |].
  split; [apply OP_Fx55_masked_Ok | apply OP_Fx65_masked_Ok].
Qed.

(** Reg-dump of V0, V1 at I = 0xFFF: the byte at 0xFFF is inside memory, the
    next index is 0x1000 and is used as it is. *)
Lemma index_register_used_unmasked_witness :
  wf_CPU straddle_scene = true /\
  i straddle_scene = 0xFFF /\ op_x straddle_scene = 1 /\
  OP_Fx55 straddle_scene
  = Fault (MemoryFault (Z.max (i straddle_scene) 4096)) /\
  Z.max (i straddle_scene) 4096 = 0x1000 /\
  is_Ok (OP_Fx55_masked straddle_scene) = true.
Proof.
  assert (Hwf : wf_CPU straddle_scene = true) by (vm_compute; reflexivity).
  assert (Hpast : 4096 <= i straddle_scene + op_x straddle_scene)
    by (vm_compute; discriminate).
  split; [exact Hwf |]. split; [vm_compute; reflexivity |].
  split; [vm_compute; reflexivity |].
  destruct (index_register_used_unmasked straddle_scene Hwf)
    as (_ & _ & _ & _ & _ & _ & _ & Hdump & _ & _ & Hmasked & _).
  split; [exact (Hdump Hpast) |]. split; [vm_compute; reflexivity |].
  exact Hmasked.
Defined.

(** With I = 0x1000 reg-dump indexes memory at 0x1000, past its last byte;
    the masked wording would have stored V0 at address 0. *)
Lemma masked_addressing_counterexample :
  wf_CPU index_past_memory = true /\
  i index_past_memory = 0x1000 /\
  OP_Fx55 index_past_memory = Fault (MemoryFault 0x1000) /\
  masked (i index_past_memory + 0) = 0 /\
  is_Ok (OP_Fx55_masked index_past_memory) = true.
Proof. vm_compute. repeat split. Qed.

(** * The draw handler *)

Lemma land_pow2 a k :
  0 <= k -> Z.land a (2 ^ k) = if Z.testbit a k then 2 ^ k else 0.
Proof.
  intros Hk. apply Z.bits_inj'. intros n Hn.
  rewrite Z.land_spec, Z.pow2_bits_eqb by lia.
  destruct (Z.eqb_spec k n) as [->|Hne].
  - destruct (Z.testbit a n); simpl.
    + by rewrite Z.pow2_bits_true.
    + by rewrite Z.bits_0.
  - rewrite andb_false_r. destruct (Z.testbit a k).
    + by rewrite Z.pow2_bits_false.
    + by rewrite Z.bits_0.
Qed.

Lemma sprite_pixel_test sb col :
  0 <= col < 8 ->
  negb (Z.land sb (Z.shiftr 0x80 col) =? 0) = sprite_bit sb col.
Proof.
  intros Hcol. unfold sprite_bit.
  assert (E : Z.shiftr 0x80 col = 2 ^ (7 - col)).
  { assert (col = 0 \/ col = 1 \/ col = 2 \/ col = 3 \/ col = 4 \/ col = 5
            \/ col = 6 \/ col = 7) as Hc by lia.
    destruct Hc as [->|[->|[->|[->|[->|[->|[->| ->]]]]]]]; reflexivity. }
  rewrite E, land_pow2 by lia.
  assert (0 < 2 ^ (7 - col)) by (apply Z.pow_pos_nonneg; lia).
  destruct (Z.testbit sb (7 - col)); simpl.
  - destruct (Z.eqb_spec (2 ^ (7 - col)) 0); [lia | done].
  - done.
Qed.

Lemma Dxyn_pixel_step xPos yPos sb row col cpu :
  0 <= col < 8 ->
  let idx := (yPos + row) * 64 + xPos + col in
  0 <= idx < 65536 ->
  (sprite_bit sb col = true -> idx < 2048) ->
  Dxyn_pixel xPos yPos sb row col cpu =
  Ok (if sprite_bit sb col
      then set_gfx (if get (gfx cpu) idx =? LIT
                    then set_v cpu (put (v cpu) 0xF 1) else cpu)
                   (put (gfx cpu) idx (Z.lxor (get (gfx cpu) idx) LIT))
      else cpu).
Proof.
  intros Hcol idx Hidx Hbit. unfold Dxyn_pixel.
  rewrite sprite_pixel_test by done.
  destruct (sprite_bit sb col); [| done].
  specialize (Hbit eq_refl).
  assert (E : u16 ((yPos + row) * VIDEO_WIDTH + (xPos + col)) = idx).
  { unfold VIDEO_WIDTH. rewrite u16_small; lia. }
  rewrite E.
  rewrite load_in_range by (unfold VIDEO_WIDTH, VIDEO_HEIGHT; lia).
  cbn [bind]. fold LIT.
  assert (G : gfx (if get (gfx cpu) idx =? LIT
                   then set_v cpu (put (v cpu) 0xF 1) else cpu) = gfx cpu).
  { by destruct (_ =? LIT). }
  rewrite G.
  rewrite store_in_range by (unfold VIDEO_WIDTH, VIDEO_HEIGHT; lia).
  reflexivity.
Qed.

(** One sprite row, columns [col0 .. col0 + m - 1]: the cells under set
    sprite bits are toggled, register 0xF becomes 1 when one of them was lit,
    nothing else moves. *)
Lemma Dxyn_columns xPos yPos sb row m : forall col0 cpu,
  0 <= col0 -> col0 + Z.of_nat m <= 8 ->
  let base := (yPos + row) * 64 + xPos in
  0 <= base -> base + 8 <= 65536 ->
  (forall col, col0 <= col < col0 + Z.of_nat m ->
     sprite_bit sb col = true -> base + col < 2048) ->
  length (gfx cpu) = 2048%nat -> length (v cpu) = 16%nat ->
  exists cpu',
    for_loop m col0 (Dxyn_pixel xPos yPos sb row) cpu = Ok cpu' /\
    length (gfx cpu') = 2048%nat /\ length (v cpu') = 16%nat /\
    (forall idx, 0 <= idx ->
       get (gfx cpu') idx =
       if (base + col0 <=? idx) && (idx <? base + col0 + Z.of_nat m)
          && sprite_bit sb (idx - base)
       then Z.lxor (get (gfx cpu) idx) LIT else get (gfx cpu) idx) /\
    (forall k, 0 <= k -> k <> 0xF -> get (v cpu') k = get (v cpu) k) /\
    (get (v cpu') 0xF = 1 <->
       get (v cpu) 0xF = 1 \/
       exists col, col0 <= col < col0 + Z.of_nat m /\
         sprite_bit sb col = true /\ get (gfx cpu) (base + col) = LIT) /\
    (get (v cpu') 0xF = 1 \/ get (v cpu') 0xF = get (v cpu) 0xF).
Proof.
  induction m as [|m IH];
    intros col0 cpu Hcol0 Hfit base Hbase Hbase' Hin Hg Hv.
  - exists cpu. split; [done |]. split; [done |]. split; [done |]. split.
    { intros idx Hidx.
      destruct (Z.leb_spec (base + col0) idx),
               (Z.ltb_spec idx (base + col0 + Z.of_nat 0)); simpl; (done || lia). }
    split; [done |]. split; [| by right].
    split; [by left | intros [H|(col & Hc & _)]; [done | lia]].
  - rewrite for_loop_S.
    rewrite Dxyn_pixel_step;
      [| lia | fold base; lia | fold base; intros Hb; apply Hin; [lia | done]].
    cbn [bind].
    fold base. set (idx0 := base + col0).
    set (cpu1 := if sprite_bit sb col0
                 then set_gfx (if get (gfx cpu) idx0 =? LIT
                               then set_v cpu (put (v cpu) 0xF 1) else cpu)
                              (put (gfx cpu) idx0
                                   (Z.lxor (get (gfx cpu) idx0) LIT))
                 else cpu).
    assert (Hg1 : length (gfx cpu1) = 2048%nat).
    { subst cpu1. destruct (sprite_bit sb col0); [| done].
      cbn [gfx set_gfx]. by rewrite length_put. }
    assert (Hv1 : length (v cpu1) = 16%nat).
    { subst cpu1. destruct (sprite_bit sb col0); [| done].
      destruct (_ =? LIT); cbn [v set_v set_gfx]; [by rewrite length_put | done]. }
    assert (Hcells1 : forall idx, 0 <= idx ->
      get (gfx cpu1) idx =
      if decide (idx = idx0) then
        (if sprite_bit sb col0 then Z.lxor (get (gfx cpu) idx0) LIT
         else get (gfx cpu) idx0)
      else get (gfx cpu) idx).
    { intros idx Hidx. subst cpu1.
      destruct (sprite_bit sb col0) eqn:Ebit.
      - assert (idx0 < 2048) by (apply Hin; [lia | done]).
        cbn [gfx set_gfx]. rewrite get_put by (subst idx0; lia).
        by case_decide.
      - by case_decide; subst. }
    assert (Hregs1 : forall k, 0 <= k -> k <> 0xF ->
      get (v cpu1) k = get (v cpu) k).
    { intros k Hk Hne. subst cpu1. destruct (sprite_bit sb col0); [| done].
      destruct (_ =? LIT); cbn [v set_v set_gfx]; [| done].
      apply get_put_ne; lia. }
    assert (Hflag1 : get (v cpu1) 0xF =
      if sprite_bit sb col0 && (get (gfx cpu) idx0 =? LIT) then 1
      else get (v cpu) 0xF).
    { subst cpu1. destruct (sprite_bit sb col0); [| done].
      destruct (_ =? LIT); cbn [v set_v set_gfx andb]; [| done].
      apply get_put_eq. lia. }
    destruct (IH (col0 + 1) cpu1) as
      (cpu' & Hrun & Hg' & Hv' & Hcells & Hregs & Hflag & Hflag');
      [lia | lia | done | done | intros col Hc; apply Hin; lia
       | done | done |].
    fold base in Hcells, Hflag.
    exists cpu'. split; [exact Hrun |]. split; [done |]. split; [done |]. split.
    { intros idx Hidx. rewrite Hcells, Hcells1 by done. subst idx0.
      rewrite Nat2Z.inj_succ.
      case_decide as E.
      - subst idx. replace (base + col0 - base) with col0 by lia.
        destruct (Z.leb_spec (base + (col0 + 1)) (base + col0)),
                 (Z.leb_spec (base + col0) (base + col0)),
                 (Z.ltb_spec (base + col0) (base + col0 + Z.succ (Z.of_nat m)));
          cbn [andb]; (done || lia).
      - destruct (Z.leb_spec (base + (col0 + 1)) idx),
                 (Z.leb_spec (base + col0) idx),
                 (Z.ltb_spec idx (base + (col0 + 1) + Z.of_nat m)),
                 (Z.ltb_spec idx (base + col0 + Z.succ (Z.of_nat m)));
          cbn [andb]; (done || lia). }
    split.
    { intros k Hk Hne. by rewrite Hregs, Hregs1. }
    split.
    { rewrite Hflag, Hflag1. split.
      - intros [H|(col & Hc & Hbit & Hlit)].
        + destruct (sprite_bit sb col0) eqn:Eb; simpl in H; [| by left].
          destruct (Z.eqb_spec (get (gfx cpu) idx0) LIT) as [El|]; [| by left].
          right. exists col0. split; [lia |]. split; done.
        + right. exists col. split; [lia |]. split; [done |].
          rewrite Hcells1 in Hlit by lia.
          rewrite decide_False in Hlit by (subst idx0; lia). done.
      - intros [H|(col & Hc & Hbit & Hlit)].
        + left. by destruct (_ && _).
        + destruct (decide (col = col0)) as [->|Hne].
          * left. rewrite Hbit. fold idx0 in Hlit. rewrite Hlit.
            by rewrite Z.eqb_refl.
          * right. exists col. split; [lia |]. split; [done |].
            rewrite Hcells1 by lia.
            rewrite decide_False by (subst idx0; lia). done. }
    destruct Hflag' as [H|H]; [by left |].
    rewrite H, Hflag1. destruct (_ && _); [by left | by right].
Qed.

Lemma sprite_covers_true mem I xPos yPos row0 rows r c :
  sprite_covers mem I xPos yPos row0 rows r c = true <->
  yPos + row0 <= r < yPos + row0 + Z.of_nat rows /\
  xPos <= c < xPos + 8 /\
  sprite_bit (get mem (I + (r - yPos))) (c - xPos) = true.
Proof.
  unfold sprite_covers. rewrite !andb_true_iff.
  rewrite !Z.leb_le, !Z.ltb_lt. tauto.
Qed.

(** Case analysis on the comparisons in the goal. *)
Ltac compare_all :=
  repeat match goal with
  | |- context [?a <=? ?b] => destruct (Z.leb_spec a b)
  | |- context [?a <? ?b] => destruct (Z.ltb_spec a b)
  end;
  cbn [andb].

(** Sprite rows [row0 .. row0 + m - 1] of a sprite none of whose set pixels
    leaves the screen: every cell under a set sprite pixel is toggled, every
    other cell is kept, and register 0xF becomes 1 when a toggled cell was
    lit. *)
Lemma Dxyn_rows xPos yPos m : forall row0 cpu,
  0 <= xPos < 64 -> 0 <= yPos < 32 -> 0 <= row0 -> row0 + Z.of_nat m <= 16 ->
  (forall row col, row0 <= row < row0 + Z.of_nat m -> 0 <= col < 8 ->
     sprite_bit (get (memory cpu) (i cpu + row)) col = true ->
     xPos + col < 64 /\ yPos + row < 32) ->
  0 <= i cpu -> i cpu + row0 + Z.of_nat m <= 4096 ->
  length (gfx cpu) = 2048%nat -> length (v cpu) = 16%nat ->
  exists cpu',
    for_loop m row0 (Dxyn_row xPos yPos) cpu = Ok cpu' /\
    length (gfx cpu') = 2048%nat /\ length (v cpu') = 16%nat /\
    (forall r c, 0 <= r -> 0 <= c < 64 ->
       get (gfx cpu') (r * 64 + c) =
       if sprite_covers (memory cpu) (i cpu) xPos yPos row0 m r c
       then Z.lxor (get (gfx cpu) (r * 64 + c)) LIT
       else get (gfx cpu) (r * 64 + c)) /\
    (forall k, 0 <= k -> k <> 0xF -> get (v cpu') k = get (v cpu) k) /\
    (get (v cpu') 0xF = 1 <->
       get (v cpu) 0xF = 1 \/
       exists r c, 0 <= r /\ 0 <= c < 64 /\
         sprite_covers (memory cpu) (i cpu) xPos yPos row0 m r c = true /\
         get (gfx cpu) (r * 64 + c) = LIT) /\
    (get (v cpu') 0xF = 1 \/ get (v cpu') 0xF = get (v cpu) 0xF).
Proof.
  induction m as [|m IH];
    intros row0 cpu HxPos HyPos Hrow0 Hrows Hin Hi HiFit Hg Hv.
  - exists cpu. split; [done |]. split; [done |]. split; [done |]. split.
    { intros r c Hr Hc. unfold sprite_covers. compare_all; (done || lia). }
    split; [done |]. split; [| by right].
    split; [by left |].
    intros [H|(r & c & _ & _ & Hcov & _)]; [done |].
    apply sprite_covers_true in Hcov. lia.
  - rewrite for_loop_S. unfold Dxyn_row at 1.
    rewrite load_in_range by (unfold MEMORY_SIZE; lia). cbn [bind].
    set (sb := get (memory cpu) (i cpu + row0)).
    set (base := (yPos + row0) * 64 + xPos).
    assert (Hin0 : forall col, 0 <= col < 8 -> sprite_bit sb col = true ->
      xPos + col < 64 /\ yPos + row0 < 32).
    { intros col Hcol Hbit. apply (Hin row0 col); (done || lia). }
    destruct (Dxyn_columns xPos yPos sb row0 8 0 cpu) as
      (cpu1 & Hrun1 & Hg1 & Hv1 & Hcells1 & Hregs1 & Hflag1 & Hflag1');
      [lia | lia | lia | lia | | done | done |].
    { intros col Hcol Hbit. destruct (Hin0 col) as [Hc Hr]; [lia | done |].
      lia. }
    fold base in Hcells1, Hflag1.
    rewrite Hrun1. cbn [bind].
    assert (Hkeep : i cpu1 = i cpu /\ memory cpu1 = memory cpu).
    { revert Hrun1.
      apply (for_loop_invariant
               (fun s => i s = i cpu /\ memory s = memory cpu)); [| done].
      intros k s s' [Hsi Hsm] Hstep.
      apply Dxyn_pixel_keeps in Hstep as (-> & -> & _). done. }
    destruct Hkeep as [Hi1 Hm1].
    destruct (IH (row0 + 1) cpu1) as
      (cpu' & Hrun & Hg' & Hv' & Hcells & Hregs & Hflag & Hflag');
      [lia | lia | lia | lia | | lia | lia | done | done |].
    { intros row col Hrow Hcol. rewrite Hi1, Hm1. apply Hin; lia. }
    rewrite Hi1, Hm1 in Hcells, Hflag.
    (* the cells this sprite row touches are cells of row [yPos + row0] *)
    assert (Hcells1' : forall r c, 0 <= r -> 0 <= c < 64 ->
      get (gfx cpu1) (r * 64 + c) =
      if (r =? yPos + row0) && (xPos <=? c) && (c <? xPos + 8)
         && sprite_bit sb (c - xPos)
      then Z.lxor (get (gfx cpu) (r * 64 + c)) LIT
      else get (gfx cpu) (r * 64 + c)).
    { intros r c Hr Hc. rewrite Hcells1 by lia.
      destruct (Z.eqb_spec r (yPos + row0)) as [->|Hne].
      - replace ((yPos + row0) * 64 + c - base) with (c - xPos)
          by (subst base; lia).
        subst base. compare_all; (done || lia).
      - cbn [andb].
        destruct (sprite_bit sb (r * 64 + c - base)) eqn:Ebit;
          [| by rewrite andb_false_r].
        destruct (Z.leb_spec (base + 0) (r * 64 + c));
          destruct (Z.ltb_spec (r * 64 + c) (base + 0 + Z.of_nat 8));
          cbn [andb]; try done.
        exfalso. destruct (Hin0 (r * 64 + c - base)) as [Hc' _];
          [subst base; lia | done | subst base; lia]. }
    exists cpu'. split; [exact Hrun |]. split; [done |]. split; [done |]. split.
    { intros r c Hr Hc. rewrite Hcells, Hcells1' by done.
      unfold sprite_covers. rewrite Nat2Z.inj_succ.
      destruct (Z.eqb_spec r (yPos + row0)) as [->|Hne].
      - replace (i cpu + (yPos + row0 - yPos)) with (i cpu + row0) by lia.
        fold sb. compare_all; (done || lia).
      - compare_all; (done || lia). }
    split.
    { intros k Hk Hne. by rewrite Hregs, Hregs1. }
    split.
    { rewrite Hflag, Hflag1. split.
      - intros [[H|(col & Hcol & Hbit & Hlit)]|(r & c & Hr & Hc & Hcov & Hlit)].
        + by left.
        + right. exists (yPos + row0), (xPos + col).
          destruct (Hin0 col) as [Hc _]; [lia | done |].
          split; [lia |]. split; [lia |]. split.
          * apply sprite_covers_true. split; [lia |]. split; [lia |].
            replace (i cpu + (yPos + row0 - yPos)) with (i cpu + row0) by lia.
            replace (xPos + col - xPos) with col by lia. done.
          * replace ((yPos + row0) * 64 + (xPos + col)) with (base + col)
              by (subst base; lia).
            done.
        + right. exists r, c. split; [done |]. split; [done |].
          apply sprite_covers_true in Hcov as (Hrr & Hcc & Hbit).
          split.
          * apply sprite_covers_true. split; [lia |]. done.
          * rewrite Hcells1' in Hlit by done.
            destruct (Z.eqb_spec r (yPos + row0)); [lia | done].
      - intros [H|(r & c & Hr & Hc & Hcov & Hlit)]; [by left; left |].
        apply sprite_covers_true in Hcov as (Hrr & Hcc & Hbit).
        destruct (decide (r = yPos + row0)) as [->|Hne].
        + left. right. exists (c - xPos). split; [lia |]. split.
          * replace (i cpu + (yPos + row0 - yPos)) with (i cpu + row0)
              in Hbit by lia.
            done.
          * replace (base + (c - xPos)) with ((yPos + row0) * 64 + c)
              by (subst base; lia).
            done.
        + right. exists r, c. split; [done |]. split; [done |]. split.
          * apply sprite_covers_true. split; [lia |]. done.
          * rewrite Hcells1' by done.
            destruct (Z.eqb_spec r (yPos + row0)); [lia | done]. }
    destruct Hflag' as [H|H]; [by left |].
    rewrite H. destruct Hflag1' as [H1|H1]; [by left | by right].
Qed.

Lemma sprite_inside_spec cpu :
  sprite_inside cpu = true ->
  forall row col, 0 <= row < op_n cpu -> 0 <= col < 8 ->
    sprite_bit (get (memory cpu) (i cpu + row)) col = true ->
    get (v cpu) (op_x cpu) mod 64 + col < 64 /\
    get (v cpu) (op_y cpu) mod 32 + row < 32.
Proof.
  unfold sprite_inside, VIDEO_WIDTH, VIDEO_HEIGHT.
  intros Hall row col Hrow Hcol Hbit.
  rewrite forallb_forall in Hall. specialize (Hall row).
  rewrite forallb_forall in Hall.
  assert (Hthis : implb (sprite_bit (get (memory cpu) (i cpu + row)) col)
            ((get (v cpu) (op_x cpu) mod 64 + col <? 64)
             && (get (v cpu) (op_y cpu) mod 32 + row <? 32)) = true).
  { apply Hall; apply list_elem_of_In, elem_of_seqZ; lia. }
  rewrite Hbit in Hthis. cbn [implb] in Hthis.
  apply andb_true_iff in Hthis. lia.
Qed.

(** The whole draw, for a sprite none of whose set pixels leaves the screen
    and whose rows lie within memory. *)
Lemma OP_Dxyn_on_screen (cpu : CPU) :
  0 <= i cpu -> length (gfx cpu) = 2048%nat -> length (v cpu) = 16%nat ->
  (forall row col, 0 <= row < op_n cpu -> 0 <= col < 8 ->
     sprite_bit (get (memory cpu) (i cpu + row)) col = true ->
     get (v cpu) (op_x cpu) mod 64 + col < 64 /\
     get (v cpu) (op_y cpu) mod 32 + row < 32) ->
  i cpu + op_n cpu <= 4096 ->
  exists cpu',
    OP_Dxyn cpu = Ok cpu' /\
    length (gfx cpu') = 2048%nat /\ length (v cpu') = 16%nat /\
    (forall r c, 0 <= r -> 0 <= c < 64 ->
       get (gfx cpu') (r * 64 + c) =
       if sprite_at cpu r c then Z.lxor (get (gfx cpu) (r * 64 + c)) LIT
       else get (gfx cpu) (r * 64 + c)) /\
    (forall k, 0 <= k -> k <> 0xF -> get (v cpu') k = get (v cpu) k) /\
    (get (v cpu') 0xF = 1 <->
       exists r c, 0 <= r /\ 0 <= c < 64 /\
         sprite_at cpu r c = true /\ get (gfx cpu) (r * 64 + c) = LIT) /\
    (get (v cpu') 0xF = 1 \/ get (v cpu') 0xF = 0).
Proof.
  intros Hi Hg Hv Hin HiFit.
  pose proof (op_n_range cpu) as Hn.
  pose proof (Z.mod_pos_bound (get (v cpu) (op_x cpu)) 64 ltac:(lia)) as Hx.
  pose proof (Z.mod_pos_bound (get (v cpu) (op_y cpu)) 32 ltac:(lia)) as Hy.
  rewrite OP_Dxyn_loops. unfold VIDEO_WIDTH, VIDEO_HEIGHT.
  set (cpu0 := set_v cpu (put (v cpu) 0xF 0)).
  assert (H0 : get (v cpu0) 0xF = 0).
  { subst cpu0. cbn [v set_v]. apply get_put_eq. lia. }
  destruct (Dxyn_rows (get (v cpu) (op_x cpu) mod 64)
                      (get (v cpu) (op_y cpu) mod 32)
                      (Z.to_nat (op_n cpu)) 0 cpu0) as
    (cpu' & Hrun & Hg' & Hv' & Hcells & Hregs & Hflag & Hflag');
    subst cpu0; cbn [i gfx v memory set_v] in *;
    [lia | lia | lia | lia | intros row col Hrow Hcol; apply Hin; lia
     | lia | lia | done | by rewrite length_put |].
  exists cpu'. split; [exact Hrun |]. split; [done |]. split; [done |].
  split; [exact Hcells |]. split.
  { intros k Hk Hne. rewrite Hregs by done. apply get_put_ne; lia. }
  split.
  { rewrite Hflag, H0. split; [intros [?|?]; [lia | done] | by right]. }
  rewrite H0 in Hflag'. destruct Hflag'; [by left | by right].
Qed.

(** ** The draw without the on-screen restriction *)

Lemma hits_rows_spec mem I xPos yPos row0 rows idx :
  hits_rows mem I xPos yPos row0 rows idx = true <->
  exists row col,
    row0 <= row < row0 + Z.of_nat rows /\ 0 <= col < 8 /\
    sprite_bit (get mem (I + row)) col = true /\
    pixel_index xPos yPos row col = idx.
Proof.
  unfold hits_rows. rewrite existsb_exists. split.
  - intros (row & Hrow & Hcols). apply existsb_exists in Hcols
      as (col & Hcol & Hhit).
    apply list_elem_of_In, elem_of_seqZ in Hrow, Hcol.
    apply andb_true_iff in Hhit as [Hbit Hidx]. apply Z.eqb_eq in Hidx.
    exists row, col. repeat split; (done || lia).
  - intros (row & col & Hrow & Hcol & Hbit & Hidx).
    exists row. split; [apply list_elem_of_In, elem_of_seqZ; lia |].
    apply existsb_exists. exists col.
    split; [apply list_elem_of_In, elem_of_seqZ; lia |].
    rewrite Hbit. by apply Z.eqb_eq.
Qed.

Lemma forallb_false {A : Type} (f : A -> bool) l :
  forallb f l = false -> exists x, In x l /\ f x = false.
Proof.
  induction l as [|a l IH]; [discriminate |]. cbn [forallb].
  destruct (f a) eqn:Ea; cbn [andb].
  - intros H. destruct (IH H) as (x & Hx & Hfx). exists x. split; [by right | done].
  - intros _. exists a. split; [by left | done].
Qed.

Lemma Dxyn_pixel_outside xPos yPos sb row col cpu :
  0 <= col < 8 ->
  let idx := (yPos + row) * 64 + xPos + col in
  2048 <= idx < 65536 -> sprite_bit sb col = true ->
  Dxyn_pixel xPos yPos sb row col cpu = Fault (VideoFault idx).
Proof.
  intros Hcol idx Hidx Hbit. unfold Dxyn_pixel.
  rewrite sprite_pixel_test, Hbit by done.
  assert (E : u16 ((yPos + row) * VIDEO_WIDTH + (xPos + col)) = idx).
  { unfold VIDEO_WIDTH. rewrite u16_small; lia. }
  rewrite E.
  by rewrite load_out_of_range by (unfold VIDEO_WIDTH, VIDEO_HEIGHT; lia).
Qed.

(** One sprite row with a set pixel whose index is past the framebuffer:
    the columns before the first such pixel are plotted, then that pixel is
    plotted outside the framebuffer. *)
Lemma Dxyn_columns_outside xPos yPos sb row m : forall col0 cpu,
  0 <= col0 -> col0 + Z.of_nat m <= 8 ->
  let base := (yPos + row) * 64 + xPos in
  0 <= base -> base + 8 <= 65536 ->
  (exists col, col0 <= col < col0 + Z.of_nat m /\
     sprite_bit sb col = true /\ 2048 <= base + col) ->
  exists col, col0 <= col < col0 + Z.of_nat m /\
    sprite_bit sb col = true /\ 2048 <= base + col /\
    for_loop m col0 (Dxyn_pixel xPos yPos sb row) cpu
    = Fault (VideoFault (base + col)).
Proof.
  induction m as [|m IH]; intros col0 cpu Hcol0 Hfit base Hbase Hbase' Hbad.
  { destruct Hbad as (col & Hc & _). lia. }
  rewrite for_loop_S.
  destruct (sprite_bit sb col0) eqn:Ebit.
  - destruct (Z.lt_ge_cases (base + col0) 2048) as [Hin|Hout].
    + rewrite Dxyn_pixel_step; [| lia | fold base; lia | fold base; lia].
      cbn [bind].
      destruct (IH (col0 + 1)
                  (if sprite_bit sb col0
                   then set_gfx
                          (if get (gfx cpu) ((yPos + row) * 64 + xPos + col0)
                              =? LIT
                           then set_v cpu (put (v cpu) 0xF 1) else cpu)
                          (put (gfx cpu) ((yPos + row) * 64 + xPos + col0)
                             (Z.lxor
                                (get (gfx cpu)
                                   ((yPos + row) * 64 + xPos + col0)) LIT))
                   else cpu))
        as (col & Hc & Hb & Hpast & Hrun); [lia | lia | done | done | |].
      { destruct Hbad as (col & Hc & Hb & Hpast). exists col.
        split; [| done]. destruct (decide (col = col0)); [subst; lia | lia]. }
      exists col. split; [lia |]. done.
    + exists col0. split; [lia |]. split; [done |]. split; [done |].
      rewrite Dxyn_pixel_outside; [done | lia | fold base; lia | done].
  - rewrite Dxyn_pixel_step;
      [| lia | fold base; lia | rewrite Ebit; discriminate].
    cbn [bind]. rewrite Ebit.
    destruct (IH (col0 + 1) cpu) as (col & Hc & Hb & Hpast & Hrun);
      [lia | lia | done | done | |].
    { destruct Hbad as (col & Hc & Hb & Hpast). exists col.
      split; [| done].
      destruct (decide (col = col0)); [subst; congruence | lia]. }
    exists col. split; [lia |]. done.
Qed.

(** The cells one sprite row is plotted at, as [hits_rows] has them. *)
Lemma hits_one_row mem I xPos yPos row idx :
  hits_rows mem I xPos yPos row 1 idx
  = (let base := (yPos + row) * 64 + xPos in
     (base + 0 <=? idx) && (idx <? base + 0 + Z.of_nat 8)
     && sprite_bit (get mem (I + row)) (idx - base)).
Proof.
  cbv zeta. apply eq_true_iff_eq. rewrite hits_rows_spec.
  rewrite !andb_true_iff, Z.leb_le, Z.ltb_lt.
  unfold pixel_index, VIDEO_WIDTH. split.
  - intros (r & col & Hr & Hcol & Hbit & Hidx).
    assert (r = row) as -> by lia.
    replace (idx - ((yPos + row) * 64 + xPos)) with col by lia.
    split; [lia | done].
  - intros [Hrange Hbit].
    exists row, (idx - ((yPos + row) * 64 + xPos)).
    split; [lia |]. split; [lia |]. split; [done | lia].
Qed.

Lemma hits_rows_S mem I xPos yPos row0 m idx :
  hits_rows mem I xPos yPos row0 (S m) idx
  = hits_rows mem I xPos yPos row0 1 idx
    || hits_rows mem I xPos yPos (row0 + 1) m idx.
Proof.
  apply eq_true_iff_eq. rewrite orb_true_iff, !hits_rows_spec. split.
  - intros (row & col & Hrow & Hrest).
    destruct (decide (row = row0)) as [->|Hne].
    + left. exists row0, col. split; [lia | done].
    + right. exists row, col. split; [lia | done].
  - intros [(row & col & Hrow & Hrest)|(row & col & Hrow & Hrest)];
      exists row, col; (split; [lia | done]).
Qed.

(** Sprite rows [row0 .. row0 + m - 1], wherever their pixels fall: as long
    as the index of every set pixel is inside the framebuffer, exactly the
    cells at those indexes are toggled. *)
Lemma Dxyn_rows_linear xPos yPos m : forall row0 cpu,
  0 <= xPos < 64 -> 0 <= yPos < 32 -> 0 <= row0 -> row0 + Z.of_nat m <= 16 ->
  (forall row col, row0 <= row < row0 + Z.of_nat m -> 0 <= col < 8 ->
     sprite_bit (get (memory cpu) (i cpu + row)) col = true ->
     pixel_index xPos yPos row col < 2048) ->
  0 <= i cpu -> i cpu + row0 + Z.of_nat m <= 4096 ->
  length (gfx cpu) = 2048%nat -> length (v cpu) = 16%nat ->
  exists cpu',
    for_loop m row0 (Dxyn_row xPos yPos) cpu = Ok cpu' /\
    length (gfx cpu') = 2048%nat /\ length (v cpu') = 16%nat /\
    (forall idx, 0 <= idx ->
       get (gfx cpu') idx =
       if hits_rows (memory cpu) (i cpu) xPos yPos row0 m idx
       then Z.lxor (get (gfx cpu) idx) LIT else get (gfx cpu) idx).
Proof.
  induction m as [|m IH];
    intros row0 cpu HxPos HyPos Hrow0 Hrows Hin Hi HiFit Hg Hv.
  - exists cpu. do 3 (split; [done |]). intros idx Hidx.
    destruct (hits_rows _ _ _ _ _ _ _) eqn:E; [| done].
    apply hits_rows_spec in E as (row & col & Hrow & _). lia.
  - rewrite for_loop_S. unfold Dxyn_row at 1.
    rewrite load_in_range by (unfold MEMORY_SIZE; lia). cbn [bind].
    set (sb := get (memory cpu) (i cpu + row0)).
    destruct (Dxyn_columns xPos yPos sb row0 8 0 cpu) as
      (cpu1 & Hrun1 & Hg1 & Hv1 & Hcells1 & _);
      [lia | lia | lia | lia | | done | done |].
    { intros col Hcol Hbit.
      specialize (Hin row0 col ltac:(lia) ltac:(lia) Hbit).
      unfold pixel_index, VIDEO_WIDTH in Hin. lia. }
    rewrite Hrun1. cbn [bind].
    assert (Hkeep : i cpu1 = i cpu /\ memory cpu1 = memory cpu).
    { revert Hrun1.
      apply (for_loop_invariant
               (fun s => i s = i cpu /\ memory s = memory cpu)); [| done].
      intros k s s' [Hsi Hsm] Hstep.
      apply Dxyn_pixel_keeps in Hstep as (-> & -> & _). done. }
    destruct Hkeep as [Hi1 Hm1].
    destruct (IH (row0 + 1) cpu1) as (cpu' & Hrun & Hg' & Hv' & Hcells);
      [lia | lia | lia | lia | | lia | lia | done | done |].
    { intros row col Hrow Hcol. rewrite Hi1, Hm1. apply Hin; lia. }
    rewrite Hi1, Hm1 in Hcells.
    exists cpu'. do 3 (split; [done |]). intros idx Hidx.
    rewrite Hcells, Hcells1, hits_rows_S, hits_one_row by done.
    fold sb. cbv zeta.
    destruct (_ && sprite_bit sb _) eqn:Ehere; cbn [orb]; [| done].
    destruct (hits_rows _ _ _ _ (row0 + 1) m idx) eqn:Erest; [| done].
    exfalso. apply hits_rows_spec in Erest as (row & col & Hrow & Hcol & _ & E).
    rewrite !andb_true_iff, Z.leb_le, Z.ltb_lt in Ehere.
    unfold pixel_index, VIDEO_WIDTH in E. lia.
Qed.

(** Sprite rows with a set pixel whose index is past the framebuffer: the
    draw plots such a pixel outside the framebuffer. *)
Lemma Dxyn_rows_outside xPos yPos m : forall row0 cpu,
  0 <= xPos < 64 -> 0 <= yPos < 32 -> 0 <= row0 -> row0 + Z.of_nat m <= 16 ->
  (exists row col, row0 <= row < row0 + Z.of_nat m /\ 0 <= col < 8 /\
     sprite_bit (get (memory cpu) (i cpu + row)) col = true /\
     2048 <= pixel_index xPos yPos row col) ->
  0 <= i cpu -> i cpu + row0 + Z.of_nat m <= 4096 ->
  length (gfx cpu) = 2048%nat -> length (v cpu) = 16%nat ->
  exists row col, row0 <= row < row0 + Z.of_nat m /\ 0 <= col < 8 /\
    sprite_bit (get (memory cpu) (i cpu + row)) col = true /\
    2048 <= pixel_index xPos yPos row col /\
    for_loop m row0 (Dxyn_row xPos yPos) cpu
    = Fault (VideoFault (pixel_index xPos yPos row col)).
Proof.
  induction m as [|m IH];
    intros row0 cpu HxPos HyPos Hrow0 Hrows Hbad Hi HiFit Hg Hv.
  { destruct Hbad as (row & col & Hrow & _). lia. }
  rewrite for_loop_S. unfold Dxyn_row at 1.
  rewrite load_in_range by (unfold MEMORY_SIZE; lia). cbn [bind].
  set (sb := get (memory cpu) (i cpu + row0)).
  destruct (forallb (fun col =>
              implb (sprite_bit sb col)
                    (pixel_index xPos yPos row0 col <? 2048)) (seqZ 0 8))
    eqn:Erow.
  - (* this row stays inside: the pixel is in a later row *)
    assert (Hin0 : forall col, 0 <= col < 8 -> sprite_bit sb col = true ->
              pixel_index xPos yPos row0 col < 2048).
    { intros col Hcol Hbit. rewrite forallb_forall in Erow.
      specialize (Erow col ltac:(apply list_elem_of_In, elem_of_seqZ; lia)).
      rewrite Hbit in Erow. cbn [implb] in Erow. lia. }
    destruct (Dxyn_columns xPos yPos sb row0 8 0 cpu) as
      (cpu1 & Hrun1 & Hg1 & Hv1 & _);
      [lia | lia | lia | lia | | done | done |].
    { intros col Hcol Hbit. specialize (Hin0 col ltac:(lia) Hbit).
      unfold pixel_index, VIDEO_WIDTH in Hin0. lia. }
    rewrite Hrun1. cbn [bind].
    assert (Hkeep : i cpu1 = i cpu /\ memory cpu1 = memory cpu).
    { revert Hrun1.
      apply (for_loop_invariant
               (fun s => i s = i cpu /\ memory s = memory cpu)); [| done].
      intros k s s' [Hsi Hsm] Hstep.
      apply Dxyn_pixel_keeps in Hstep as (-> & -> & _). done. }
    destruct Hkeep as [Hi1 Hm1].
    destruct (IH (row0 + 1) cpu1)
      as (row & col & Hrow & Hcol & Hbit & Hpast & Hrun);
      [lia | lia | lia | lia | | lia | lia | done | done |].
    { destruct Hbad as (row & col & Hrow & Hcol & Hbit & Hpast).
      exists row, col. rewrite Hi1, Hm1.
      split; [| done]. destruct (decide (row = row0)) as [->|]; [| lia].
      specialize (Hin0 col Hcol Hbit). lia. }
    rewrite Hi1, Hm1 in Hbit.
    exists row, col. split; [lia |]. done.
  - (* this row has such a pixel *)
    apply forallb_false in Erow as (col & Hcol & Hbad0).
    apply list_elem_of_In, elem_of_seqZ in Hcol.
    destruct (sprite_bit sb col) eqn:Ebit; [| done]. cbn [implb] in Hbad0.
    apply Z.ltb_ge in Hbad0. unfold pixel_index, VIDEO_WIDTH in Hbad0.
    destruct (Dxyn_columns_outside xPos yPos sb row0 8 0 cpu)
      as (col' & Hcol' & Hbit' & Hpast' & Hrun);
      [lia | lia | lia | lia | exists col; split; [lia |]; split; [done | lia]
      |].
    rewrite Hrun. cbn [bind].
    exists row0, col'. split; [lia |]. split; [lia |]. split; [done |].
    unfold pixel_index, VIDEO_WIDTH. split; [lia |].
    do 2 f_equal. lia.
Qed.

Lemma sprite_in_gfx_true cpu :
  sprite_in_gfx cpu = true ->
  forall row col, 0 <= row < 0 + Z.of_nat (Z.to_nat (op_n cpu)) ->
    0 <= col < 8 ->
    sprite_bit (get (memory cpu) (i cpu + row)) col = true ->
    pixel_index (get (v cpu) (op_x cpu) mod 64)
                (get (v cpu) (op_y cpu) mod 32) row col < 2048.
Proof.
  unfold sprite_in_gfx, VIDEO_WIDTH, VIDEO_HEIGHT. cbv zeta.
  intros Hall row col Hrow Hcol Hbit.
  rewrite forallb_forall in Hall.
  specialize (Hall row ltac:(apply list_elem_of_In, elem_of_seqZ; lia)).
  rewrite forallb_forall in Hall.
  specialize (Hall col ltac:(apply list_elem_of_In, elem_of_seqZ; lia)).
  rewrite Hbit in Hall. cbn [implb] in Hall. lia.
Qed.

Lemma sprite_in_gfx_false cpu :
  sprite_in_gfx cpu = false ->
  exists row col, 0 <= row < 0 + Z.of_nat (Z.to_nat (op_n cpu)) /\
    0 <= col < 8 /\
    sprite_bit (get (memory cpu) (i cpu + row)) col = true /\
    2048 <= pixel_index (get (v cpu) (op_x cpu) mod 64)
                        (get (v cpu) (op_y cpu) mod 32) row col.
Proof.
  unfold sprite_in_gfx, VIDEO_WIDTH, VIDEO_HEIGHT. cbv zeta. intros Hsome.
  apply forallb_false in Hsome as (row & Hrow & Hsome).
  apply forallb_false in Hsome as (col & Hcol & Hsome).
  apply list_elem_of_In, elem_of_seqZ in Hrow, Hcol.
  destruct (sprite_bit _ col) eqn:Hbit; [| done]. cbn [implb] in Hsome.
  exists row, col. repeat split; (done || lia).
Qed.

(** C2 (as amended) -- the draw starts at column V[x] mod 64 and row
    V[y] mod 32 and plots every set sprite pixel (row, col) at the cell
    of linear index (yPos + row) * 64 + (xPos + col), with no test of
    either coordinate: nothing is clipped.  A set pixel past the right edge
    (xPos + col >= 64) therefore falls on the next framebuffer row, at
    column xPos + col - 64.  When every such index is below 64 * 32 (and the
    sprite rows lie inside memory) the draw succeeds and toggles exactly the
    cells at those indexes, leaving every other cell unchanged; when some
    set pixel has an index of 64 * 32 or more, the draw plots such a pixel
    outside the framebuffer. *)
Theorem draw_is_not_clipped (cpu : CPU) :
  wf_CPU cpu = true ->
  i cpu + op_n cpu <= 4096 ->
  let xPos := get (v cpu) (op_x cpu) mod 64 in
  let yPos := get (v cpu) (op_y cpu) mod 32 in
  (sprite_in_gfx cpu = true ->
     exists cpu',
       OP_Dxyn cpu = Ok cpu' /\
       forall idx, 0 <= idx ->
         get (gfx cpu') idx =
         if sprite_hits cpu idx then Z.lxor (get (gfx cpu) idx) LIT
         else get (gfx cpu) idx) /\
  (sprite_in_gfx cpu = false ->
     exists row col,
       0 <= row < op_n cpu /\ 0 <= col < 8 /\
       sprite_bit (get (memory cpu) (i cpu + row)) col = true /\
       2048 <= pixel_index xPos yPos row col /\
       OP_Dxyn cpu = Fault (VideoFault (pixel_index xPos yPos row col))) /\
  (forall row col, 0 <= row < op_n cpu -> 0 <= col < 8 ->
     sprite_bit (get (memory cpu) (i cpu + row)) col = true ->
     sprite_hits cpu (pixel_index xPos yPos row col) = true /\
     (64 <= xPos + col ->
        pixel_index xPos yPos row col
        = (yPos + row + 1) * 64 + (xPos + col - 64))).
Proof.
  intros Hwf HiFit xPos yPos. apply wf_CPU_WF in Hwf.
  pose proof (op_n_range cpu) as Hn.
  pose proof (wf_i _ Hwf) as Hi.
  pose proof (Z.mod_pos_bound (get (v cpu) (op_x cpu)) 64 ltac:(lia)) as Hx.
  pose proof (Z.mod_pos_bound (get (v cpu) (op_y cpu)) 32 ltac:(lia)) as Hy.
  fold xPos in Hx. fold yPos in Hy.
  assert (Hg0 : length (gfx (set_v cpu (put (v cpu) 0xF 0))) = 2048%nat)
    by apply Hwf.
  assert (Hv0 : length (v (set_v cpu (put (v cpu) 0xF 0))) = 16%nat).
  { cbn [v set_v]. rewrite length_put. apply Hwf. }
  rewrite OP_Dxyn_loops. unfold VIDEO_WIDTH, VIDEO_HEIGHT.
  fold xPos yPos. split; [| split].
  - intros Hinside.
    destruct (Dxyn_rows_linear xPos yPos (Z.to_nat (op_n cpu)) 0
                (set_v cpu (put (v cpu) 0xF 0)))
      as (cpu' & Hrun & _ & _ & Hcells);
      [done | done | lia | lia | | cbn [i set_v]; lia | cbn [i set_v]; lia
       | done | done |].
    { cbn [i memory set_v]. by apply sprite_in_gfx_true. }
    exists cpu'. split; [exact Hrun |]. exact Hcells.
  - intros Houtside.
    destruct (Dxyn_rows_outside xPos yPos (Z.to_nat (op_n cpu)) 0
                (set_v cpu (put (v cpu) 0xF 0)))
      as (row & col & Hrow & Hcol & Hbit & Hpast & Hrun);
      [done | done | lia | lia | | cbn [i set_v]; lia | cbn [i set_v]; lia
       | done | done |].
    { cbn [i memory set_v]. by apply sprite_in_gfx_false. }
    cbn [i memory set_v] in Hbit.
    exists row, col. split; [lia |]. done.
  - intros row col Hrow Hcol Hbit. split.
    + apply hits_rows_spec. exists row, col.
      split; [lia |]. split; [done |]. split; [done |].
      unfold VIDEO_WIDTH, VIDEO_HEIGHT. done.
    + intros Hedge. unfold pixel_index, VIDEO_WIDTH. lia.
Qed.

(** A row 0xFF drawn at column 62 of row 0: the pixels of columns 62 and 63
    are plotted on row 0, and the six pixels past the right edge on row 1,
    columns 0 .. 5. *)
Lemma draw_is_not_clipped_witness :
  wf_CPU right_edge_scene = true /\
  sprite_in_gfx right_edge_scene = true /\
  sprite_hits right_edge_scene (1 * 64 + 5) = true /\
  sprite_hits right_edge_scene (1 * 64 + 6) = false /\
  exists cpu',
    OP_Dxyn right_edge_scene = Ok cpu' /\
    get (gfx cpu') (0 * 64 + 63)
    = Z.lxor (get (gfx right_edge_scene) (0 * 64 + 63)) LIT /\
    get (gfx cpu') (1 * 64 + 5)
    = Z.lxor (get (gfx right_edge_scene) (1 * 64 + 5)) LIT /\
    get (gfx cpu') (1 * 64 + 6) = get (gfx right_edge_scene) (1 * 64 + 6).
Proof.
  assert (Hwf : wf_CPU right_edge_scene = true) by (vm_compute; reflexivity).
  assert (Hmem : i right_edge_scene + op_n right_edge_scene <= 4096)
    by (vm_compute; discriminate).
  assert (Hin : sprite_in_gfx right_edge_scene = true)
    by (vm_compute; reflexivity).
  assert (H63 : sprite_hits right_edge_scene (0 * 64 + 63) = true)
    by (vm_compute; reflexivity).
  assert (H69 : sprite_hits right_edge_scene (1 * 64 + 5) = true)
    by (vm_compute; reflexivity).
  assert (H70 : sprite_hits right_edge_scene (1 * 64 + 6) = false)
    by (vm_compute; reflexivity).
  split; [exact Hwf |]. split; [exact Hin |].
  split; [exact H69 |]. split; [exact H70 |].
  destruct (draw_is_not_clipped right_edge_scene Hwf Hmem) as (Hdraw & _).
  destruct (Hdraw Hin) as (cpu' & Hrun & Hcells).
  exists cpu'. split; [exact Hrun |].
  split; [| split].
  - rewrite (Hcells (0 * 64 + 63)) by lia. by rewrite H63.
  - rewrite (Hcells (1 * 64 + 5)) by lia. by rewrite H69.
  - rewrite (Hcells (1 * 64 + 6)) by lia. by rewrite H70.
Defined.

(** A row 0xFF drawn at column 62 of row 0: the six pixels past column 63
    are written all the same, into columns 0 .. 5 of row 1; drawn at column
    62 of row 31, they are written past the end of the framebuffer. *)
Lemma draw_clipping_counterexample :
  wf_CPU right_edge_scene = true /\
  get (v right_edge_scene) (op_x right_edge_scene) mod 64 = 62 /\
  get (v right_edge_scene) (op_y right_edge_scene) mod 32 = 0 /\
  op_n right_edge_scene = 1 /\
  get (gfx right_edge_scene) (1 * 64 + 0) = 0 /\
  OP_Dxyn right_edge_scene = Ok (state_of (OP_Dxyn right_edge_scene)) /\
  get (gfx (state_of (OP_Dxyn right_edge_scene))) (0 * 64 + 63) = LIT /\
  get (gfx (state_of (OP_Dxyn right_edge_scene))) (1 * 64 + 0) = LIT /\
  get (gfx (state_of (OP_Dxyn right_edge_scene))) (1 * 64 + 5) = LIT /\
  wf_CPU bottom_right_scene = true /\
  get (v bottom_right_scene) (op_y bottom_right_scene) mod 32 = 31 /\
  OP_Dxyn bottom_right_scene = Fault (VideoFault (32 * 64 + 0)).
Proof. vm_compute. repeat split. Qed.

Lemma all_unlit_get cells k : all_unlit cells = true -> get cells k = 0.
Proof.
  intros Hall. unfold get.
  destruct (cells !! Z.to_nat k) as [z|] eqn:E; [| done]. simpl.
  unfold all_unlit in Hall. rewrite forallb_forall in Hall.
  specialize (Hall z). rewrite Z.eqb_eq in Hall. apply Hall.
  apply list_elem_of_In. by eapply list_elem_of_lookup_2.
Qed.

(** The sprite of the scenario: one row [0xF0] at the top left corner. *)
Lemma sprite_at_F0 cpu r c :
  op_n cpu = 1 ->
  get (v cpu) (op_x cpu) mod 64 = 0 -> get (v cpu) (op_y cpu) mod 32 = 0 ->
  get (memory cpu) (i cpu) = 0xF0 ->
  0 <= r -> 0 <= c < 64 ->
  sprite_at cpu r c = (r =? 0) && (c <? 4).
Proof.
  intros Hn Hx Hy Hbyte Hr Hc. unfold sprite_at, sprite_covers.
  unfold VIDEO_WIDTH, VIDEO_HEIGHT. rewrite Hn, Hx, Hy.
  change (Z.of_nat (Z.to_nat 1)) with 1.
  destruct (Z.eqb_spec r 0) as [->|Hne].
  - replace (i cpu + (0 - 0)) with (i cpu) by lia.
    rewrite Hbyte, Z.sub_0_r.
    destruct (Z.ltb_spec c 8) as [Hc8|Hc8].
    + assert (c = 0 \/ c = 1 \/ c = 2 \/ c = 3 \/ c = 4 \/ c = 5 \/ c = 6
              \/ c = 7) as Hcases by lia.
      destruct Hcases as [->|[->|[->|[->|[->|[->|[->| ->]]]]]]]; reflexivity.
    + compare_all; (done || lia).
  - compare_all; (done || lia).
Qed.

(** C3 (as amended) -- on an all-unlit framebuffer, drawing the one-row
    sprite 0xF0 at (0,0) lights the four leftmost pixels of row 0, lights
    nothing else, and leaves register 0xF at 0.  Drawing the same sprite
    again at the same position turns those four pixels off again, so the
    framebuffer is all unlit, and sets register 0xF to 1: the second draw
    erases lit pixels, which is a collision. *)
Theorem draw_F0_twice (cpu : CPU) :
  wf_CPU cpu = true ->
  all_unlit (gfx cpu) = true ->
  op_n cpu = 1 ->
  get (v cpu) (op_x cpu) mod 64 = 0 ->
  get (v cpu) (op_y cpu) mod 32 = 0 ->
  i cpu < 4096 ->
  get (memory cpu) (i cpu) = 0xF0 ->
  exists cpu1 cpu2,
    OP_Dxyn cpu = Ok cpu1 /\
    (forall k, 0 <= k < 2048 ->
       get (gfx cpu1) k = if k <? 4 then LIT else 0) /\
    get (v cpu1) 0xF = 0 /\
    OP_Dxyn cpu1 = Ok cpu2 /\
    (forall k, 0 <= k < 2048 -> get (gfx cpu2) k = 0) /\
    get (v cpu2) 0xF = 1.
Proof.
  intros Hwf Hunlit Hn Hx Hy Hi Hbyte. apply wf_CPU_WF in Hwf.
  pose proof (wf_i _ Hwf) as Hi0.
  (* first draw *)
  destruct (OP_Dxyn_on_screen cpu) as
    (cpu1 & Hrun1 & Hg1 & Hv1 & Hcells1 & Hregs1 & Hflag1 & Hflag1');
    [lia | apply Hwf | apply Hwf | intros; lia | lia |].
  destruct (OP_Dxyn_keeps _ _ Hrun1) as (Hi1 & Hm1 & Ho1).
  assert (Hcell1 : forall k, 0 <= k < 2048 ->
    get (gfx cpu1) k = if k <? 4 then LIT else 0).
  { intros k Hk.
    pose proof (Z.div_mod k 64 ltac:(lia)) as Hdm.
    pose proof (Z.mod_pos_bound k 64 ltac:(lia)) as Hmod.
    assert (0 <= k / 64) as Hdiv by (apply Z.div_pos; lia).
    replace k with (k / 64 * 64 + k mod 64) at 1 by lia.
    rewrite Hcells1 by lia. rewrite sprite_at_F0 by (done || lia).
    rewrite all_unlit_get by done.
    destruct (Z.eqb_spec (k / 64) 0) as [E|E];
      destruct (Z.ltb_spec (k mod 64) 4), (Z.ltb_spec k 4);
      cbn [andb]; (done || lia). }
  assert (Hf1 : get (v cpu1) 0xF = 0).
  { destruct Hflag1' as [H1|H0]; [| done].
    apply Hflag1 in H1 as (r & c & _ & _ & _ & Hlit).
    rewrite all_unlit_get in Hlit by done. discriminate. }
  (* the second draw is at the same position *)
  assert (Hop : op_x cpu1 = op_x cpu /\ op_y cpu1 = op_y cpu
                /\ op_n cpu1 = op_n cpu).
  { unfold op_x, op_y, op_n. by rewrite Ho1. }
  destruct Hop as (Hox & Hoy & Hon).
  pose proof (op_x_range cpu) as Hxr. pose proof (op_y_range cpu) as Hyr.
  assert (Hx1 : get (v cpu1) (op_x cpu1) mod 64 = 0).
  { rewrite Hox. destruct (decide (op_x cpu = 0xF)) as [E|E].
    - by rewrite E, Hf1.
    - by rewrite Hregs1 by lia. }
  assert (Hy1 : get (v cpu1) (op_y cpu1) mod 32 = 0).
  { rewrite Hoy. destruct (decide (op_y cpu = 0xF)) as [E|E].
    - by rewrite E, Hf1.
    - by rewrite Hregs1 by lia. }
  destruct (OP_Dxyn_on_screen cpu1) as
    (cpu2 & Hrun2 & Hg2 & Hv2 & Hcells2 & Hregs2 & Hflag2 & Hflag2');
    [lia | done | done | intros; lia | lia |].
  exists cpu1, cpu2.
  split; [exact Hrun1 |]. split; [exact Hcell1 |]. split; [exact Hf1 |].
  split; [exact Hrun2 |]. split.
  - intros k Hk.
    pose proof (Z.div_mod k 64 ltac:(lia)) as Hdm.
    pose proof (Z.mod_pos_bound k 64 ltac:(lia)) as Hmod.
    assert (0 <= k / 64) as Hdiv by (apply Z.div_pos; lia).
    replace k with (k / 64 * 64 + k mod 64) at 1 by lia.
    rewrite Hcells2 by lia.
    rewrite sprite_at_F0 by (done || lia || congruence).
    replace (k / 64 * 64 + k mod 64) with k by lia.
    rewrite Hcell1 by done.
    destruct (Z.eqb_spec (k / 64) 0) as [E|E];
      destruct (Z.ltb_spec (k mod 64) 4), (Z.ltb_spec k 4);
      cbn [andb]; (done || lia).
  - apply Hflag2. exists 0, 0. split; [lia |]. split; [lia |]. split.
    + rewrite sprite_at_F0 by (done || lia || congruence). done.
    + change (0 * 64 + 0) with 0. by rewrite (Hcell1 0) by lia.
Qed.

Lemma draw_F0_twice_witness :
  wf_CPU f0_scene = true /\
  exists cpu1 cpu2,
    OP_Dxyn f0_scene = Ok cpu1 /\ get (gfx cpu1) 3 = LIT /\
    get (gfx cpu1) 4 = 0 /\ get (v cpu1) 0xF = 0 /\
    OP_Dxyn cpu1 = Ok cpu2 /\ get (gfx cpu2) 3 = 0 /\ get (v cpu2) 0xF = 1.
Proof.
  assert (Hwf : wf_CPU f0_scene = true) by (vm_compute; reflexivity).
  split; [exact Hwf |].
  destruct (draw_F0_twice f0_scene Hwf)
    as (cpu1 & cpu2 & Hrun1 & Hcells1 & Hf1 & Hrun2 & Hcells2 & Hf2);
    [vm_compute; reflexivity | vm_compute; reflexivity
     | vm_compute; reflexivity | vm_compute; reflexivity
     | vm_compute; reflexivity | vm_compute; reflexivity |].
  exists cpu1, cpu2. split; [exact Hrun1 |].
  split; [exact (Hcells1 3 ltac:(lia)) |].
  split; [exact (Hcells1 4 ltac:(lia)) |].
  split; [exact Hf1 |]. split; [exact Hrun2 |].
  split; [exact (Hcells2 3 ltac:(lia)) | exact Hf2].
Defined.

(** The second draw of Scenario 3 erases four lit pixels and leaves 1, not
    0, in register 0xF. *)
Lemma second_draw_flag_counterexample :
  wf_CPU f0_scene = true /\
  all_unlit (gfx f0_scene) = true /\
  get (memory f0_scene) (i f0_scene) = 0xF0 /\
  OP_Dxyn f0_scene = Ok (state_of (OP_Dxyn f0_scene)) /\
  get (v (state_of (OP_Dxyn f0_scene))) 0xF = 0 /\
  OP_Dxyn (state_of (OP_Dxyn f0_scene))
  = Ok (state_of (OP_Dxyn (state_of (OP_Dxyn f0_scene)))) /\
  all_unlit (gfx (state_of (OP_Dxyn (state_of (OP_Dxyn f0_scene))))) = true /\
  get (v (state_of (OP_Dxyn (state_of (OP_Dxyn f0_scene))))) 0xF = 1.
Proof. vm_compute. repeat split. Qed.

(** * The jump tables after [Chip8_Create] *)

Lemma assign_Ok table k f l :
  assign table k f = Ok l ->
  (Z.to_nat k < length table)%nat /\ l = <[Z.to_nat k := f]> table.
Proof.
  unfold assign.
  destruct (Nat.ltb_spec (Z.to_nat k) (length table)) as [Hlt|Hge].
  - intros H. inversion H. done.
  - discriminate.
Qed.

(** One assignment of [assignOpcodeTableFunctions]: it succeeded, so its
    index is inside the table, and the table is updated. *)
Ltac assignment H :=
  let t := fresh "t" in
  let l := fresh "l" in
  let Hl := fresh "Hl" in
  let Hb := fresh "Hbound" in
  let Ht := fresh "Ht" in
  apply bind_Ok in H as (t & Ht & H);
  apply bind_Ok in Ht as (l & Hl & Ht);
  apply assign_Ok in Hl as [Hb ->];
  injection Ht as <-;
  cbn [dispatcher table0 table1 table2 table3 table4 table5 table6 table7
       table8 table9 tableA tableB tableC tableD tableE tableF
       set_table0 set_table1 set_table2 set_table3 set_table4 set_table5
       set_table6 set_table7 set_table8 set_table9 set_tableA set_tableB
       set_tableC set_tableD set_tableE set_tableF] in H, Hb;
  rewrite ?length_insert in Hb.

Lemma setup_tables entries cpu :
  tables (setupOpcodeTables entries (setupDispatcher cpu)) =
  mkTables
    [ fp_dispatcher0; fp_dispatcher1; fp_dispatcher2; fp_dispatcher3;
      fp_dispatcher4; fp_dispatcher5; fp_dispatcher6; fp_dispatcher7;
      fp_dispatcher8; fp_dispatcher9; fp_dispatcherA; fp_dispatcherB;
      fp_dispatcherC; fp_dispatcherD; fp_dispatcherE; fp_dispatcherF ]
    (initOpcodeTable (entries 0%nat)) (initOpcodeTable (entries 1%nat))
    (initOpcodeTable (entries 2%nat)) (initOpcodeTable (entries 3%nat))
    (initOpcodeTable (entries 4%nat)) (initOpcodeTable (entries 5%nat))
    (initOpcodeTable (entries 6%nat)) (initOpcodeTable (entries 7%nat))
    (initOpcodeTable (entries 8%nat)) (initOpcodeTable (entries 9%nat))
    (initOpcodeTable (entries 10%nat)) (initOpcodeTable (entries 11%nat))
    (initOpcodeTable (entries 12%nat)) (initOpcodeTable (entries 13%nat))
    (initOpcodeTable (entries 14%nat)) (initOpcodeTable (entries 15%nat)).
Proof. reflexivity. Qed.

Lemma Chip8_Create_tables entries c0 c1 :
  Chip8_Create entries c0 = Ok c1 ->
  tables c1 = installed entries /\
  (14 < entries 0)%nat /\ (14 < entries 8)%nat /\ (14 < entries 14)%nat /\
  (0x65 < entries 15)%nat.
Proof.
  unfold Chip8_Create, assignOpcodeTableFunctions. intros H.
  cbv zeta in H. rewrite setup_tables in H.
  unfold assign_table0, assign_table1, assign_table2, assign_table3,
    assign_table4, assign_table5, assign_table6, assign_table7,
    assign_table8, assign_table9, assign_tableA, assign_tableB,
    assign_tableC, assign_tableD, assign_tableE, assign_tableF in H.
  do 34 assignment H.
  injection H as <-. cbn [tables set_tables].
  unfold initOpcodeTable in *. rewrite !length_replicate in *.
  split; [reflexivity |].
  change (Z.to_nat 14) with 14%nat in *.
  change (Z.to_nat 101) with 101%nat in *.
  repeat split; assumption.
Qed.

Lemma lookup_init num k :
  (k < num)%nat -> initOpcodeTable num !! k = Some fp_OP_0nnn.
Proof. intros Hk. unfold initOpcodeTable. by apply lookup_replicate_2. Qed.

Lemma installed_table0 entries k :
  (k < entries 0)%nat -> k <> 0%nat -> k <> 14%nat ->
  table0 (installed entries) !! k = Some fp_OP_0nnn.
Proof.
  intros Hk H0 H14. cbn [table0 installed].
  rewrite !list_lookup_insert_ne by done. by apply lookup_init.
Qed.

Lemma installed_table8 entries k :
  (k < entries 8)%nat -> (7 < k)%nat -> k <> 14%nat ->
  table8 (installed entries) !! k = Some fp_OP_0nnn.
Proof.
  intros Hk H7 H14. cbn [table8 installed].
  rewrite !list_lookup_insert_ne by lia. by apply lookup_init.
Qed.

Lemma installed_tableE entries k :
  (k < entries 14)%nat -> k <> 1%nat -> k <> 14%nat ->
  tableE (installed entries) !! k = Some fp_OP_0nnn.
Proof.
  intros Hk H1 H14. cbn [tableE installed].
  rewrite !list_lookup_insert_ne by done. by apply lookup_init.
Qed.

Lemma installed_tableF entries k :
  (k < entries 15)%nat ->
  ~ In k [0x07; 0x0A; 0x15; 0x18; 0x1E; 0x29; 0x33; 0x55; 0x65]%nat ->
  tableF (installed entries) !! k = Some fp_OP_0nnn.
Proof.
  intros Hk Hnot. cbn [tableF installed]. simpl in Hnot.
  rewrite !list_lookup_insert_ne by (intros E; apply Hnot; tauto).
  by apply lookup_init.
Qed.

Lemma installed_tableF_0A entries :
  (0x65 < entries 15)%nat ->
  tableF (installed entries) !! 0x0A%nat = Some fp_OP_Fx0A.
Proof.
  intros Hk. cbn [tableF installed].
  rewrite !list_lookup_insert_ne by done.
  apply list_lookup_insert_eq.
  rewrite length_insert. unfold initOpcodeTable. rewrite length_replicate. lia.
Qed.

Lemma call_entry_0nnn table k cpu :
  table !! Z.to_nat k = Some fp_OP_0nnn -> call_entry table k cpu = Ok cpu.
Proof. intros H. unfold call_entry. by rewrite H. Qed.

Lemma Cycle_fetch_Ok cpu fetched :
  Cycle_fetch cpu = Ok fetched ->
  0 <= pc cpu /\ pc cpu + 1 < 4096 /\
  fetched = set_pc (set_opcode cpu
              (u16 (Z.lor (Z.shiftl (get (memory cpu) (pc cpu)) 8)
                          (get (memory cpu) (pc cpu + 1)))))
              (u16 (pc cpu + 2)).
Proof.
  unfold Cycle_fetch, load, MEMORY_SIZE. intros H.
  destruct (Z.leb_spec 0 (pc cpu)), (Z.ltb_spec (pc cpu) 4096);
    cbn [andb bind] in H; try discriminate.
  destruct (Z.leb_spec 0 (pc cpu + 1)), (Z.ltb_spec (pc cpu + 1) 4096);
    cbn [andb bind] in H; try discriminate.
  injection H as <-. cbn [opcode pc set_opcode set_pc]. done.
Qed.

Lemma top_nibble_range op :
  0 <= Z.shiftr (Z.land op 0xF000) 12 < 16.
Proof.
  rewrite Z.shiftr_land. change (Z.shiftr 0xF000 12) with (Z.ones 4).
  rewrite Z.land_ones by lia. apply Z.mod_pos_bound. lia.
Qed.

Lemma low_nibble_range op : 0 <= Z.land op 0x000F < 16.
Proof.
  change 0x000F with (Z.ones 4). rewrite Z.land_ones by lia.
  apply Z.mod_pos_bound. lia.
Qed.

Lemma low_byte_range op : 0 <= Z.land op 0x00FF < 256.
Proof.
  change 0x00FF with (Z.ones 8). rewrite Z.land_ones by lia.
  apply Z.mod_pos_bound. lia.
Qed.

(** Dispatch of an opcode whose sub-index has no handler. *)
Lemma Cycle_execute_unassigned entries cpu :
  tables cpu = installed entries ->
  unassigned (opcode cpu) = true ->
  declared entries (opcode cpu) = true ->
  Cycle_execute cpu = Ok cpu.
Proof.
  intros Ht Hun Hdecl.
  unfold Cycle_execute, unassigned, declared in *. rewrite Ht.
  pose proof (top_nibble_range (opcode cpu)) as Htop.
  pose proof (low_nibble_range (opcode cpu)) as Hlow.
  pose proof (low_byte_range (opcode cpu)) as Hbyte.
  set (top := Z.shiftr (Z.land (opcode cpu) 0xF000) 12) in *.
  set (low := Z.land (opcode cpu) 0x000F) in *.
  set (byte := Z.land (opcode cpu) 0x00FF) in *.
  cbn [existsb] in Hun.
  rewrite !orb_true_iff, !andb_true_iff, !negb_true_iff, !orb_false_iff,
    !orb_true_iff, !Z.eqb_eq, !Z.eqb_neq in Hun.
  destruct Hun as [[[[Etop Hsub]|[Etop Hsub]]|[Etop Hsub]]|[Etop Hsub]];
    rewrite Etop in *; cbn [Z.eqb Pos.eqb] in Hdecl;
    apply Nat.ltb_lt in Hdecl.
  - change (dispatcher (installed entries) !! Z.to_nat (u8 0))
      with (Some fp_dispatcher0).
    cbn [call_dispatcher]. unfold dispatcher0. rewrite Ht. fold low.
    apply call_entry_0nnn, installed_table0; [exact Hdecl | lia | lia].
  - change (dispatcher (installed entries) !! Z.to_nat (u8 8))
      with (Some fp_dispatcher8).
    cbn [call_dispatcher]. unfold dispatcher8. rewrite Ht. fold low.
    apply call_entry_0nnn, installed_table8; [exact Hdecl | lia | lia].
  - change (dispatcher (installed entries) !! Z.to_nat (u8 14))
      with (Some fp_dispatcherE).
    cbn [call_dispatcher]. unfold dispatcherE. rewrite Ht. fold low.
    apply call_entry_0nnn, installed_tableE; [exact Hdecl | lia | lia].
  - change (dispatcher (installed entries) !! Z.to_nat (u8 15))
      with (Some fp_dispatcherF).
    cbn [call_dispatcher]. unfold dispatcherF. rewrite Ht. fold byte.
    apply call_entry_0nnn, installed_tableF; [exact Hdecl |].
    simpl. lia.
Qed.

Lemma lookup_past_end (table : list OpcodeFunc) k cpu :
  (length table <= Z.to_nat k)%nat ->
  call_entry table k cpu = Fault (TableFault k).
Proof.
  intros Hk. unfold call_entry. by rewrite lookup_ge_None_2.
Qed.

(** Dispatch of an opcode whose sub-index lies past the end of its
    sub-table. *)
Lemma Cycle_execute_undeclared entries cpu :
  tables cpu = installed entries ->
  unassigned (opcode cpu) = true ->
  declared entries (opcode cpu) = false ->
  Cycle_execute cpu = Fault (TableFault (sub_index (opcode cpu))).
Proof.
  intros Ht Hun Hdecl.
  unfold Cycle_execute, unassigned, declared, sub_index in *. rewrite Ht.
  cbv zeta in *.
  set (top := Z.shiftr (Z.land (opcode cpu) 0xF000) 12) in *.
  set (low := Z.land (opcode cpu) 0x000F) in *.
  set (byte := Z.land (opcode cpu) 0x00FF) in *.
  cbn [existsb] in Hun.
  rewrite !orb_true_iff, !andb_true_iff, !negb_true_iff, !orb_false_iff,
    !orb_true_iff, !Z.eqb_eq, !Z.eqb_neq in Hun.
  destruct Hun as [[[[Etop Hsub]|[Etop Hsub]]|[Etop Hsub]]|[Etop Hsub]];
    rewrite Etop in *; cbn [Z.eqb Pos.eqb orb] in Hdecl |- *;
    apply Nat.ltb_ge in Hdecl.
  - change (dispatcher (installed entries) !! Z.to_nat (u8 0))
      with (Some fp_dispatcher0).
    cbn [call_dispatcher]. unfold dispatcher0. rewrite Ht. fold low.
    apply lookup_past_end. cbn [table0 installed].
    rewrite !length_insert. unfold initOpcodeTable.
    by rewrite length_replicate.
  - change (dispatcher (installed entries) !! Z.to_nat (u8 8))
      with (Some fp_dispatcher8).
    cbn [call_dispatcher]. unfold dispatcher8. rewrite Ht. fold low.
    apply lookup_past_end. cbn [table8 installed].
    rewrite !length_insert. unfold initOpcodeTable.
    by rewrite length_replicate.
  - change (dispatcher (installed entries) !! Z.to_nat (u8 14))
      with (Some fp_dispatcherE).
    cbn [call_dispatcher]. unfold dispatcherE. rewrite Ht. fold low.
    apply lookup_past_end. cbn [tableE installed].
    rewrite !length_insert. unfold initOpcodeTable.
    by rewrite length_replicate.
  - change (dispatcher (installed entries) !! Z.to_nat (u8 15))
      with (Some fp_dispatcherF).
    cbn [call_dispatcher]. unfold dispatcherF. rewrite Ht. fold byte.
    apply lookup_past_end. cbn [tableF installed].
    rewrite !length_insert. unfold initOpcodeTable.
    by rewrite length_replicate.
Qed.

Lemma full_tables_declared entries op :
  full_tables entries = true -> unassigned op = true ->
  declared entries op = true.
Proof.
  unfold full_tables, unassigned, declared. cbv zeta.
  rewrite !andb_true_iff, !Nat.leb_le. intros (((H0 & H8) & HE) & HF) Hun.
  pose proof (low_nibble_range op) as Hlow.
  pose proof (low_byte_range op) as Hbyte.
  set (top := Z.shiftr (Z.land op 0xF000) 12) in *.
  rewrite !orb_true_iff, !andb_true_iff, !Z.eqb_eq in Hun.
  destruct Hun as [[[[Etop _]|[Etop _]]|[Etop _]]|[Etop _]];
    rewrite Etop; cbn [Z.eqb Pos.eqb]; apply Nat.ltb_lt.
  - change (Z.to_nat 0) with 0%nat. lia.
  - change (Z.to_nat 8) with 8%nat. lia.
  - change (Z.to_nat 14) with 14%nat. lia.
  - lia.
Qed.

(** C9 (as amended) -- after [Chip8_Create], a fetched opcode whose
    sub-index has no assigned handler (top nibble 0x0 with low nibble other
    than 0x0 and 0xE; top nibble 0x8 with low nibble 0x8 .. 0xD or 0xF; top
    nibble 0xE with low nibble other than 0x1 and 0xE; top nibble 0xF with a
    low byte other than the nine assigned 0x07, 0x0A, 0x15, 0x18, 0x1E, 0x29,
    0x33, 0x55, 0x65) is dispatched through the entry of its sub-table at that
    sub-index.  When table0, table8 and tableE are declared with 16 entries
    and tableF with 256, every such opcode finds [OP_0nnn] there: the state
    after dispatch is the state after fetch, no fault is raised, and the
    cycle ends with the timer step applied to that state.  For any
    declaration the same holds exactly when the sub-index lies inside the
    sub-table; past its end the dispatcher indexes outside the table. *)
Theorem unassigned_opcode_is_noop (entries : nat -> nat) (c0 c1 cpu fetched : CPU) :
  Chip8_Create entries c0 = Ok c1 ->
  tables cpu = tables c1 ->
  Cycle_fetch cpu = Ok fetched ->
  unassigned (opcode fetched) = true ->
  (full_tables entries = true ->
     Cycle_execute fetched = Ok fetched /\
     Chip8_Cycle cpu = Ok (Cycle_timers fetched)) /\
  (declared entries (opcode fetched) = true ->
     Cycle_execute fetched = Ok fetched /\
     Chip8_Cycle cpu = Ok (Cycle_timers fetched)) /\
  (declared entries (opcode fetched) = false ->
     Cycle_execute fetched
     = Fault (TableFault (sub_index (opcode fetched))) /\
     Chip8_Cycle cpu = Fault (TableFault (sub_index (opcode fetched)))).
Proof.
  intros Hcreate Ht Hfetch Hun.
  apply Chip8_Create_tables in Hcreate as (Hinst & _).
  assert (Ht' : tables fetched = installed entries).
  { apply Cycle_fetch_Ok in Hfetch as (_ & _ & ->).
    cbn [tables set_pc set_opcode]. congruence. }
  assert (Hnoop : declared entries (opcode fetched) = true ->
            Cycle_execute fetched = Ok fetched /\
            Chip8_Cycle cpu = Ok (Cycle_timers fetched)).
  { intros Hdecl.
    assert (Hexec : Cycle_execute fetched = Ok fetched)
      by (by apply (Cycle_execute_unassigned entries)).
    split; [exact Hexec |].
    unfold Chip8_Cycle. rewrite Hfetch. cbn [bind]. by rewrite Hexec. }
  split; [| split; [exact Hnoop |]].
  - intros Hfull. by apply Hnoop, full_tables_declared.
  - intros Hdecl.
    assert (Hexec : Cycle_execute fetched
                    = Fault (TableFault (sub_index (opcode fetched))))
      by (by apply (Cycle_execute_undeclared entries)).
    split; [exact Hexec |].
    unfold Chip8_Cycle. rewrite Hfetch. cbn [bind]. by rewrite Hexec.
Qed.

Lemma unassigned_opcode_is_noop_witness :
  opcode (state_of (Cycle_fetch last_entry_scene)) = 0x000F /\
  full_tables every_subindex = true /\
  Cycle_execute (state_of (Cycle_fetch last_entry_scene))
  = Ok (state_of (Cycle_fetch last_entry_scene)) /\
  Chip8_Cycle last_entry_scene
  = Ok (Cycle_timers (state_of (Cycle_fetch last_entry_scene))).
Proof.
  assert (Ht : tables last_entry_scene = tables power_on)
    by (vm_compute; reflexivity).
  assert (Hfetch : Cycle_fetch last_entry_scene
                   = Ok (state_of (Cycle_fetch last_entry_scene)))
    by (vm_compute; reflexivity).
  assert (Hun : unassigned (opcode (state_of (Cycle_fetch last_entry_scene)))
                = true) by (vm_compute; reflexivity).
  assert (Hfull : full_tables every_subindex = true)
    by (vm_compute; reflexivity).
  split; [vm_compute; reflexivity |]. split; [exact Hfull |].
  destruct (unassigned_opcode_is_noop every_subindex (cleared initial_seed)
              power_on last_entry_scene _ power_on_created Ht Hfetch Hun)
    as (Hnoop & _).
  exact (Hnoop Hfull).
Defined.

(** [assignOpcodeTableFunctions] assigns nine entries of [tableF], not
    eleven; and with table0 declared with 15 entries, which [Chip8_Create]
    fills without leaving it, the unassigned opcode 0x000F is dispatched
    through entry 15, past the table's end. *)
Lemma assigned_low_bytes_counterexample :
  length (tableF (tables power_on)) = 256%nat /\
  assigned_entries (tableF (tables power_on)) = 9%nat /\
  (assigned_entries (tableF (tables power_on)) =? 11)%nat = false /\
  Chip8_Create least_entries (cleared initial_seed) = Ok short_tables /\
  tables short_tables_scene = tables short_tables /\
  opcode (state_of (Cycle_fetch short_tables_scene)) = 0x000F /\
  unassigned (opcode (state_of (Cycle_fetch short_tables_scene))) = true /\
  length (table0 (tables short_tables_scene)) = 15%nat /\
  Cycle_execute (state_of (Cycle_fetch short_tables_scene))
  = Fault (TableFault 15) /\
  Chip8_Cycle short_tables_scene = Fault (TableFault 15).
Proof. vm_compute. repeat split. Qed.

(** * Waiting for a key *)

(** One test of the key chain of [OP_Fx0A]. *)
Ltac key_test Hlow :=
  match goal with
  | |- (if negb (get (key ?c) ?j =? 0) then _ else _) = _ =>
      let E := fresh "E" in
      destruct (Z.eqb_spec (get (key c) j) 0) as [E|E]; cbn [negb];
      [| try reflexivity; exfalso; apply E; apply Hlow; lia]
  end.

Lemma OP_Fx0A_pressed cpu k :
  0 <= k < 16 ->
  get (key cpu) k <> 0 ->
  (forall j, 0 <= j < k -> get (key cpu) j = 0) ->
  OP_Fx0A cpu = set_v cpu (put (v cpu) (op_x cpu) k).
Proof.
  intros Hk Hpressed Hlow. unfold OP_Fx0A. fold (op_x cpu).
  assert (k = 0 \/ k = 1 \/ k = 2 \/ k = 3 \/ k = 4 \/ k = 5 \/ k = 6
          \/ k = 7 \/ k = 8 \/ k = 9 \/ k = 10 \/ k = 11 \/ k = 12
          \/ k = 13 \/ k = 14 \/ k = 15) as Hcases by lia.
  destruct Hcases as
    [->|[->|[->|[->|[->|[->|[->|[->|[->|[->|[->|[->|[->|[->|[->| ->]]]]]]]]]]]]]]];
    repeat key_test Hlow; done.
Qed.

Lemma OP_Fx0A_none cpu :
  (forall k, 0 <= k < 16 -> get (key cpu) k = 0) ->
  OP_Fx0A cpu = set_pc cpu (u16 (pc cpu - 2)).
Proof.
  intros Hnone. unfold OP_Fx0A.
  rewrite !Hnone by lia. reflexivity.
Qed.

Lemma Cycle_timers_keeps cpu :
  pc (Cycle_timers cpu) = pc cpu /\ v (Cycle_timers cpu) = v cpu /\
  memory (Cycle_timers cpu) = memory cpu /\
  opcode (Cycle_timers cpu) = opcode cpu.
Proof.
  unfold Cycle_timers.
  destruct (0 <? delaytimer cpu); cbn [soundtimer set_delaytimer];
    destruct (0 <? soundtimer cpu); done.
Qed.

(** The opcode fetched from the two bytes of a wait-key instruction. *)
Lemma fetch_Fx0A x :
  0 <= x < 16 ->
  let op := u16 (Z.lor (Z.shiftl (0xF0 + x) 8) 0x0A) in
  Z.shiftr (Z.land op 0xF000) 12 = 0xF /\
  Z.land op 0x00FF = 0x0A /\
  Z.shiftr (Z.land op 0x0F00) 8 = x.
Proof.
  intros Hx.
  assert (x = 0 \/ x = 1 \/ x = 2 \/ x = 3 \/ x = 4 \/ x = 5 \/ x = 6
          \/ x = 7 \/ x = 8 \/ x = 9 \/ x = 10 \/ x = 11 \/ x = 12
          \/ x = 13 \/ x = 14 \/ x = 15) as Hcases by lia.
  destruct Hcases as
    [->|[->|[->|[->|[->|[->|[->|[->|[->|[->|[->|[->|[->|[->|[->| ->]]]]]]]]]]]]]]];
    vm_compute; done.
Qed.

(** C8 -- a cycle that fetches wait-key (bytes 0xFx, 0x0A at pc, on a
    machine whose tables [Chip8_Create] set up): when a key flag is set,
    V[x] receives the lowest-numbered pressed key and pc ends 2 above its
    value before the cycle; when no key flag is set, registers and memory
    are untouched and pc ends where it was before the cycle, so the fetch of
    the next cycle latches the same opcode again. *)
Theorem wait_key_cycle (entries : nat -> nat) (c0 c1 cpu : CPU) (x : Z) :
  Chip8_Create entries c0 = Ok c1 ->
  tables cpu = tables c1 ->
  wf_CPU cpu = true ->
  pc cpu + 1 < 4096 ->
  0 <= x < 16 ->
  get (memory cpu) (pc cpu) = 0xF0 + x ->
  get (memory cpu) (pc cpu + 1) = 0x0A ->
  exists cpu',
    Chip8_Cycle cpu = Ok cpu' /\
    (forall k, 0 <= k < 16 -> get (key cpu) k <> 0 ->
       (forall j, 0 <= j < k -> get (key cpu) j = 0) ->
       get (v cpu') x = k /\ pc cpu' = pc cpu + 2) /\
    ((forall k, 0 <= k < 16 -> get (key cpu) k = 0) ->
       pc cpu' = pc cpu /\ v cpu' = v cpu /\ memory cpu' = memory cpu /\
       exists again,
         Cycle_fetch cpu' = Ok again /\ opcode again = opcode cpu').
Proof.
  intros Hcreate Ht Hwf Hpc Hx Hhi Hlo. apply wf_CPU_WF in Hwf.
  apply Chip8_Create_tables in Hcreate as (Hinst & _ & _ & _ & HF).
  pose proof (wf_pc _ Hwf) as Hpc0.
  pose proof (wf_v_len _ Hwf) as Hv.
  destruct (fetch_Fx0A x Hx) as (Etop & Ebyte & Ex).
  set (op := u16 (Z.lor (Z.shiftl (0xF0 + x) 8) 0x0A)) in *.
  set (fetched := set_pc (set_opcode cpu op) (u16 (pc cpu + 2))).
  assert (Hfetch : Cycle_fetch cpu = Ok fetched).
  { unfold Cycle_fetch.
    rewrite !load_in_range by (unfold MEMORY_SIZE; lia). cbn [bind].
    by rewrite Hhi, Hlo. }
  assert (Hexec : Cycle_execute fetched = Ok (OP_Fx0A fetched)).
  { unfold Cycle_execute. cbn [opcode tables fetched set_pc set_opcode].
    rewrite Etop, Ht, Hinst.
    change (dispatcher (installed entries) !! Z.to_nat (u8 15))
      with (Some fp_dispatcherF).
    cbn [call_dispatcher]. unfold dispatcherF, call_entry.
    cbn [opcode tables fetched set_pc set_opcode].
    rewrite Ebyte, Ht, Hinst.
    change (Z.to_nat 10) with 10%nat.
    by rewrite installed_tableF_0A. }
  exists (Cycle_timers (OP_Fx0A fetched)). split.
  { unfold Chip8_Cycle. rewrite Hfetch. cbn [bind]. by rewrite Hexec. }
  destruct (Cycle_timers_keeps (OP_Fx0A fetched)) as (Kpc & Kv & Km & Ko).
  assert (Hopx : op_x fetched = x) by exact Ex.
  split.
  - intros k Hk Hpressed Hlow. rewrite Kpc, Kv.
    rewrite (OP_Fx0A_pressed fetched k) by done. rewrite Hopx.
    cbn [v pc fetched set_v set_pc set_opcode].
    split; [apply get_put_eq; lia | apply u16_small; lia].
  - intros Hnone.
    assert (Epc : pc (Cycle_timers (OP_Fx0A fetched)) = pc cpu).
    { rewrite Kpc, OP_Fx0A_none by done.
      cbn [pc fetched set_pc set_opcode].
      rewrite (u16_small (pc cpu + 2)) by lia.
      replace (pc cpu + 2 - 2) with (pc cpu) by lia. apply u16_small. lia. }
    assert (Em : memory (Cycle_timers (OP_Fx0A fetched)) = memory cpu).
    { rewrite Km, OP_Fx0A_none by done. reflexivity. }
    assert (Eo : opcode (Cycle_timers (OP_Fx0A fetched)) = op).
    { rewrite Ko, OP_Fx0A_none by done. reflexivity. }
    split; [exact Epc |]. split.
    { rewrite Kv, OP_Fx0A_none by done. reflexivity. }
    split; [exact Em |].
    unfold Cycle_fetch. rewrite Epc, Em.
    rewrite !load_in_range by (unfold MEMORY_SIZE; lia). cbn [bind].
    eexists. split; [reflexivity |].
    cbn [opcode set_pc set_opcode]. by rewrite Eo, Hhi, Hlo.
Qed.

Lemma wait_key_cycle_witness :
  wf_CPU wait_key_scene = true /\
  pc wait_key_scene = 0x200 /\
  exists cpu',
    Chip8_Cycle wait_key_scene = Ok cpu' /\
    get (v cpu') 3 = 5 /\ pc cpu' = pc wait_key_scene + 2.
Proof.
  assert (Hwf : wf_CPU wait_key_scene = true) by (vm_compute; reflexivity).
  assert (Ht : tables wait_key_scene = tables power_on)
    by (vm_compute; reflexivity).
  assert (Hpc : pc wait_key_scene + 1 < 4096) by (vm_compute; reflexivity).
  assert (Hhi : get (memory wait_key_scene) (pc wait_key_scene) = 0xF0 + 3)
    by (vm_compute; reflexivity).
  assert (Hlo : get (memory wait_key_scene) (pc wait_key_scene + 1) = 0x0A)
    by (vm_compute; reflexivity).
  split; [exact Hwf |]. split; [vm_compute; reflexivity |].
  destruct (wait_key_cycle every_subindex (cleared initial_seed) power_on
              wait_key_scene 3 power_on_created Ht Hwf Hpc ltac:(lia) Hhi Hlo)
    as (cpu' & Hrun & Hpressed & _).
  exists cpu'. split; [exact Hrun |].
  apply (Hpressed 5); [lia | vm_compute; discriminate |].
  intros j Hj.
  assert (j = 0 \/ j = 1 \/ j = 2 \/ j = 3 \/ j = 4) as Hcases by lia.
  destruct Hcases as [->|[->|[->|[->| ->]]]]; vm_compute; reflexivity.
Defined.

(** * Values stay within their C types *)

Lemma bits_above a n m :
  0 <= a < 2 ^ n -> n <= m -> Z.testbit a m = false.
Proof.
  intros Ha Hm.
  assert (0 <= n).
  { destruct (Z.lt_ge_cases n 0) as [Hneg|]; [| done].
    rewrite (Z.pow_neg_r 2 n Hneg) in Ha. lia. }
  rewrite <- (Z.mod_small a (2 ^ n)) by done.
  apply Z.mod_pow2_bits_high. lia.
Qed.

Lemma below_pow2 a n :
  0 <= n -> 0 <= a -> (forall m, n <= m -> Z.testbit a m = false) ->
  a < 2 ^ n.
Proof.
  intros Hn Ha Hbits.
  assert (E : a = a mod 2 ^ n).
  { apply Z.bits_inj'. intros m Hm.
    destruct (Z.lt_ge_cases m n).
    - by rewrite Z.mod_pow2_bits_low.
    - rewrite Z.mod_pow2_bits_high by lia. by apply Hbits. }
  rewrite E. apply Z.mod_pos_bound. by apply Z.pow_pos_nonneg.
Qed.

Lemma lor_range a b n :
  0 <= n -> 0 <= a < 2 ^ n -> 0 <= b < 2 ^ n -> 0 <= Z.lor a b < 2 ^ n.
Proof.
  intros Hn Ha Hb. split; [apply Z.lor_nonneg; lia |].
  apply below_pow2; [done | apply Z.lor_nonneg; lia |].
  intros m Hm. by rewrite Z.lor_spec, !(bits_above _ n m).
Qed.

Lemma land_range a b n :
  0 <= n -> 0 <= a < 2 ^ n -> 0 <= b < 2 ^ n -> 0 <= Z.land a b < 2 ^ n.
Proof.
  intros Hn Ha Hb. split; [apply Z.land_nonneg; lia |].
  apply below_pow2; [done | apply Z.land_nonneg; lia |].
  intros m Hm. by rewrite Z.land_spec, !(bits_above _ n m).
Qed.

Lemma lxor_range a b n :
  0 <= n -> 0 <= a < 2 ^ n -> 0 <= b < 2 ^ n -> 0 <= Z.lxor a b < 2 ^ n.
Proof.
  intros Hn Ha Hb. split; [apply Z.lxor_nonneg; lia |].
  apply below_pow2; [done | apply Z.lxor_nonneg; lia |].
  intros m Hm. by rewrite Z.lxor_spec, !(bits_above _ n m).
Qed.

Lemma u16_range z : 0 <= u16 z < 65536.
Proof. unfold u16. apply Z.mod_pos_bound. lia. Qed.

Lemma u32_range z : 0 <= u32 z < 4294967296.
Proof. unfold u32. apply Z.mod_pos_bound. lia. Qed.

Lemma get_put_range a j x k lo hi :
  (forall k, lo <= get a k < hi) -> lo <= x < hi ->
  lo <= get (put a j x) k < hi.
Proof.
  intros Ha Hx. unfold get, put.
  destruct (decide (Z.to_nat j = Z.to_nat k)) as [E|E].
  - destruct (decide (Z.to_nat j < length a)%nat) as [Hin|Hout].
    + rewrite E in *. by rewrite list_lookup_insert_eq.
    + rewrite list_insert_ge by lia. apply Ha.
  - rewrite list_lookup_insert_ne by done. apply Ha.
Qed.

(** ** Field updates of a well-formed state *)

Lemma WF_set_pc cpu x : WF cpu -> 0 <= x < 65536 -> WF (set_pc cpu x).
Proof. intros [] Hx. by constructor. Qed.

Lemma WF_set_i cpu x : WF cpu -> 0 <= x < 65536 -> WF (set_i cpu x).
Proof. intros [] Hx. by constructor. Qed.

Lemma WF_set_sp cpu x : WF cpu -> 0 <= x < 65536 -> WF (set_sp cpu x).
Proof. intros [] Hx. by constructor. Qed.

Lemma WF_set_opcode cpu x : WF cpu -> 0 <= x < 65536 -> WF (set_opcode cpu x).
Proof. intros [] Hx. by constructor. Qed.

Lemma WF_set_delaytimer cpu x :
  WF cpu -> 0 <= x < 256 -> WF (set_delaytimer cpu x).
Proof. intros [] Hx. by constructor. Qed.

Lemma WF_set_soundtimer cpu x :
  WF cpu -> 0 <= x < 256 -> WF (set_soundtimer cpu x).
Proof. intros [] Hx. by constructor. Qed.

Lemma WF_set_seed cpu x : WF cpu -> 0 <= x < 4294967296 -> WF (set_seed cpu x).
Proof. intros [] Hx. by constructor. Qed.

Lemma WF_put_v cpu k x :
  WF cpu -> 0 <= x < 256 -> WF (set_v cpu (put (v cpu) k x)).
Proof.
  intros [] Hx. constructor; cbn [memory v i pc stack sp opcode delaytimer
    soundtimer key gfx seed set_v]; try done.
  - by rewrite length_put.
  - intros j. by apply get_put_range.
Qed.

Lemma WF_put_memory cpu k x :
  WF cpu -> 0 <= x < 256 -> WF (set_memory cpu (put (memory cpu) k x)).
Proof.
  intros [] Hx. constructor; cbn [memory v i pc stack sp opcode delaytimer
    soundtimer key gfx seed set_memory]; try done.
  - by rewrite length_put.
  - intros j. by apply get_put_range.
Qed.

Lemma WF_put_stack cpu k x :
  WF cpu -> 0 <= x < 65536 -> WF (set_stack cpu (put (stack cpu) k x)).
Proof.
  intros [] Hx. constructor; cbn [memory v i pc stack sp opcode delaytimer
    soundtimer key gfx seed set_stack]; try done.
  - by rewrite length_put.
  - intros j. by apply get_put_range.
Qed.

Lemma WF_put_gfx cpu k x :
  WF cpu -> 0 <= x < 4294967296 -> WF (set_gfx cpu (put (gfx cpu) k x)).
Proof.
  intros [] Hx. constructor; cbn [memory v i pc stack sp opcode delaytimer
    soundtimer key gfx seed set_gfx]; try done.
  - by rewrite length_put.
  - intros j. by apply get_put_range.
Qed.

(** * Footprints of the handlers *)

Lemma only_writes_refl ws cpu : only_writes ws cpu cpu.
Proof. repeat split. intros fld _. by destruct fld. Qed.

Lemma only_writes_trans ws a b c :
  only_writes ws a b -> only_writes ws b c -> only_writes ws a c.
Proof.
  intros (Ho & Hk & Ht & Hf) (Ho' & Hk' & Ht' & Hf').
  split; [congruence |]. split; [congruence |]. split; [congruence |].
  intros fld Hfld. specialize (Hf fld Hfld). specialize (Hf' fld Hfld).
  destruct fld; simpl in *; congruence.
Qed.

Lemma only_writes_loop ws body n :
  (forall k c c', body k c = Ok c' -> only_writes ws c c') ->
  forall k cpu cpu', for_loop n k body cpu = Ok cpu' -> only_writes ws cpu cpu'.
Proof.
  intros Hbody k cpu cpu'.
  apply (for_loop_invariant (only_writes ws cpu));
    [| apply only_writes_refl].
  intros j c c' Hc Hstep. eapply only_writes_trans; [exact Hc |].
  by eapply Hbody.
Qed.

Lemma load_Ok oob size a k x :
  load oob size a k = Ok x -> 0 <= k < size /\ x = get a k.
Proof.
  unfold load.
  destruct (Z.leb_spec 0 k) as [Hlo|Hlo], (Z.ltb_spec k size) as [Hhi|Hhi];
    cbn [andb]; intros E; inversion E. done.
Qed.

Lemma store_Ok oob size a k x l :
  store oob size a k x = Ok l -> 0 <= k < size /\ l = put a k x.
Proof.
  unfold store.
  destruct (Z.leb_spec 0 k) as [Hlo|Hlo], (Z.ltb_spec k size) as [Hhi|Hhi];
    cbn [andb]; intros E; inversion E. done.
Qed.

(** A field outside the footprint is not assigned; a field inside it is
    not promised. *)
Ltac footprint :=
  split; [| split; [| split]];
  [ try reflexivity | try reflexivity | try reflexivity
  | let fld := fresh "fld" in
    let Hfld := fresh "Hfld" in
    intros fld Hfld; destruct fld;
    first [ reflexivity | exfalso; apply Hfld; simpl; tauto ] ].

(** Handlers that cannot fault. *)
Ltac pure_footprint :=
  cbv zeta;
  repeat match goal with
  | |- only_writes _ _ (if ?b then _ else _) => destruct b
  end;
  footprint.

Lemma OP_Dxyn_footprint cpu cpu' :
  OP_Dxyn cpu = Ok cpu' -> only_writes [F_v; F_gfx] cpu cpu'.
Proof.
  rewrite OP_Dxyn_loops. intros Hrun.
  apply (only_writes_trans _ _ (set_v cpu (put (v cpu) 0xF 0)));
    [footprint |].
  revert Hrun. apply only_writes_loop. intros row c c' Hrow.
  unfold Dxyn_row in Hrow. apply bind_Ok in Hrow as (sb & _ & Hcols).
  revert Hcols. apply only_writes_loop. intros col s s' Hpix.
  unfold Dxyn_pixel in Hpix. destruct (negb _); [| by inversion Hpix;
    apply only_writes_refl].
  apply bind_Ok in Hpix as (px & _ & Hpix).
  apply bind_Ok in Hpix as (cells & _ & Hpix). inversion Hpix; subst.
  destruct (px =? 0xFFFFFFFF); footprint.
Qed.

Lemma OP_Fx33_footprint cpu cpu' :
  OP_Fx33 cpu = Ok cpu' -> only_writes [F_memory] cpu cpu'.
Proof.
  unfold OP_Fx33. cbv zeta. intros H.
  apply bind_Ok in H as (m1 & _ & H). apply bind_Ok in H as (m2 & _ & H).
  apply bind_Ok in H as (m3 & _ & H). inversion H; subst. footprint.
Qed.

Lemma OP_Fx55_footprint cpu cpu' :
  OP_Fx55 cpu = Ok cpu' -> only_writes [F_memory] cpu cpu'.
Proof.
  unfold OP_Fx55. apply only_writes_loop. intros k c c' H.
  apply bind_Ok in H as (m & _ & H). inversion H; subst. footprint.
Qed.

Lemma OP_Fx65_footprint cpu cpu' :
  OP_Fx65 cpu = Ok cpu' -> only_writes [F_v] cpu cpu'.
Proof.
  unfold OP_Fx65. apply only_writes_loop. intros k c c' H.
  apply bind_Ok in H as (m & _ & H). inversion H; subst. footprint.
Qed.

Lemma call_footprint f cpu cpu' :
  call f cpu = Ok cpu' -> only_writes (writes f) cpu cpu'.
Proof.
  destruct f; cbn [call writes]; intros H;
    try (injection H as <-;
         unfold OP_00E0, OP_0nnn, OP_1nnn, OP_3xkk, OP_4xkk, OP_5xy0,
           OP_6xkk, OP_7xkk, OP_8xy0, OP_8xy1, OP_8xy2, OP_8xy3, OP_8xy4,
           OP_8xy5, OP_8xy6, OP_8xy7, OP_8xyE, OP_9xy0, OP_Annn, OP_Bnnn,
           OP_Cxkk, OP_Fx07, OP_Fx0A, OP_Fx15, OP_Fx18, OP_Fx1E, OP_Fx29;
         pure_footprint; fail).
  - (* RET *)
    unfold OP_00EE in H. cbv zeta in H.
    apply bind_Ok in H as (ret & _ & H). inversion H; subst. footprint.
  - (* CALL *)
    unfold OP_2nnn in H. cbv zeta in H.
    apply bind_Ok in H as (stk & _ & H). inversion H; subst. footprint.
  - by apply OP_Dxyn_footprint.
  - (* SKP *)
    unfold OP_Ex9E in H. cbv zeta in H.
    apply bind_Ok in H as (pressed & _ & H). inversion H; subst.
    pure_footprint.
  - (* SKNP *)
    unfold OP_ExA1 in H. cbv zeta in H.
    apply bind_Ok in H as (pressed & _ & H). inversion H; subst.
    pure_footprint.
  - by apply OP_Fx33_footprint.
  - by apply OP_Fx55_footprint.
  - by apply OP_Fx65_footprint.
Qed.

(** * Well-formedness is kept *)

Lemma land_u16 a b : 0 <= a < 65536 -> 0 <= b < 65536 ->
  0 <= Z.land a b < 65536.
Proof. apply (land_range a b 16). lia. Qed.

Lemma lor_u8 a b : 0 <= a < 256 -> 0 <= b < 256 -> 0 <= Z.lor a b < 256.
Proof. apply (lor_range a b 8). lia. Qed.

Lemma land_u8 a b : 0 <= a < 256 -> 0 <= b < 256 -> 0 <= Z.land a b < 256.
Proof. apply (land_range a b 8). lia. Qed.

Lemma lxor_u8 a b : 0 <= a < 256 -> 0 <= b < 256 -> 0 <= Z.lxor a b < 256.
Proof. apply (lxor_range a b 8). lia. Qed.

Lemma lxor_u32 a b : 0 <= a < 4294967296 -> 0 <= b < 4294967296 ->
  0 <= Z.lxor a b < 4294967296.
Proof. apply (lxor_range a b 32). lia. Qed.

Lemma shiftr_1_u8 a : 0 <= a < 256 -> 0 <= Z.shiftr a 1 < 256.
Proof.
  intros Ha. rewrite Z.shiftr_div_pow2 by lia. change (2 ^ 1) with 2.
  split; [apply Z.div_pos; lia | apply Z.div_lt_upper_bound; lia].
Qed.

Lemma address_range op : 0 <= Z.land op 0x0FFF < 65536.
Proof.
  change 0x0FFF with (Z.ones 12). rewrite Z.land_ones by lia.
  pose proof (Z.mod_pos_bound op (2 ^ 12) ltac:(lia)). lia.
Qed.

Lemma get_clearMemory a k n :
  (forall j, 0 <= get a j < 4294967296) ->
  0 <= get (replicate n 0 ++ drop n a) k < 4294967296.
Proof.
  intros Ha. unfold get.
  destruct ((replicate n 0 ++ drop n a) !! Z.to_nat k) as [z|] eqn:E;
    [| simpl; lia].
  simpl. apply lookup_app_Some in E as [E|[_ E]].
  - apply lookup_replicate in E as [-> _]. lia.
  - rewrite lookup_drop in E. specialize (Ha (Z.of_nat (n + (Z.to_nat k -
      length (replicate n 0))))). unfold get in Ha.
    rewrite Nat2Z.id, E in Ha. exact Ha.
Qed.

(** The range side conditions of the field updates. *)
Ltac in_range Hwf :=
  first
  [ apply u8_range | apply u16_range | apply u32_range
  | apply low_byte_range | apply address_range
  | apply (wf_v _ Hwf) | apply (wf_memory _ Hwf) | apply (wf_stack _ Hwf)
  | apply (wf_pc _ Hwf) | apply (wf_delaytimer _ Hwf)
  | apply lor_u8; apply (wf_v _ Hwf)
  | apply land_u8; apply (wf_v _ Hwf)
  | apply lxor_u8; apply (wf_v _ Hwf)
  | apply shiftr_1_u8; apply (wf_v _ Hwf)
  | match goal with
    | |- _ <= (if ?b then _ else _) < _ => destruct b; lia
    end
  | lia ].

Ltac keep_wf Hwf :=
  repeat first
  [ exact Hwf
  | match goal with
    | |- WF (if ?b then _ else _) => destruct b
    end
  | apply WF_set_pc | apply WF_set_i | apply WF_set_sp
  | apply WF_set_delaytimer | apply WF_set_soundtimer | apply WF_set_seed
  | apply WF_put_v | apply WF_put_memory | apply WF_put_stack
  | apply WF_put_gfx ].

Lemma WF_loop body n :
  (forall k c c', WF c -> body k c = Ok c' -> WF c') ->
  forall k cpu cpu', WF cpu -> for_loop n k body cpu = Ok cpu' -> WF cpu'.
Proof. intros Hbody. by apply (for_loop_invariant WF). Qed.

Lemma OP_00E0_WF cpu : WF cpu -> WF (OP_00E0 cpu).
Proof.
  intros Hwf. unfold OP_00E0, clearMemory.
  pose proof (wf_gfx_len _ Hwf) as Hlen. pose proof (wf_gfx _ Hwf) as Hcells.
  destruct Hwf. constructor; cbn [memory v i pc stack sp opcode delaytimer
    soundtimer key gfx seed set_gfx]; try done.
  - rewrite length_app, length_replicate, length_drop, Hlen.
    change (Z.to_nat (VIDEO_SIZE / 4)) with 512%nat. lia.
  - intros k. by apply get_clearMemory.
Qed.

Lemma OP_Dxyn_WF cpu cpu' : WF cpu -> OP_Dxyn cpu = Ok cpu' -> WF cpu'.
Proof.
  intros Hwf. rewrite OP_Dxyn_loops. apply WF_loop.
  - intros row c c' Hc Hrow. unfold Dxyn_row in Hrow.
    apply bind_Ok in Hrow as (sb & _ & Hcols). revert Hcols.
    apply WF_loop; [| done].
    intros col s s' Hs Hpix. unfold Dxyn_pixel in Hpix.
    destruct (negb _); [| by inversion Hpix; subst].
    apply bind_Ok in Hpix as (px & Hpx & Hpix).
    apply bind_Ok in Hpix as (cells & Hcells & Hpix).
    apply load_Ok in Hpx as [_ ->]. apply store_Ok in Hcells as [_ ->].
    inversion Hpix; subst.
    assert (Hpx : 0 <= Z.lxor (get (gfx s) (u16 ((get (v cpu) (op_y cpu)
                    mod VIDEO_HEIGHT + row) * VIDEO_WIDTH
                    + (get (v cpu) (op_x cpu) mod VIDEO_WIDTH + col))))
                    0xFFFFFFFF < 4294967296).
    { apply lxor_u32; [apply (wf_gfx _ Hs) | lia]. }
    destruct (_ =? 0xFFFFFFFF).
    + apply (WF_put_gfx (set_v s (put (v s) 0xF 1))); [| exact Hpx].
      apply WF_put_v; [done | lia].
    + by apply WF_put_gfx.
  - apply WF_put_v; [done | lia].
Qed.

Lemma OP_Fx0A_WF cpu : WF cpu -> WF (OP_Fx0A cpu).
Proof.
  intros Hwf. unfold OP_Fx0A. cbv zeta.
  repeat match goal with
  | |- WF (if ?b then _ else _) => destruct b
  end;
  first [ apply WF_put_v; [exact Hwf | lia]
        | apply WF_set_pc; [exact Hwf | apply u16_range] ].
Qed.

Lemma call_WF f cpu cpu' : WF cpu -> call f cpu = Ok cpu' -> WF cpu'.
Proof.
  intros Hwf. destruct f; cbn [call]; intros H;
    try (injection H as <-;
         first [ by apply OP_00E0_WF | by apply OP_Fx0A_WF | idtac ];
         unfold OP_0nnn, OP_1nnn, OP_3xkk, OP_4xkk, OP_5xy0,
           OP_6xkk, OP_7xkk, OP_8xy0, OP_8xy1, OP_8xy2, OP_8xy3,
           OP_9xy0, OP_Annn, OP_Bnnn, OP_Fx07, OP_Fx15, OP_Fx18,
           OP_Fx1E, OP_Fx29;
         cbv zeta; keep_wf Hwf; in_range Hwf; fail).
  - (* RET *)
    unfold OP_00EE in H. cbv zeta in H.
    apply bind_Ok in H as (ret & Hret & H). apply load_Ok in Hret as [_ ->].
    inversion H; subst.
    apply WF_set_pc; [apply WF_set_sp; [done | apply u16_range] |].
    apply (wf_stack _ Hwf).
  - (* CALL *)
    unfold OP_2nnn in H. cbv zeta in H.
    apply bind_Ok in H as (stk & Hstk & H). apply store_Ok in Hstk as [_ ->].
    inversion H; subst.
    apply WF_set_pc; [| apply address_range].
    apply WF_set_sp; [| apply u16_range].
    apply WF_put_stack; [done | apply (wf_pc _ Hwf)].
  - (* SHR Vx *)
    injection H as <-. unfold OP_8xy6. cbv zeta.
    apply WF_put_v;
      [apply WF_put_v; [done | apply shiftr_1_u8, (wf_v _ Hwf)] |].
    destruct (land_1_bit (get (v cpu) (Z.shiftr (Z.land (opcode cpu) 3840) 8)));
      lia.
  - (* SHL Vx *)
    injection H as <-. unfold OP_8xyE. cbv zeta.
    apply WF_put_v; [apply WF_put_v; [done | apply u8_range] |].
    pose proof (wf_v _ Hwf (Z.shiftr (Z.land (opcode cpu) 3840) 8)) as Hb.
    rewrite msb_bit by done.
    split; [apply Z.div_pos; lia | apply Z.div_lt_upper_bound; lia].
  - (* RND *)
    injection H as <-. unfold OP_Cxkk. cbv zeta.
    apply WF_put_v; [| apply u8_range].
    apply WF_set_seed; [done |].
    pose proof (Z.mod_pos_bound (u32 (u32 (seed cpu * 1103515245) + 12345))
                  2147483648 ltac:(lia)). lia.
  - by apply (OP_Dxyn_WF cpu).
  - (* SKP *)
    unfold OP_Ex9E in H. cbv zeta in H.
    apply bind_Ok in H as (pressed & _ & H). inversion H; subst.
    destruct (negb _); [apply WF_set_pc; [done | apply u16_range] | done].
  - (* SKNP *)
    unfold OP_ExA1 in H. cbv zeta in H.
    apply bind_Ok in H as (pressed & _ & H). inversion H; subst.
    destruct (_ =? 0); [apply WF_set_pc; [done | apply u16_range] | done].
  - (* LD B, Vx *)
    unfold OP_Fx33 in H. cbv zeta in H.
    apply bind_Ok in H as (m1 & Hm1 & H). apply store_Ok in Hm1 as [_ ->].
    apply bind_Ok in H as (m2 & Hm2 & H). apply store_Ok in Hm2 as [_ ->].
    apply bind_Ok in H as (m3 & Hm3 & H). apply store_Ok in Hm3 as [_ ->].
    inversion H; subst.
    repeat (apply WF_put_memory;
            [| match goal with
               | |- _ <= ?z mod 10 < _ =>
                   pose proof (Z.mod_pos_bound z 10 ltac:(lia)); lia
               end]).
    done.
  - (* LD [I], Vx *)
    revert H. unfold OP_Fx55. apply WF_loop; [| done].
    intros k c c' Hc Hstep. apply bind_Ok in Hstep as (m & Hm & Hstep).
    apply store_Ok in Hm as [_ ->]. inversion Hstep; subst.
    apply WF_put_memory; [done | apply (wf_v _ Hc)].
  - (* LD Vx, [I] *)
    revert H. unfold OP_Fx65. apply WF_loop; [| done].
    intros k c c' Hc Hstep. apply bind_Ok in Hstep as (b & Hb & Hstep).
    apply load_Ok in Hb as [_ ->]. inversion Hstep; subst.
    apply WF_put_v; [done | apply (wf_memory _ Hc)].
Qed.

(** * Invariants of a cycle *)

Lemma array_of_intro (elem : Z -> bool) (lo hi size : Z) a :
  (forall z, lo <= z < hi -> elem z = true) ->
  Z.of_nat (length a) = size -> (forall k, lo <= get a k < hi) ->
  array_of elem size a = true.
Proof.
  intros Helem Hlen Hall. unfold array_of.
  apply andb_true_iff. split; [lia |].
  apply forallb_forall. intros z Hz. apply Helem.
  apply list_elem_of_In, list_elem_of_lookup in Hz as [idx Hidx].
  specialize (Hall (Z.of_nat idx)). unfold get in Hall.
  by rewrite Nat2Z.id, Hidx in Hall.
Qed.

Lemma WF_wf_CPU cpu : WF cpu -> wf_CPU cpu = true.
Proof.
  intros Hwf. unfold wf_CPU.
  assert (H8 : forall z, 0 <= z < 256 -> is_u8 z = true)
    by (unfold is_u8; lia).
  assert (H16 : forall z, 0 <= z < 65536 -> is_u16 z = true)
    by (unfold is_u16; lia).
  assert (H32 : forall z, 0 <= z < 4294967296 -> is_u32 z = true)
    by (unfold is_u32; lia).
  rewrite (array_of_intro is_u8 0 256 MEMORY_SIZE (memory cpu));
    [| done | rewrite (wf_memory_len _ Hwf); done | apply Hwf].
  rewrite (array_of_intro is_u8 0 256 REGISTER_COUNT (v cpu));
    [| done | rewrite (wf_v_len _ Hwf); done | apply Hwf].
  rewrite (array_of_intro is_u16 0 65536 STACK_LEVELS (stack cpu));
    [| done | rewrite (wf_stack_len _ Hwf); done | apply Hwf].
  rewrite (array_of_intro is_u8 0 256 KEY_COUNT (key cpu));
    [| done | rewrite (wf_key_len _ Hwf); done | apply Hwf].
  rewrite (array_of_intro is_u32 0 4294967296 (VIDEO_WIDTH * VIDEO_HEIGHT)
             (gfx cpu));
    [| done | rewrite (wf_gfx_len _ Hwf); done | apply Hwf].
  rewrite (H16 _ (wf_i _ Hwf)), (H16 _ (wf_pc _ Hwf)), (H16 _ (wf_sp _ Hwf)),
    (H16 _ (wf_opcode _ Hwf)), (H8 _ (wf_delaytimer _ Hwf)),
    (H8 _ (wf_soundtimer _ Hwf)), (H32 _ (wf_seed _ Hwf)).
  reflexivity.
Qed.

(** Whatever the tables hold, executing is calling one handler. *)
Lemma Cycle_execute_calls cpu cpu' :
  Cycle_execute cpu = Ok cpu' -> exists f, call f cpu = Ok cpu'.
Proof.
  unfold Cycle_execute.
  destruct (dispatcher (tables cpu) !! _) as [d|]; [| discriminate].
  destruct d; cbn [call_dispatcher];
    unfold dispatcher0, dispatcher1, dispatcher2, dispatcher3, dispatcher4,
      dispatcher5, dispatcher6, dispatcher7, dispatcher8, dispatcher9,
      dispatcherA, dispatcherB, dispatcherC, dispatcherD, dispatcherE,
      dispatcherF, call_entry;
    match goal with
    | |- match ?l with _ => _ end = _ -> _ =>
        destruct l as [f|]; [eauto | discriminate]
    end.
Qed.

Lemma Cycle_timers_WF cpu : WF cpu -> WF (Cycle_timers cpu).
Proof.
  intros Hwf. unfold Cycle_timers. cbv zeta.
  assert (Hd : WF (if 0 <? delaytimer cpu
                   then set_delaytimer cpu (u8 (delaytimer cpu - 1))
                   else cpu)).
  { destruct (0 <? _); [apply WF_set_delaytimer; [done | apply u8_range]
                       | done]. }
  destruct (0 <? soundtimer _);
    [apply WF_set_soundtimer; [done | apply u8_range] | done].
Qed.

Lemma Cycle_timers_tables cpu :
  tables (Cycle_timers cpu) = tables cpu /\ key (Cycle_timers cpu) = key cpu.
Proof.
  unfold Cycle_timers.
  destruct (0 <? delaytimer cpu); cbn [soundtimer set_delaytimer];
    destruct (0 <? soundtimer cpu); done.
Qed.

(** X1 -- every handler assigns only the fields of its footprint: called
    through a function pointer, it leaves the latched opcode, the key flags,
    the jump tables and every field outside [writes] as they were.  So only
    CLS and DRW touch the framebuffer, only LD B and LD [I] write memory,
    only CALL writes the stack, and only LD DT and LD ST set a timer. *)
Theorem handler_footprint (f : OpcodeFunc) (cpu cpu' : CPU) :
  call f cpu = Ok cpu' ->
  opcode cpu' = opcode cpu /\ key cpu' = key cpu /\
  tables cpu' = tables cpu /\
  forall fld, ~ In fld (writes f) -> same_field fld cpu cpu'.
Proof. exact (call_footprint f cpu cpu'). Qed.

Lemma handler_footprint_witness :
  call fp_OP_8xy4 carry_scene = Ok (OP_8xy4 carry_scene) /\
  opcode (OP_8xy4 carry_scene) = opcode carry_scene /\
  memory (OP_8xy4 carry_scene) = memory carry_scene /\
  pc (OP_8xy4 carry_scene) = pc carry_scene.
Proof.
  assert (Hrun : call fp_OP_8xy4 carry_scene = Ok (OP_8xy4 carry_scene))
    by (vm_compute; reflexivity).
  destruct (handler_footprint fp_OP_8xy4 carry_scene _ Hrun)
    as (Hopcode & _ & _ & Hframe).
  split; [exact Hrun |]. split; [exact Hopcode |]. split.
  - apply (Hframe F_memory). cbn. intuition discriminate.
  - apply (Hframe F_pc). cbn. intuition discriminate.
Defined.

(** X2 -- a cycle that completes keeps the machine well formed (every field
    within its C type, every array at its declared length, so no timer or
    register ever leaves 0..255) and changes neither the jump tables nor the
    key flags. *)
Theorem cycle_invariants (cpu cpu' : CPU) :
  wf_CPU cpu = true ->
  Chip8_Cycle cpu = Ok cpu' ->
  wf_CPU cpu' = true /\ tables cpu' = tables cpu /\ key cpu' = key cpu.
Proof.
  intros Hwf Hrun. apply wf_CPU_WF in Hwf. unfold Chip8_Cycle in Hrun.
  apply bind_Ok in Hrun as (fetched & Hfetch & Hrun).
  apply bind_Ok in Hrun as (executed & Hexec & Hrun).
  injection Hrun as <-.
  apply Cycle_fetch_Ok in Hfetch as (_ & _ & ->).
  apply Cycle_execute_calls in Hexec as (f & Hcall).
  destruct (call_footprint _ _ _ Hcall) as (_ & Hkey & Htables & _).
  destruct (Cycle_timers_tables executed) as (-> & ->).
  split; [| by rewrite Htables, Hkey].
  apply WF_wf_CPU, Cycle_timers_WF. eapply call_WF; [| exact Hcall].
  apply WF_set_pc; [| apply u16_range].
  apply WF_set_opcode; [done | apply u16_range].
Qed.

Lemma cycle_invariants_witness :
  wf_CPU wait_key_scene = true /\
  Chip8_Cycle wait_key_scene = Ok (state_of (Chip8_Cycle wait_key_scene)) /\
  wf_CPU (state_of (Chip8_Cycle wait_key_scene)) = true /\
  tables (state_of (Chip8_Cycle wait_key_scene)) = tables wait_key_scene /\
  key (state_of (Chip8_Cycle wait_key_scene)) = key wait_key_scene.
Proof.
  assert (Hwf : wf_CPU wait_key_scene = true) by (vm_compute; reflexivity).
  assert (Hrun : Chip8_Cycle wait_key_scene
                 = Ok (state_of (Chip8_Cycle wait_key_scene)))
    by (vm_compute; reflexivity).
  split; [exact Hwf |]. split; [exact Hrun |].
  exact (cycle_invariants wait_key_scene _ Hwf Hrun).
Defined.

(** * The decode realised by the jump tables *)

(** [Chip8_Create] completes only if every table has its first entry. *)
Lemma Chip8_Create_first_entries entries c0 c1 :
  Chip8_Create entries c0 = Ok c1 ->
  forall k, (k < 16)%nat -> (0 < entries k)%nat.
Proof.
  unfold Chip8_Create, assignOpcodeTableFunctions. intros H.
  cbv zeta in H. rewrite setup_tables in H.
  unfold assign_table0, assign_table1, assign_table2, assign_table3,
    assign_table4, assign_table5, assign_table6, assign_table7,
    assign_table8, assign_table9, assign_tableA, assign_tableB,
    assign_tableC, assign_tableD, assign_tableE, assign_tableF in H.
  do 34 assignment H.
  unfold initOpcodeTable in *. rewrite !length_replicate in *.
  change (Z.to_nat 0) with 0%nat in *.
  intros k Hk.
  do 16 (destruct k as [|k]; [lia |]). lia.
Qed.

Lemma length_init num : length (initOpcodeTable num) = num.
Proof. apply length_replicate. Qed.

Lemma lookup_single f num : (0 < num)%nat -> single f num !! 0%nat = Some f.
Proof.
  intros Hnum. unfold single. apply list_lookup_insert_eq.
  by rewrite length_init.
Qed.

(** The entry of a table at a known index: the assignments at other indexes
    are skipped, the one at the index itself is read back. *)
Ltac entry_at Hbound :=
  rewrite ?list_lookup_insert_ne by done;
  first [ apply list_lookup_insert_eq;
          rewrite ?length_insert, length_init; lia
        | apply lookup_init; exact Hbound ].

(** One case for each index compared with in the closed form, and one for
    the indexes left at [OP_0nnn]. *)
Ltac entries_by_index Hbound :=
  repeat match goal with
         | |- context [?a =? ?b] =>
             destruct (Z.eqb_spec a b) as [->|?];
             [let n := eval cbv in (Z.to_nat b) in
              change (Z.to_nat b) with n in *;
              entry_at Hbound |]
         end;
  rewrite !list_lookup_insert_ne by lia; by apply lookup_init.

Lemma installed_table0_decode entries low :
  0 <= low < 16 -> (14 < entries 0)%nat -> (Z.to_nat low < entries 0)%nat ->
  table0 (installed entries) !! Z.to_nat low =
  Some (if low =? 0x0 then fp_OP_00E0
        else if low =? 0xE then fp_OP_00EE else fp_OP_0nnn).
Proof.
  intros Hlow H14 Hin. cbn [table0 installed].
  entries_by_index Hin.
Qed.

Lemma installed_table8_decode entries low :
  0 <= low < 16 -> (14 < entries 8)%nat -> (Z.to_nat low < entries 8)%nat ->
  table8 (installed entries) !! Z.to_nat low =
  Some (if low =? 0x0 then fp_OP_8xy0
        else if low =? 0x1 then fp_OP_8xy1
        else if low =? 0x2 then fp_OP_8xy2
        else if low =? 0x3 then fp_OP_8xy3
        else if low =? 0x4 then fp_OP_8xy4
        else if low =? 0x5 then fp_OP_8xy5
        else if low =? 0x6 then fp_OP_8xy6
        else if low =? 0x7 then fp_OP_8xy7
        else if low =? 0xE then fp_OP_8xyE
        else fp_OP_0nnn).
Proof.
  intros Hlow H14 Hin. cbn [table8 installed].
  entries_by_index Hin.
Qed.

Lemma installed_tableE_decode entries low :
  0 <= low < 16 -> (14 < entries 14)%nat -> (Z.to_nat low < entries 14)%nat ->
  tableE (installed entries) !! Z.to_nat low =
  Some (if low =? 0xE then fp_OP_Ex9E
        else if low =? 0x1 then fp_OP_ExA1 else fp_OP_0nnn).
Proof.
  intros Hlow H14 Hin. cbn [tableE installed].
  entries_by_index Hin.
Qed.

Lemma installed_tableF_decode entries byte :
  0 <= byte < 256 -> (0x65 < entries 15)%nat ->
  (Z.to_nat byte < entries 15)%nat ->
  tableF (installed entries) !! Z.to_nat byte =
  Some (if byte =? 0x07 then fp_OP_Fx07
        else if byte =? 0x0A then fp_OP_Fx0A
        else if byte =? 0x15 then fp_OP_Fx15
        else if byte =? 0x18 then fp_OP_Fx18
        else if byte =? 0x1E then fp_OP_Fx1E
        else if byte =? 0x29 then fp_OP_Fx29
        else if byte =? 0x33 then fp_OP_Fx33
        else if byte =? 0x55 then fp_OP_Fx55
        else if byte =? 0x65 then fp_OP_Fx65
        else fp_OP_0nnn).
Proof.
  intros Hbyte H65 Hin. cbn [tableF installed].
  entries_by_index Hin.
Qed.

Ltac through_dispatcher entries :=
  match goal with
  | |- context [dispatcher (installed entries) !! ?n] =>
      let r := eval vm_compute in (dispatcher (installed entries) !! n) in
      change (dispatcher (installed entries) !! n) with r
  end;
  cbn [call_dispatcher];
  unfold dispatcher0, dispatcher1, dispatcher2, dispatcher3, dispatcher4,
    dispatcher5, dispatcher6, dispatcher7, dispatcher8, dispatcher9,
    dispatcherA, dispatcherB, dispatcherC, dispatcherD, dispatcherE,
    dispatcherF, call_entry.

Lemma Cycle_execute_decode entries c0 c1 cpu :
  Chip8_Create entries c0 = Ok c1 ->
  tables cpu = tables c1 ->
  in_table entries (opcode cpu) = true ->
  Cycle_execute cpu = call (decode (opcode cpu)) cpu.
Proof.
  intros Hcreate Ht Hin.
  pose proof (Chip8_Create_first_entries _ _ _ Hcreate) as Hfirst.
  apply Chip8_Create_tables in Hcreate as (Hinst & H0 & H8 & HE & HF).
  rewrite Hinst in Ht. clear Hinst c0 c1.
  unfold Cycle_execute, in_table, sub_index, decode in *. rewrite Ht.
  cbv zeta in *.
  pose proof (top_nibble_range (opcode cpu)) as Htop.
  pose proof (low_nibble_range (opcode cpu)) as Hlow.
  pose proof (low_byte_range (opcode cpu)) as Hbyte.
  set (top := Z.shiftr (Z.land (opcode cpu) 0xF000) 12) in *.
  assert (top = 0 \/ top = 1 \/ top = 2 \/ top = 3 \/ top = 4 \/ top = 5
          \/ top = 6 \/ top = 7 \/ top = 8 \/ top = 9 \/ top = 10
          \/ top = 11 \/ top = 12 \/ top = 13 \/ top = 14 \/ top = 15)
    as Hcases by lia.
  apply Nat.ltb_lt in Hin.
  destruct Hcases as
    [E|[E|[E|[E|[E|[E|[E|[E|[E|[E|[E|[E|[E|[E|[E|E]]]]]]]]]]]]]]];
    rewrite E in *; cbn [Z.eqb Pos.eqb orb] in *;
    through_dispatcher entries; rewrite Ht;
    try (cbn [installed table1 table2 table3 table4 table5 table6 table7
              table9 tableA tableB tableC tableD];
         change (Z.to_nat 0) with 0%nat;
         rewrite lookup_single by (apply Hfirst; lia); reflexivity).
  - by rewrite installed_table0_decode.
  - by rewrite installed_table8_decode.
  - by rewrite installed_tableE_decode.
  - by rewrite installed_tableF_decode.
Qed.

Lemma assigned_in_table entries c0 c1 op :
  Chip8_Create entries c0 = Ok c1 ->
  decode op <> fp_OP_0nnn -> in_table entries op = true.
Proof.
  intros Hcreate Hassigned.
  pose proof (Chip8_Create_first_entries _ _ _ Hcreate) as Hfirst.
  apply Chip8_Create_tables in Hcreate as (_ & H0 & H8 & HE & HF).
  unfold in_table, sub_index, decode in *. cbv zeta in *.
  pose proof (top_nibble_range op) as Htop.
  set (top := Z.shiftr (Z.land op 0xF000) 12) in *.
  set (low := Z.land op 0x000F) in *.
  set (byte := Z.land op 0x00FF) in *.
  clearbody top low byte.
  assert (top = 0 \/ top = 1 \/ top = 2 \/ top = 3 \/ top = 4 \/ top = 5
          \/ top = 6 \/ top = 7 \/ top = 8 \/ top = 9 \/ top = 10
          \/ top = 11 \/ top = 12 \/ top = 13 \/ top = 14 \/ top = 15)
    as Hcases by lia.
  apply Nat.ltb_lt.
  destruct Hcases as
    [E|[E|[E|[E|[E|[E|[E|[E|[E|[E|[E|[E|[E|[E|[E|E]]]]]]]]]]]]]]];
    subst top; cbn [Z.eqb Pos.eqb orb] in *;
    match goal with
    | |- context [entries (Z.to_nat ?t)] =>
        let n := eval cbv in (Z.to_nat t) in change (Z.to_nat t) with n
    end;
    try (change (Z.to_nat 0) with 0%nat; apply Hfirst; lia);
    repeat match goal with
           | H : context [?a =? ?b] |- _ =>
               let E := fresh "E" in
               destruct (Z.eqb_spec a b) as [E|?];
               [rewrite E;
                let n := eval cbv in (Z.to_nat b) in
                change (Z.to_nat b) with n; lia |]
           end;
    done.
Qed.

(** A cycle whose fetch latches an opcode that decodes to an assigned
    handler [f] is: fetch, [f], timers. *)
Lemma cycle_of_handler entries c0 c1 cpu fetched f :
  Chip8_Create entries c0 = Ok c1 ->
  tables cpu = tables c1 ->
  Cycle_fetch cpu = Ok fetched ->
  decode (opcode fetched) = f -> f <> fp_OP_0nnn ->
  Chip8_Cycle cpu = do e <- call f fetched; Ok (Cycle_timers e).
Proof.
  intros Hcreate Ht Hfetch <- Hassigned.
  unfold Chip8_Cycle. rewrite Hfetch. cbn [bind].
  rewrite (Cycle_execute_decode entries c0 c1); [done | done | |].
  - apply Cycle_fetch_Ok in Hfetch as (_ & _ & ->).
    cbn [tables set_pc set_opcode]. done.
  - by apply (assigned_in_table entries c0 c1).
Qed.

(** X3 -- the two-level jump tables set up by [Chip8_Create] realise the
    decode in closed form: the handler a cycle runs is chosen by the top
    nibble of the latched opcode, then by its low nibble in families 0x0,
    0x8 and 0xE and by its low byte in family 0xF, whenever the sub-index
    lies inside the sub-table as declared; the cycle is then fetch, that
    handler, timers. *)
Theorem cycle_runs_decoded_handler
  (entries : nat -> nat) (c0 c1 cpu fetched : CPU) :
  Chip8_Create entries c0 = Ok c1 ->
  tables cpu = tables c1 ->
  Cycle_fetch cpu = Ok fetched ->
  in_table entries (opcode fetched) = true ->
  Cycle_execute fetched = call (decode (opcode fetched)) fetched /\
  Chip8_Cycle cpu =
    do e <- call (decode (opcode fetched)) fetched; Ok (Cycle_timers e).
Proof.
  intros Hcreate Ht Hfetch Hin.
  assert (Hexec : Cycle_execute fetched
                  = call (decode (opcode fetched)) fetched).
  { apply (Cycle_execute_decode entries c0 c1); [done | | done].
    apply Cycle_fetch_Ok in Hfetch as (_ & _ & ->).
    cbn [tables set_pc set_opcode]. done. }
  split; [exact Hexec |].
  unfold Chip8_Cycle. rewrite Hfetch. cbn [bind]. by rewrite Hexec.
Qed.

Lemma cycle_runs_decoded_handler_witness :
  decode (opcode (state_of (Cycle_fetch wait_key_scene))) = fp_OP_Fx0A /\
  Cycle_execute (state_of (Cycle_fetch wait_key_scene))
  = call (decode (opcode (state_of (Cycle_fetch wait_key_scene))))
         (state_of (Cycle_fetch wait_key_scene)) /\
  Chip8_Cycle wait_key_scene =
    do e <- call (decode (opcode (state_of (Cycle_fetch wait_key_scene))))
                 (state_of (Cycle_fetch wait_key_scene));
    Ok (Cycle_timers e).
Proof.
  assert (Ht : tables wait_key_scene = tables power_on)
    by (vm_compute; reflexivity).
  assert (Hfetch : Cycle_fetch wait_key_scene
                   = Ok (state_of (Cycle_fetch wait_key_scene)))
    by (vm_compute; reflexivity).
  assert (Hin : in_table every_subindex
                  (opcode (state_of (Cycle_fetch wait_key_scene))) = true)
    by (vm_compute; reflexivity).
  split; [vm_compute; reflexivity |].
  exact (cycle_runs_decoded_handler every_subindex (cleared initial_seed)
           power_on wait_key_scene _ power_on_created Ht Hfetch Hin).
Defined.

(** X4 -- once [Chip8_Create] has completed, every opcode that decodes to
    an assigned handler has its sub-index inside its sub-table, whatever
    lengths the tables are declared with: only an opcode left at [OP_0nnn]
    can index past the end of a table. *)
Theorem assigned_opcode_in_table (entries : nat -> nat) (c0 c1 : CPU) (op : Z) :
  Chip8_Create entries c0 = Ok c1 ->
  decode op <> fp_OP_0nnn ->
  in_table entries op = true.
Proof. exact (assigned_in_table entries c0 c1 op). Qed.

Lemma assigned_opcode_in_table_witness :
  decode 0xD125 = fp_OP_Dxyn /\ in_table every_subindex 0xD125 = true.
Proof.
  split; [reflexivity |].
  apply (assigned_opcode_in_table every_subindex (cleared initial_seed)
           power_on 0xD125 power_on_created).
  vm_compute. discriminate.
Defined.

(** * Fetch *)

Lemma lor_shiftl_8 hi lo :
  0 <= hi -> 0 <= lo < 256 -> Z.lor (Z.shiftl hi 8) lo = 256 * hi + lo.
Proof.
  intros Hhi Hlo. rewrite Z.shiftl_mul_pow2 by lia. change (2 ^ 8) with 256.
  assert (Hdisjoint : Z.land (hi * 256) lo = 0).
  { apply Z.bits_inj'. intros n Hn. rewrite Z.land_spec, Z.bits_0.
    destruct (Z.lt_ge_cases n 8) as [Hlow|Hhigh].
    - change 256 with (2 ^ 8). by rewrite Z.mul_pow2_bits_low.
    - rewrite (bits_above lo 8 n) by (done || lia). apply andb_false_r. }
  rewrite <- Z.lxor_lor, <- Z.add_nocarry_lxor by done. lia.
Qed.

(** X5 -- the fetch of a cycle reads two bytes at pc and pc + 1 and latches
    them big-endian: opcode = 256 * memory[pc] + memory[pc + 1]; it advances
    pc by 2 and changes nothing else.  It reads inside memory exactly when
    pc + 1 < 4096; otherwise the byte at pc or pc + 1 lies outside the
    array. *)
Theorem fetch_big_endian (cpu : CPU) :
  wf_CPU cpu = true ->
  (pc cpu + 1 < 4096 ->
   exists fetched,
     Cycle_fetch cpu = Ok fetched /\
     opcode fetched
     = 256 * get (memory cpu) (pc cpu) + get (memory cpu) (pc cpu + 1) /\
     pc fetched = pc cpu + 2 /\
     fetched = set_pc (set_opcode cpu (opcode fetched)) (pc fetched)) /\
  (4096 <= pc cpu + 1 ->
   exists a, Cycle_fetch cpu = Fault (MemoryFault a) /\
             pc cpu <= a <= pc cpu + 1 /\ 4096 <= a).
Proof.
  intros Hwf. apply wf_CPU_WF in Hwf.
  pose proof (wf_pc _ Hwf) as Hpc.
  pose proof (wf_memory _ Hwf (pc cpu)) as Hhi.
  pose proof (wf_memory _ Hwf (pc cpu + 1)) as Hlo.
  split.
  - intros Hin. unfold Cycle_fetch.
    rewrite !load_in_range by (unfold MEMORY_SIZE; lia). cbn [bind].
    eexists. split; [reflexivity |]. cbn [opcode pc set_pc set_opcode].
    rewrite lor_shiftl_8 by lia.
    rewrite !u16_small by lia. done.
  - intros Hout. unfold Cycle_fetch.
    destruct (Z.lt_ge_cases (pc cpu) 4096) as [Hlast|Hpast].
    + rewrite load_in_range by (unfold MEMORY_SIZE; lia). cbn [bind].
      rewrite load_out_of_range by (unfold MEMORY_SIZE; lia). cbn [bind].
      eexists. split; [reflexivity | lia].
    + rewrite load_out_of_range by (unfold MEMORY_SIZE; lia). cbn [bind].
      eexists. split; [reflexivity | lia].
Qed.

Lemma fetch_big_endian_witness :
  wf_CPU wait_key_scene = true /\
  256 * get (memory wait_key_scene) (pc wait_key_scene)
  + get (memory wait_key_scene) (pc wait_key_scene + 1) = 0xF30A /\
  exists fetched,
    Cycle_fetch wait_key_scene = Ok fetched /\
    opcode fetched
    = 256 * get (memory wait_key_scene) (pc wait_key_scene)
      + get (memory wait_key_scene) (pc wait_key_scene + 1) /\
    pc fetched = pc wait_key_scene + 2.
Proof.
  assert (Hwf : wf_CPU wait_key_scene = true) by (vm_compute; reflexivity).
  assert (Hpc : pc wait_key_scene + 1 < 4096) by (vm_compute; reflexivity).
  split; [exact Hwf |]. split; [vm_compute; reflexivity |].
  destruct (fetch_big_endian wait_key_scene Hwf) as (Hin & _).
  destruct (Hin Hpc) as (fetched & Hrun & Hop & Hpc' & _).
  exists fetched. split; [exact Hrun |]. split; [exact Hop | exact Hpc'].
Defined.

(** * Binary-coded decimal *)

(** X6 -- LD B, Vx with I + 2 inside memory stores the three decimal digits
    of V[x]: hundreds at I, tens at I + 1, ones at I + 2, each in 0 .. 9 and
    with 100 * h + 10 * t + o = V[x].  No other byte of memory and no other
    field changes; I is not advanced. *)
Theorem bcd_digits (cpu : CPU) :
  wf_CPU cpu = true ->
  i cpu + 2 < 4096 ->
  exists cpu',
    OP_Fx33 cpu = Ok cpu' /\
    (let h := get (memory cpu') (i cpu) in
     let t := get (memory cpu') (i cpu + 1) in
     let o := get (memory cpu') (i cpu + 2) in
     0 <= h < 10 /\ 0 <= t < 10 /\ 0 <= o < 10 /\
     100 * h + 10 * t + o = get (v cpu) (op_x cpu)) /\
    (forall a, 0 <= a -> ~ i cpu <= a <= i cpu + 2 ->
       get (memory cpu') a = get (memory cpu) a) /\
    cpu' = set_memory cpu (memory cpu').
Proof.
  intros Hwf Hfit. apply wf_CPU_WF in Hwf.
  pose proof (wf_i _ Hwf) as Hi.
  pose proof (wf_memory_len _ Hwf) as Hlen.
  pose proof (wf_v _ Hwf (op_x cpu)) as Hv.
  unfold OP_Fx33. cbv zeta. fold (op_x cpu).
  rewrite store_in_range by (unfold MEMORY_SIZE; lia).
  cbn [bind i memory set_memory].
  rewrite store_in_range by (unfold MEMORY_SIZE; lia).
  cbn [bind i memory set_memory].
  rewrite store_in_range by (unfold MEMORY_SIZE; lia).
  cbn [bind]. eexists. split; [reflexivity |].
  cbn [memory set_memory]. set (value := get (v cpu) (op_x cpu)) in *.
  split; [| split; [| reflexivity]].
  - cbv zeta.
    rewrite get_put_eq by (rewrite !length_put; lia).
    rewrite (get_put_ne _ (i cpu)), get_put_eq
      by (rewrite ?length_put; lia).
    rewrite (get_put_ne _ (i cpu)), (get_put_ne _ (i cpu + 1)), get_put_eq
      by (rewrite ?length_put; lia).
    Z.div_mod_to_equations. lia.
  - intros a Ha Hout. rewrite !get_put_ne by lia. done.
Qed.

Lemma bcd_digits_witness :
  wf_CPU bcd_scene = true /\
  get (v bcd_scene) (op_x bcd_scene) = 254 /\
  exists cpu',
    OP_Fx33 bcd_scene = Ok cpu' /\
    100 * get (memory cpu') (i bcd_scene)
    + 10 * get (memory cpu') (i bcd_scene + 1)
    + get (memory cpu') (i bcd_scene + 2)
    = get (v bcd_scene) (op_x bcd_scene).
Proof.
  assert (Hwf : wf_CPU bcd_scene = true) by (vm_compute; reflexivity).
  assert (Hfit : i bcd_scene + 2 < 4096) by (vm_compute; reflexivity).
  split; [exact Hwf |]. split; [vm_compute; reflexivity |].
  destruct (bcd_digits bcd_scene Hwf Hfit)
    as (cpu' & Hrun & (_ & _ & _ & Hsum) & _).
  exists cpu'. split; [exact Hrun | exact Hsum].
Defined.

(** * Shifts *)

(** X7 -- SHR and SHL shift V[x] in place and never read V[y].  For
    x <> 0xF the old value is recovered from the result and the flag:
    old = 2 * V[x] + VF after SHR (VF is the bit shifted out at the bottom),
    2 * old = V[x] + 256 * VF after SHL (VF is the bit shifted out at the
    top); every register other than x and 0xF keeps its value. *)
Theorem shift_result_and_flag (cpu : CPU) :
  wf_CPU cpu = true ->
  op_x cpu <> 0xF ->
  let a := get (v cpu) (op_x cpu) in
  let shr := v (OP_8xy6 cpu) in
  let shl := v (OP_8xyE cpu) in
  a = 2 * get shr (op_x cpu) + get shr 0xF /\
  0 <= get shr 0xF <= 1 /\
  2 * a = get shl (op_x cpu) + 256 * get shl 0xF /\
  0 <= get shl 0xF <= 1 /\ 0 <= get shl (op_x cpu) < 256 /\
  (forall k, 0 <= k -> k <> op_x cpu -> k <> 0xF ->
     get shr k = get (v cpu) k /\ get shl k = get (v cpu) k).
Proof.
  intros Hwf HxF a shr shl. apply wf_CPU_WF in Hwf.
  pose proof (wf_v_len _ Hwf) as Hlen.
  pose proof (op_x_range cpu) as Hx.
  pose proof (wf_v _ Hwf (op_x cpu)) as Ha. fold a in Ha.
  assert (Er : get shr (op_x cpu) = a / 2).
  { subst shr. unfold OP_8xy6. regs. rewrite decide_False by done.
    rewrite decide_True by done. fold a.
    by rewrite Z.shiftr_div_pow2 by lia. }
  assert (Erf : get shr 0xF = a mod 2).
  { subst shr. unfold OP_8xy6. regs. rewrite decide_True by done.
    fold a. apply land_1_mod. }
  assert (El : get shl (op_x cpu) = (2 * a) mod 256).
  { subst shl. unfold OP_8xyE. regs. rewrite decide_False by done.
    rewrite decide_True by done. fold a. unfold u8.
    rewrite Z.shiftl_mul_pow2 by lia. f_equal. lia. }
  assert (Elf : get shl 0xF = a / 128).
  { subst shl. unfold OP_8xyE. regs. rewrite decide_True by done.
    fold a. by apply msb_bit. }
  rewrite Er, Erf, El, Elf.
  split; [Z.div_mod_to_equations; lia |].
  split; [Z.div_mod_to_equations; lia |].
  split; [Z.div_mod_to_equations; lia |].
  split; [Z.div_mod_to_equations; lia |].
  split; [Z.div_mod_to_equations; lia |].
  intros k Hk Hkx HkF. subst shr shl. unfold OP_8xy6, OP_8xyE. regs.
  by rewrite !decide_False by done.
Qed.

Lemma shift_result_and_flag_witness :
  wf_CPU shift_scene = true /\
  get (v shift_scene) (op_x shift_scene) = 0x85 /\
  get (v (OP_8xy6 shift_scene)) (op_x shift_scene) = 0x42 /\
  get (v shift_scene) (op_x shift_scene)
  = 2 * get (v (OP_8xy6 shift_scene)) (op_x shift_scene)
    + get (v (OP_8xy6 shift_scene)) 0xF.
Proof.
  assert (Hwf : wf_CPU shift_scene = true) by (vm_compute; reflexivity).
  assert (Hx : op_x shift_scene <> 0xF) by (vm_compute; discriminate).
  split; [exact Hwf |]. split; [vm_compute; reflexivity |].
  split; [vm_compute; reflexivity |].
  destruct (shift_result_and_flag shift_scene Hwf Hx) as (Hshr & _).
  exact Hshr.
Defined.

(** * Inverse pairs of ALU instructions *)

Lemma mod_256_above z : 256 <= z < 512 -> z mod 256 = z - 256.
Proof. intros Hz. symmetry. apply (Z.mod_unique z 256 1); lia. Qed.

Lemma mod_256_below z : -256 <= z < 0 -> z mod 256 = z + 256.
Proof. intros Hz. symmetry. apply (Z.mod_unique z 256 (-1)); lia. Qed.

(** X8 -- ADD Vx, Vy followed by SUB Vx, Vy on the same two registers (x and
    y distinct and neither of them 0xF) restores V[x], although the sum was
    cut to 8 bits; the flag after the SUB is the complement of the carry of
    the ADD. *)
Theorem add_then_sub_restores (cpu : CPU) :
  wf_CPU cpu = true ->
  op_x cpu <> op_y cpu -> op_x cpu <> 0xF -> op_y cpu <> 0xF ->
  forall later,
    v later = v (OP_8xy4 cpu) ->
    op_x later = op_x cpu -> op_y later = op_y cpu ->
    get (v (OP_8xy5 later)) (op_x cpu) = get (v cpu) (op_x cpu) /\
    get (v (OP_8xy5 later)) 0xF = 1 - get (v (OP_8xy4 cpu)) 0xF.
Proof.
  intros Hwf Hxy HxF HyF later Hv Ex Ey. apply wf_CPU_WF in Hwf.
  pose proof (wf_v_len _ Hwf) as Hlen.
  pose proof (op_x_range cpu) as Hx. pose proof (op_y_range cpu) as Hy.
  pose proof (wf_v _ Hwf (op_x cpu)) as Ha.
  pose proof (wf_v _ Hwf (op_y cpu)) as Hb.
  set (a := get (v cpu) (op_x cpu)) in *.
  set (b := get (v cpu) (op_y cpu)) in *.
  assert (E4x : get (v (OP_8xy4 cpu)) (op_x cpu) = (a + b) mod 256).
  { unfold OP_8xy4. regs. rewrite decide_False by done.
    rewrite decide_True by done. fold a b.
    rewrite u16_small by lia. change 0xFF with (Z.ones 8).
    by rewrite Z.land_ones by lia. }
  assert (E4y : get (v (OP_8xy4 cpu)) (op_y cpu) = b).
  { unfold OP_8xy4. regs. by rewrite !decide_False by done. }
  assert (E4f : get (v (OP_8xy4 cpu)) 0xF = if 255 <? a + b then 1 else 0).
  { unfold OP_8xy4. regs. rewrite decide_True by done. fold a b.
    by rewrite u16_small by lia. }
  assert (L4 : length (v (OP_8xy4 cpu)) = 16%nat).
  { unfold OP_8xy4. cbn [v set_v]. by rewrite !length_put. }
  unfold OP_8xy5. regs. rewrite Ex, Ey, Hv.
  rewrite ?length_put, ?get_put by (rewrite ?length_put; lia).
  rewrite decide_False by done. rewrite !decide_True by done.
  rewrite E4x, E4y, E4f. unfold u8.
  case_decide as Eyx; [congruence |].
  destruct (Z.ltb_spec 255 (a + b)) as [Hcarry|Hfits].
  - rewrite (mod_256_above (a + b)) by lia.
    rewrite (mod_256_below (a + b - 256 - b)) by lia.
    destruct (Z.leb_spec b (a + b - 256)); lia.
  - rewrite (Z.mod_small (a + b)) by lia.
    rewrite Z.mod_small by lia.
    destruct (Z.leb_spec b (a + b)); lia.
Qed.

Lemma add_then_sub_restores_witness :
  wf_CPU carry_scene = true /\
  get (v (OP_8xy4 carry_scene)) (op_x carry_scene) = 0x00 /\
  get (v (OP_8xy5 (set_opcode (OP_8xy4 carry_scene) 0x8015)))
      (op_x carry_scene)
  = get (v carry_scene) (op_x carry_scene) /\
  get (v carry_scene) (op_x carry_scene) = 0xFF.
Proof.
  assert (Hwf : wf_CPU carry_scene = true) by (vm_compute; reflexivity).
  assert (Hxy : op_x carry_scene <> op_y carry_scene)
    by (vm_compute; discriminate).
  assert (Hx : op_x carry_scene <> 0xF) by (vm_compute; discriminate).
  assert (Hy : op_y carry_scene <> 0xF) by (vm_compute; discriminate).
  assert (Ex : op_x (set_opcode (OP_8xy4 carry_scene) 0x8015)
               = op_x carry_scene) by (vm_compute; reflexivity).
  assert (Ey : op_y (set_opcode (OP_8xy4 carry_scene) 0x8015)
               = op_y carry_scene) by (vm_compute; reflexivity).
  split; [exact Hwf |]. split; [vm_compute; reflexivity |].
  split; [| vm_compute; reflexivity].
  assert (Hv : v (set_opcode (OP_8xy4 carry_scene) 0x8015)
               = v (OP_8xy4 carry_scene)) by (vm_compute; reflexivity).
  destruct (add_then_sub_restores carry_scene Hwf Hxy Hx Hy
              (set_opcode (OP_8xy4 carry_scene) 0x8015) Hv Ex Ey)
    as (Hback & _).
  exact Hback.
Defined.

(** X9 -- XOR Vx, Vy executed twice with distinct x and y leaves every
    register as it was: the second XOR undoes the first. *)
Theorem xor_twice_restores (cpu : CPU) :
  wf_CPU cpu = true ->
  op_x cpu <> op_y cpu ->
  forall k, get (v (OP_8xy3 (OP_8xy3 cpu))) k = get (v cpu) k.
Proof.
  intros Hwf Hxy k. apply wf_CPU_WF in Hwf.
  pose proof (wf_v_len _ Hwf) as Hlen.
  pose proof (op_x_range cpu) as Hx. pose proof (op_y_range cpu) as Hy.
  unfold OP_8xy3. cbn [v opcode set_v]. fold_operands.
  set (V1 := put (v cpu) (op_x cpu)
               (Z.lxor (get (v cpu) (op_x cpu)) (get (v cpu) (op_y cpu)))).
  assert (E1x : get V1 (op_x cpu)
                = Z.lxor (get (v cpu) (op_x cpu)) (get (v cpu) (op_y cpu))).
  { subst V1. apply get_put_eq. lia. }
  assert (E1y : get V1 (op_y cpu) = get (v cpu) (op_y cpu)).
  { subst V1. apply get_put_ne; lia. }
  rewrite E1x, E1y, Z.lxor_assoc, Z.lxor_nilpotent, Z.lxor_0_r.
  unfold get, put. subst V1. unfold put.
  destruct (decide (Z.to_nat (op_x cpu) = Z.to_nat k)) as [E|E].
  - rewrite <- E. rewrite list_lookup_insert_eq; [done |].
    rewrite length_insert. lia.
  - by rewrite !list_lookup_insert_ne by done.
Qed.

Lemma xor_twice_restores_witness :
  wf_CPU xor_scene = true /\
  get (v (OP_8xy3 xor_scene)) 0 = 0x33 /\
  get (v (OP_8xy3 (OP_8xy3 xor_scene))) 0 = get (v xor_scene) 0.
Proof.
  assert (Hwf : wf_CPU xor_scene = true) by (vm_compute; reflexivity).
  assert (Hxy : op_x xor_scene <> op_y xor_scene)
    by (vm_compute; discriminate).
  split; [exact Hwf |]. split; [vm_compute; reflexivity |].
  exact (xor_twice_restores xor_scene Hwf Hxy 0).
Defined.

(** * The call stack *)

(** X10 -- the call stack has 16 slots and neither CALL nor RET tests the
    stack pointer.  CALL with sp < 16 stores pc in slot sp, leaves the other
    slots alone and increments sp; with sp >= 16 it indexes the stack at sp,
    past its last slot.  RET with 1 <= sp <= 16 decrements sp and jumps to
    the address in that slot; with sp = 0 the decrement wraps and RET indexes
    the stack at 65535. *)
Theorem stack_depth_limits (cpu : CPU) :
  wf_CPU cpu = true ->
  (sp cpu < 16 ->
   exists called,
     OP_2nnn cpu = Ok called /\ sp called = sp cpu + 1 /\
     pc called = op_nnn cpu /\ get (stack called) (sp cpu) = pc cpu /\
     forall k, 0 <= k -> k <> sp cpu ->
       get (stack called) k = get (stack cpu) k) /\
  (16 <= sp cpu -> OP_2nnn cpu = Fault (StackFault (sp cpu))) /\
  (1 <= sp cpu <= 16 ->
   OP_00EE cpu = Ok (set_pc (set_sp cpu (sp cpu - 1))
                            (get (stack cpu) (sp cpu - 1)))) /\
  (sp cpu = 0 -> OP_00EE cpu = Fault (StackFault 65535)) /\
  (16 < sp cpu -> OP_00EE cpu = Fault (StackFault (sp cpu - 1))).
Proof.
  intros Hwf. apply wf_CPU_WF in Hwf.
  pose proof (wf_stack_len _ Hwf) as Hlen.
  pose proof (wf_sp _ Hwf) as Hsp.
  split; [| split; [| split; [| split]]].
  - intros Hroom. unfold OP_2nnn.
    rewrite store_in_range by (unfold STACK_LEVELS; lia). cbn [bind].
    eexists. split; [reflexivity |].
    cbn [stack sp pc set_stack set_sp set_pc].
    split; [apply u16_small; lia |]. split; [reflexivity |].
    split; [apply get_put_eq; lia |].
    intros k Hk Hne. apply get_put_ne; lia.
  - intros Hfull. unfold OP_2nnn.
    by rewrite store_out_of_range by (unfold STACK_LEVELS; lia).
  - intros Hdepth. unfold OP_00EE. cbv zeta.
    cbn [stack sp pc set_stack set_sp set_pc].
    rewrite u16_small by lia.
    by rewrite load_in_range by (unfold STACK_LEVELS; lia).
  - intros Hempty. unfold OP_00EE. cbv zeta.
    cbn [stack sp pc set_stack set_sp set_pc]. rewrite Hempty.
    change (u16 (0 - 1)) with 65535.
    by rewrite load_out_of_range by (unfold STACK_LEVELS; lia).
  - intros Hpast. unfold OP_00EE. cbv zeta.
    cbn [stack sp pc set_stack set_sp set_pc].
    rewrite u16_small by lia.
    by rewrite load_out_of_range by (unfold STACK_LEVELS; lia).
Qed.

Lemma stack_depth_limits_witness :
  wf_CPU full_stack_scene = true /\
  sp full_stack_scene = 16 /\
  OP_2nnn full_stack_scene = Fault (StackFault (sp full_stack_scene)).
Proof.
  assert (Hwf : wf_CPU full_stack_scene = true) by (vm_compute; reflexivity).
  assert (Hsp : 16 <= sp full_stack_scene) by (vm_compute; discriminate).
  split; [exact Hwf |]. split; [vm_compute; reflexivity |].
  destruct (stack_depth_limits full_stack_scene Hwf) as (_ & Hfull & _).
  exact (Hfull Hsp).
Defined.

(** * Key tests *)

(** X11 -- SKP Vx and SKNP Vx index the 16 key flags with V[x] as it is.
    For V[x] < 16 they are complementary: exactly one of them advances pc by
    2 (SKP when the flag is set, SKNP when it is clear) and the other leaves
    the state untouched.  For V[x] >= 16 both index the key array outside
    its 16 entries. *)
Theorem key_skips (cpu : CPU) :
  wf_CPU cpu = true ->
  let k := get (v cpu) (op_x cpu) in
  (k < 16 -> get (key cpu) k <> 0 ->
   OP_Ex9E cpu = Ok (set_pc cpu (u16 (pc cpu + 2))) /\
   OP_ExA1 cpu = Ok cpu) /\
  (k < 16 -> get (key cpu) k = 0 ->
   OP_Ex9E cpu = Ok cpu /\
   OP_ExA1 cpu = Ok (set_pc cpu (u16 (pc cpu + 2)))) /\
  (16 <= k ->
   OP_Ex9E cpu = Fault (KeyFault k) /\ OP_ExA1 cpu = Fault (KeyFault k)).
Proof.
  intros Hwf k. apply wf_CPU_WF in Hwf.
  pose proof (wf_v _ Hwf (op_x cpu)) as Hk. fold k in Hk.
  unfold OP_Ex9E, OP_ExA1. cbv zeta. fold (op_x cpu). fold k.
  split; [| split].
  - intros Hin Hset.
    rewrite !load_in_range by (unfold KEY_COUNT; lia). cbn [bind].
    destruct (Z.eqb_spec (get (key cpu) k) 0); done.
  - intros Hin Hclear.
    rewrite !load_in_range by (unfold KEY_COUNT; lia). cbn [bind].
    destruct (Z.eqb_spec (get (key cpu) k) 0); done.
  - intros Hout.
    by rewrite !load_out_of_range by (unfold KEY_COUNT; lia).
Qed.

Lemma key_skips_witness :
  wf_CPU skip_key_scene = true /\
  get (v skip_key_scene) (op_x skip_key_scene) = 5 /\
  OP_Ex9E skip_key_scene
  = Ok (set_pc skip_key_scene (u16 (pc skip_key_scene + 2))) /\
  OP_ExA1 skip_key_scene = Ok skip_key_scene.
Proof.
  assert (Hwf : wf_CPU skip_key_scene = true) by (vm_compute; reflexivity).
  assert (Hin : get (v skip_key_scene) (op_x skip_key_scene) < 16)
    by (vm_compute; reflexivity).
  assert (Hset : get (key skip_key_scene)
                   (get (v skip_key_scene) (op_x skip_key_scene)) <> 0)
    by (vm_compute; discriminate).
  split; [exact Hwf |]. split; [vm_compute; reflexivity |].
  destruct (key_skips skip_key_scene Hwf) as (Hpressed & _).
  exact (Hpressed Hin Hset).
Defined.

(** * Pseudo-random numbers *)

Lemma land_submask a b : Z.land (Z.land a b) b = Z.land a b.
Proof. by rewrite <- Z.land_assoc, Z.land_diag. Qed.

Lemma land_le_r a b : 0 <= b -> 0 <= Z.land a b <= b.
Proof.
  intros Hb. apply Z.ldiff_le; [done |].
  apply Z.bits_inj'. intros n Hn.
  rewrite Z.ldiff_spec, Z.land_spec, Z.bits_0.
  by destruct (Z.testbit a n), (Z.testbit b n).
Qed.

(** X12 -- RND Vx, kk advances the generator by one step of the linear
    congruence seed' = (1103515245 * seed + 12345) mod 2^31 (the 32-bit
    wrap of the product does not show in the result) and stores seed' & kk
    in V[x]: a value whose set bits all lie inside kk, hence at most kk. *)
Theorem random_within_mask (cpu : CPU) :
  wf_CPU cpu = true ->
  let r := get (v (OP_Cxkk cpu)) (op_x cpu) in
  seed (OP_Cxkk cpu) = (1103515245 * seed cpu + 12345) mod 2147483648 /\
  r = Z.land (seed (OP_Cxkk cpu)) (op_kk cpu) /\
  Z.land r (op_kk cpu) = r /\
  0 <= r <= op_kk cpu.
Proof.
  intros Hwf r. apply wf_CPU_WF in Hwf.
  pose proof (wf_v_len _ Hwf) as Hlen.
  pose proof (op_x_range cpu) as Hx.
  pose proof (low_byte_range (opcode cpu)) as Hkk. fold (op_kk cpu) in Hkk.
  assert (Es : seed (OP_Cxkk cpu)
               = (1103515245 * seed cpu + 12345) mod 2147483648).
  { unfold OP_Cxkk. cbn [seed set_seed set_v]. unfold u32.
    rewrite Z.add_mod_idemp_l by lia.
    rewrite Z.mod_mod_divide by (exists 2; lia).
    f_equal. lia. }
  assert (Hs : 0 <= seed (OP_Cxkk cpu)).
  { rewrite Es. apply Z.mod_pos_bound. lia. }
  assert (Er : r = Z.land (seed (OP_Cxkk cpu)) (op_kk cpu)).
  { subst r. unfold OP_Cxkk at 1. cbv zeta. cbn [v set_v set_seed].
    fold (op_x cpu) (op_kk cpu). rewrite get_put_eq by lia.
    cbn [seed set_seed].
    change (u32 (u32 (seed cpu * 1103515245) + 12345) mod 2147483648)
      with (seed (OP_Cxkk cpu)).
    apply u8_small.
    pose proof (land_le_r (seed (OP_Cxkk cpu)) (op_kk cpu) ltac:(lia)).
    lia. }
  split; [exact Es |]. split; [exact Er |].
  rewrite Er. split; [apply land_submask |].
  apply land_le_r. lia.
Qed.

Lemma random_within_mask_witness :
  wf_CPU random_scene = true /\
  op_kk random_scene = 0x0F /\
  0 <= get (v (OP_Cxkk random_scene)) (op_x random_scene)
    <= op_kk random_scene.
Proof.
  assert (Hwf : wf_CPU random_scene = true) by (vm_compute; reflexivity).
  split; [exact Hwf |]. split; [vm_compute; reflexivity |].
  destruct (random_within_mask random_scene Hwf) as (_ & _ & _ & Hrange).
  exact Hrange.
Defined.

(** * Drawing twice, and the collision flag *)





(** X14 -- the collision flag of a draw: when no set pixel of the sprite
    leaves the screen and its rows lie inside memory, register 0xF ends as 1
    exactly when some set sprite pixel falls on a cell that was lit (held
    0xFFFFFFFF) before the draw, and as 0 otherwise; no other register
    changes. *)
Theorem collision_flag (cpu : CPU) :
  wf_CPU cpu = true ->
  sprite_inside cpu = true ->
  i cpu + op_n cpu <= 4096 ->
  exists cpu',
    OP_Dxyn cpu = Ok cpu' /\
    (get (v cpu') 0xF = 1 <->
       exists r c, 0 <= r < 32 /\ 0 <= c < 64 /\
         sprite_at cpu r c = true /\ get (gfx cpu) (r * 64 + c) = LIT) /\
    (get (v cpu') 0xF = 1 \/ get (v cpu') 0xF = 0) /\
    (forall k, 0 <= k -> k <> 0xF -> get (v cpu') k = get (v cpu) k).
Proof.
  intros Hwf Hinside HiFit. apply wf_CPU_WF in Hwf.
  pose proof (sprite_inside_spec cpu Hinside) as Hon.
  destruct (OP_Dxyn_on_screen cpu) as
    (cpu' & Hrun & _ & _ & _ & Hregs & Hflag & Hbit);
    [apply Hwf | apply Hwf | apply Hwf | exact Hon | done |].
  exists cpu'. split; [exact Hrun |]. split; [| done].
  rewrite Hflag. split.
  - intros (r & c & Hr & Hc & Hs & Hlit). exists r, c.
    split; [| done]. split; [done |].
    destruct (Z.lt_ge_cases r 32) as [|Hbelow]; [done |].
    rewrite get_outside in Hlit; [discriminate |].
    rewrite (wf_gfx_len _ Hwf). lia.
  - intros (r & c & Hr & Hc & Hs & Hlit). exists r, c.
    split; [lia | done].
Qed.

Lemma collision_flag_witness :
  wf_CPU glyph_scene = true /\
  sprite_inside glyph_scene = true /\
  exists cpu',
    OP_Dxyn glyph_scene = Ok cpu' /\
    (get (v cpu') 0xF = 1 \/ get (v cpu') 0xF = 0) /\
    get (v cpu') 0 = get (v glyph_scene) 0.
Proof.
  assert (Hwf : wf_CPU glyph_scene = true) by (vm_compute; reflexivity).
  assert (Hin : sprite_inside glyph_scene = true) by (vm_compute; reflexivity).
  assert (Hmem : i glyph_scene + op_n glyph_scene <= 4096)
    by (vm_compute; discriminate).
  split; [exact Hwf |]. split; [exact Hin |].
  destruct (collision_flag glyph_scene Hwf Hin Hmem)
    as (cpu' & Hrun & _ & Hbit & Hregs).
  exists cpu'. split; [exact Hrun |]. split; [exact Hbit |].
  apply Hregs; [lia | discriminate].
Defined.

(** * [Chip8_Create] *)

Lemma bind_Ok_l {A B : Type} (a : A) (k : A -> Result B) :
  bind (Ok a) k = k a.
Proof. reflexivity. Qed.

Lemma assign_in_range table k f :
  (Z.to_nat k < length table)%nat ->
  assign table k f = Ok (<[Z.to_nat k := f]> table).
Proof.
  intros Hk. unfold assign.
  by destruct (Nat.ltb_spec (Z.to_nat k) (length table)); [| lia].
Qed.

Lemma long_enough_spec entries :
  long_enough entries = true <->
  (forall k, (k < 16)%nat -> (0 < entries k)%nat) /\
  (14 < entries 0)%nat /\ (14 < entries 8)%nat /\ (14 < entries 14)%nat /\
  (0x65 < entries 15)%nat.
Proof.
  unfold long_enough. cbn [forallb seq least_entries].
  rewrite !andb_true_iff, !Nat.leb_le. split.
  - intros H. split; [| lia].
    intros k Hk. do 16 (destruct k as [|k]; [lia |]). lia.
  - intros (Hfirst & H0 & H8 & HE & HF).
    pose proof (Hfirst 1%nat). pose proof (Hfirst 2%nat).
    pose proof (Hfirst 3%nat). pose proof (Hfirst 4%nat).
    pose proof (Hfirst 5%nat). pose proof (Hfirst 6%nat).
    pose proof (Hfirst 7%nat). pose proof (Hfirst 9%nat).
    pose proof (Hfirst 10%nat). pose proof (Hfirst 11%nat).
    pose proof (Hfirst 12%nat). pose proof (Hfirst 13%nat).
    lia.
Qed.

(** One assignment of [assignOpcodeTableFunctions] inside its table, on the
    record of the tables written out. *)
Section AssignInside.
Variables (d : list DispatcherFunc) (k : Z) (f : OpcodeFunc).
Variables (t0 t1 t2 t3 t4 t5 t6 t7 t8 t9 tA tB tC tD tE tF : list OpcodeFunc).

Lemma assign_table0_inside :
  (Z.to_nat k < length t0)%nat ->
  assign_table0 (mkTables d t0 t1 t2 t3 t4 t5 t6 t7 t8 t9 tA tB tC tD tE tF) k f
  = Ok (mkTables d (<[Z.to_nat k := f]> t0) t1 t2 t3 t4 t5 t6 t7 t8 t9 tA tB tC tD tE tF).
Proof.
  intros Hk. unfold assign_table0. cbn [table0].
  by rewrite assign_in_range.
Qed.

Lemma assign_table1_inside :
  (Z.to_nat k < length t1)%nat ->
  assign_table1 (mkTables d t0 t1 t2 t3 t4 t5 t6 t7 t8 t9 tA tB tC tD tE tF) k f
  = Ok (mkTables d t0 (<[Z.to_nat k := f]> t1) t2 t3 t4 t5 t6 t7 t8 t9 tA tB tC tD tE tF).
Proof.
  intros Hk. unfold assign_table1. cbn [table1].
  by rewrite assign_in_range.
Qed.

Lemma assign_table2_inside :
  (Z.to_nat k < length t2)%nat ->
  assign_table2 (mkTables d t0 t1 t2 t3 t4 t5 t6 t7 t8 t9 tA tB tC tD tE tF) k f
  = Ok (mkTables d t0 t1 (<[Z.to_nat k := f]> t2) t3 t4 t5 t6 t7 t8 t9 tA tB tC tD tE tF).
Proof.
  intros Hk. unfold assign_table2. cbn [table2].
  by rewrite assign_in_range.
Qed.

Lemma assign_table3_inside :
  (Z.to_nat k < length t3)%nat ->
  assign_table3 (mkTables d t0 t1 t2 t3 t4 t5 t6 t7 t8 t9 tA tB tC tD tE tF) k f
  = Ok (mkTables d t0 t1 t2 (<[Z.to_nat k := f]> t3) t4 t5 t6 t7 t8 t9 tA tB tC tD tE tF).
Proof.
  intros Hk. unfold assign_table3. cbn [table3].
  by rewrite assign_in_range.
Qed.

Lemma assign_table4_inside :
  (Z.to_nat k < length t4)%nat ->
  assign_table4 (mkTables d t0 t1 t2 t3 t4 t5 t6 t7 t8 t9 tA tB tC tD tE tF) k f
  = Ok (mkTables d t0 t1 t2 t3 (<[Z.to_nat k := f]> t4) t5 t6 t7 t8 t9 tA tB tC tD tE tF).
Proof.
  intros Hk. unfold assign_table4. cbn [table4].
  by rewrite assign_in_range.
Qed.

Lemma assign_table5_inside :
  (Z.to_nat k < length t5)%nat ->
  assign_table5 (mkTables d t0 t1 t2 t3 t4 t5 t6 t7 t8 t9 tA tB tC tD tE tF) k f
  = Ok (mkTables d t0 t1 t2 t3 t4 (<[Z.to_nat k := f]> t5) t6 t7 t8 t9 tA tB tC tD tE tF).
Proof.
  intros Hk. unfold assign_table5. cbn [table5].
  by rewrite assign_in_range.
Qed.

Lemma assign_table6_inside :
  (Z.to_nat k < length t6)%nat ->
  assign_table6 (mkTables d t0 t1 t2 t3 t4 t5 t6 t7 t8 t9 tA tB tC tD tE tF) k f
  = Ok (mkTables d t0 t1 t2 t3 t4 t5 (<[Z.to_nat k := f]> t6) t7 t8 t9 tA tB tC tD tE tF).
Proof.
  intros Hk. unfold assign_table6. cbn [table6].
  by rewrite assign_in_range.
Qed.

Lemma assign_table7_inside :
  (Z.to_nat k < length t7)%nat ->
  assign_table7 (mkTables d t0 t1 t2 t3 t4 t5 t6 t7 t8 t9 tA tB tC tD tE tF) k f
  = Ok (mkTables d t0 t1 t2 t3 t4 t5 t6 (<[Z.to_nat k := f]> t7) t8 t9 tA tB tC tD tE tF).
Proof.
  intros Hk. unfold assign_table7. cbn [table7].
  by rewrite assign_in_range.
Qed.

Lemma assign_table8_inside :
  (Z.to_nat k < length t8)%nat ->
  assign_table8 (mkTables d t0 t1 t2 t3 t4 t5 t6 t7 t8 t9 tA tB tC tD tE tF) k f
  = Ok (mkTables d t0 t1 t2 t3 t4 t5 t6 t7 (<[Z.to_nat k := f]> t8) t9 tA tB tC tD tE tF).
Proof.
  intros Hk. unfold assign_table8. cbn [table8].
  by rewrite assign_in_range.
Qed.

Lemma assign_table9_inside :
  (Z.to_nat k < length t9)%nat ->
  assign_table9 (mkTables d t0 t1 t2 t3 t4 t5 t6 t7 t8 t9 tA tB tC tD tE tF) k f
  = Ok (mkTables d t0 t1 t2 t3 t4 t5 t6 t7 t8 (<[Z.to_nat k := f]> t9) tA tB tC tD tE tF).
Proof.
  intros Hk. unfold assign_table9. cbn [table9].
  by rewrite assign_in_range.
Qed.

Lemma assign_tableA_inside :
  (Z.to_nat k < length tA)%nat ->
  assign_tableA (mkTables d t0 t1 t2 t3 t4 t5 t6 t7 t8 t9 tA tB tC tD tE tF) k f
  = Ok (mkTables d t0 t1 t2 t3 t4 t5 t6 t7 t8 t9 (<[Z.to_nat k := f]> tA) tB tC tD tE tF).
Proof.
  intros Hk. unfold assign_tableA. cbn [tableA].
  by rewrite assign_in_range.
Qed.

Lemma assign_tableB_inside :
  (Z.to_nat k < length tB)%nat ->
  assign_tableB (mkTables d t0 t1 t2 t3 t4 t5 t6 t7 t8 t9 tA tB tC tD tE tF) k f
  = Ok (mkTables d t0 t1 t2 t3 t4 t5 t6 t7 t8 t9 tA (<[Z.to_nat k := f]> tB) tC tD tE tF).
Proof.
  intros Hk. unfold assign_tableB. cbn [tableB].
  by rewrite assign_in_range.
Qed.

Lemma assign_tableC_inside :
  (Z.to_nat k < length tC)%nat ->
  assign_tableC (mkTables d t0 t1 t2 t3 t4 t5 t6 t7 t8 t9 tA tB tC tD tE tF) k f
  = Ok (mkTables d t0 t1 t2 t3 t4 t5 t6 t7 t8 t9 tA tB (<[Z.to_nat k := f]> tC) tD tE tF).
Proof.
  intros Hk. unfold assign_tableC. cbn [tableC].
  by rewrite assign_in_range.
Qed.

Lemma assign_tableD_inside :
  (Z.to_nat k < length tD)%nat ->
  assign_tableD (mkTables d t0 t1 t2 t3 t4 t5 t6 t7 t8 t9 tA tB tC tD tE tF) k f
  = Ok (mkTables d t0 t1 t2 t3 t4 t5 t6 t7 t8 t9 tA tB tC (<[Z.to_nat k := f]> tD) tE tF).
Proof.
  intros Hk. unfold assign_tableD. cbn [tableD].
  by rewrite assign_in_range.
Qed.

Lemma assign_tableE_inside :
  (Z.to_nat k < length tE)%nat ->
  assign_tableE (mkTables d t0 t1 t2 t3 t4 t5 t6 t7 t8 t9 tA tB tC tD tE tF) k f
  = Ok (mkTables d t0 t1 t2 t3 t4 t5 t6 t7 t8 t9 tA tB tC tD (<[Z.to_nat k := f]> tE) tF).
Proof.
  intros Hk. unfold assign_tableE. cbn [tableE].
  by rewrite assign_in_range.
Qed.

Lemma assign_tableF_inside :
  (Z.to_nat k < length tF)%nat ->
  assign_tableF (mkTables d t0 t1 t2 t3 t4 t5 t6 t7 t8 t9 tA tB tC tD tE tF) k f
  = Ok (mkTables d t0 t1 t2 t3 t4 t5 t6 t7 t8 t9 tA tB tC tD tE (<[Z.to_nat k := f]> tF)).
Proof.
  intros Hk. unfold assign_tableF. cbn [tableF].
  by rewrite assign_in_range.
Qed.

End AssignInside.

Ltac assign_inside :=
  first
    [ rewrite assign_table0_inside | rewrite assign_table1_inside
    | rewrite assign_table2_inside | rewrite assign_table3_inside
    | rewrite assign_table4_inside | rewrite assign_table5_inside
    | rewrite assign_table6_inside | rewrite assign_table7_inside
    | rewrite assign_table8_inside | rewrite assign_table9_inside
    | rewrite assign_tableA_inside | rewrite assign_tableB_inside
    | rewrite assign_tableC_inside | rewrite assign_tableD_inside
    | rewrite assign_tableE_inside | rewrite assign_tableF_inside ];
  [rewrite bind_Ok_l; cbv beta | rewrite ?length_insert, length_init; lia].

Lemma Chip8_Create_long_enough entries cpu :
  long_enough entries = true -> exists c1, Chip8_Create entries cpu = Ok c1.
Proof.
  intros Hlong. apply long_enough_spec in Hlong as (Hfirst & H0 & H8 & HE & HF).
  pose proof (Hfirst 1%nat ltac:(lia)). pose proof (Hfirst 2%nat ltac:(lia)).
  pose proof (Hfirst 3%nat ltac:(lia)). pose proof (Hfirst 4%nat ltac:(lia)).
  pose proof (Hfirst 5%nat ltac:(lia)). pose proof (Hfirst 6%nat ltac:(lia)).
  pose proof (Hfirst 7%nat ltac:(lia)). pose proof (Hfirst 9%nat ltac:(lia)).
  pose proof (Hfirst 10%nat ltac:(lia)). pose proof (Hfirst 11%nat ltac:(lia)).
  pose proof (Hfirst 12%nat ltac:(lia)). pose proof (Hfirst 13%nat ltac:(lia)).
  unfold Chip8_Create, assignOpcodeTableFunctions. cbv zeta.
  rewrite setup_tables.
  do 34 assign_inside. eexists. reflexivity.
Qed.

(** X15 -- [Chip8_Create] writes every assignment of
    [assignOpcodeTableFunctions] inside its table exactly when the tables
    are declared long enough: at least 15 entries for table0, table8 and
    tableE, at least 0x66 for tableF, at least one for each of the others.
    With any table shorter, an assignment indexes past its end. *)
Theorem create_needs_table_lengths (entries : nat -> nat) (cpu : CPU) :
  is_Ok (Chip8_Create entries cpu) = long_enough entries.
Proof.
  destruct (long_enough entries) eqn:Hlong.
  - destruct (Chip8_Create_long_enough entries cpu Hlong) as (c1 & ->). done.
  - destruct (Chip8_Create entries cpu) as [c1|flt] eqn:Hrun; [| done].
    pose proof (Chip8_Create_first_entries _ _ _ Hrun) as Hfirst.
    apply Chip8_Create_tables in Hrun as (_ & Hbounds).
    rewrite (proj2 (long_enough_spec entries)) in Hlong; done.
Qed.

(** The fields [assignOpcodeTableFunctions] does not touch. *)
Lemma assignOpcodeTableFunctions_tables cpu c1 :
  assignOpcodeTableFunctions cpu = Ok c1 ->
  exists t, c1 = set_tables cpu t.
Proof.
  unfold assignOpcodeTableFunctions. intros H. cbv zeta in H.
  do 34 (apply bind_Ok in H as (? & _ & H)).
  injection H as <-. eauto.
Qed.

(** [Chip8_Create] up to its last step. *)
Lemma Chip8_Create_steps entries c0 :
  Chip8_Create entries c0 =
  assignOpcodeTableFunctions
    (setupOpcodeTables entries
       (setupDispatcher
          (set_memory (set_pc (cleared (seed c0)) START_ADDRESS)
             (copyMemory (memory (set_pc (cleared (seed c0)) START_ADDRESS))
                FONTSET_ADDRESS fontset FONT_SIZE)))).
Proof. reflexivity. Qed.

Lemma get_replicate n k : get (replicate n 0) k = 0.
Proof.
  unfold get. destruct (replicate n 0 !! Z.to_nat k) as [z|] eqn:E; [| done].
  apply lookup_replicate in E as [-> _]. done.
Qed.

Lemma get_copyMemory a at_ src num k :
  0 <= at_ -> 0 <= num -> (Z.to_nat num <= length src)%nat ->
  (Z.to_nat at_ + Z.to_nat num <= length a)%nat -> 0 <= k ->
  get (copyMemory a at_ src num) k =
  if (at_ <=? k) && (k <? at_ + num) then get src (k - at_) else get a k.
Proof.
  intros Hat Hnum Hsrc Hfit Hk. unfold get, copyMemory.
  destruct (Z.leb_spec at_ k) as [Hge|Hlt]; cbn [andb].
  - rewrite lookup_app_r by (rewrite length_take; lia).
    rewrite length_take.
    destruct (Z.ltb_spec k (at_ + num)) as [Hin|Hpast].
    + rewrite lookup_app_l by (rewrite length_take; lia).
      rewrite lookup_take_lt by lia. do 2 f_equal. lia.
    + rewrite lookup_app_r by (rewrite length_take; lia).
      rewrite length_take, lookup_drop. do 2 f_equal. lia.
  - rewrite lookup_app_l by (rewrite length_take; lia).
    by rewrite lookup_take_lt by lia.
Qed.

(** X16 -- the machine [Chip8_Create] leaves behind: pc at 0x200; I, sp,
    the latched opcode and both timers zero; every register, stack slot, key
    flag and framebuffer cell zero; memory zero except for the glyph table
    copied to 0x50 (80 bytes, the table's length); the generator's seed
    untouched; the jump tables installed.  Nothing of the structure passed
    in survives except the seed, and the result is well formed. *)
Theorem create_postcondition (entries : nat -> nat) (c0 c1 : CPU) :
  Chip8_Create entries c0 = Ok c1 ->
  pc c1 = START_ADDRESS /\ i c1 = 0 /\ sp c1 = 0 /\ opcode c1 = 0 /\
  delaytimer c1 = 0 /\ soundtimer c1 = 0 /\
  (forall k, get (v c1) k = 0 /\ get (stack c1) k = 0 /\
             get (key c1) k = 0 /\ get (gfx c1) k = 0) /\
  (forall a, 0 <= a ->
     get (memory c1) a =
     if (FONTSET_ADDRESS <=? a) && (a <? FONTSET_ADDRESS + FONT_SIZE)
     then get fontset (a - FONTSET_ADDRESS) else 0) /\
  seed c1 = seed c0 /\ tables c1 = installed entries /\
  (is_u32 (seed c0) = true -> wf_CPU c1 = true).
Proof.
  intros Hrun.
  pose proof (Chip8_Create_tables _ _ _ Hrun) as (Htables & _).
  rewrite Chip8_Create_steps in Hrun.
  apply assignOpcodeTableFunctions_tables in Hrun as (t & ->).
  do 6 (split; [reflexivity |]).
  split; [intros k; repeat split; apply get_replicate |].
  assert (Em : forall a, 0 <= a ->
    get (copyMemory (replicate (Z.to_nat MEMORY_SIZE) 0) FONTSET_ADDRESS
           fontset FONT_SIZE) a =
    if (FONTSET_ADDRESS <=? a) && (a <? FONTSET_ADDRESS + FONT_SIZE)
    then get fontset (a - FONTSET_ADDRESS) else 0).
  { intros a Ha. rewrite get_copyMemory; try done.
    - by rewrite get_replicate.
    - rewrite length_replicate. vm_compute. lia. }
  split; [exact Em |]. split; [reflexivity |]. split; [exact Htables |].
  intros Hseed. unfold wf_CPU.
  change (seed (set_tables _ t)) with (seed c0). rewrite Hseed.
  change (memory (set_tables _ t))
    with (copyMemory (replicate (Z.to_nat MEMORY_SIZE) 0) FONTSET_ADDRESS
            fontset FONT_SIZE).
  change (v (set_tables _ t)) with (replicate (Z.to_nat REGISTER_COUNT) 0).
  change (stack (set_tables _ t)) with (replicate (Z.to_nat STACK_LEVELS) 0).
  change (key (set_tables _ t)) with (replicate (Z.to_nat KEY_COUNT) 0).
  change (gfx (set_tables _ t))
    with (replicate (Z.to_nat (VIDEO_WIDTH * VIDEO_HEIGHT)) 0).
  change (i (set_tables _ t)) with 0.
  change (pc (set_tables _ t)) with START_ADDRESS.
  change (sp (set_tables _ t)) with 0.
  change (opcode (set_tables _ t)) with 0.
  change (delaytimer (set_tables _ t)) with 0.
  change (soundtimer (set_tables _ t)) with 0.
  vm_compute. reflexivity.
Qed.

Lemma create_postcondition_witness :
  pc power_on = START_ADDRESS /\
  get (memory power_on) 0x55 = 0x20 /\
  get (memory power_on) 0x200 = 0 /\
  seed power_on = seed (cleared initial_seed) /\
  wf_CPU power_on = true.
Proof.
  assert (Hseed : is_u32 (seed (cleared initial_seed)) = true)
    by (vm_compute; reflexivity).
  destruct (create_postcondition every_subindex (cleared initial_seed)
              power_on power_on_created)
    as (Hpc & _ & _ & _ & _ & _ & _ & Hmem & Hkept & _ & Hwf).
  split; [exact Hpc |].
  split; [rewrite Hmem by lia; vm_compute; reflexivity |].
  split; [rewrite Hmem by lia; vm_compute; reflexivity |].
  split; [exact Hkept | exact (Hwf Hseed)].
Defined.

(** * Glyph addresses *)

Lemma font_loaded_spec cpu k :
  font_loaded cpu = true -> 0 <= k < 80 ->
  get (memory cpu) (FONTSET_ADDRESS + k) = get fontset k.
Proof.
  unfold font_loaded. intros Hall Hk. rewrite forallb_forall in Hall.
  apply Z.eqb_eq, Hall, list_elem_of_In, elem_of_seqZ.
  change (Z.of_nat (length fontset)) with 80. lia.
Qed.

(** X17 -- LD F, Vx sets I to 0x50 + 5 * V[x] and masks nothing.  With the
    glyph table in memory at 0x50 and V[x] <= 15, the five bytes at I are
    the five rows of the glyph of digit V[x]; with V[x] >= 16, I lies past
    the end of the glyph table. *)
Theorem glyph_address (cpu : CPU) :
  wf_CPU cpu = true ->
  font_loaded cpu = true ->
  let d := get (v cpu) (op_x cpu) in
  i (OP_Fx29 cpu) = FONTSET_ADDRESS + 5 * d /\
  (d < 16 -> forall row, 0 <= row < 5 ->
     get (memory (OP_Fx29 cpu)) (i (OP_Fx29 cpu) + row)
     = get fontset (5 * d + row)) /\
  (16 <= d ->
     FONTSET_ADDRESS + Z.of_nat (length fontset) <= i (OP_Fx29 cpu)).
Proof.
  intros Hwf Hfont d. apply wf_CPU_WF in Hwf.
  pose proof (wf_v _ Hwf (op_x cpu)) as Hd. fold d in Hd.
  assert (Ei : i (OP_Fx29 cpu) = FONTSET_ADDRESS + 5 * d).
  { unfold OP_Fx29. cbn [i set_i]. fold (op_x cpu). fold d.
    apply u16_small. unfold FONTSET_ADDRESS. lia. }
  split; [exact Ei |]. rewrite Ei. split.
  - intros Hdigit row Hrow.
    change (memory (OP_Fx29 cpu)) with (memory cpu).
    rewrite <- Z.add_assoc. apply font_loaded_spec; [done | lia].
  - intros Hpast. change (Z.of_nat (length fontset)) with 80. lia.
Qed.

Lemma glyph_address_witness :
  wf_CPU glyph_address_scene = true /\
  font_loaded glyph_address_scene = true /\
  get (v glyph_address_scene) (op_x glyph_address_scene) = 0xA /\
  i (OP_Fx29 glyph_address_scene)
  = FONTSET_ADDRESS + 5 * get (v glyph_address_scene)
                            (op_x glyph_address_scene).
Proof.
  assert (Hwf : wf_CPU glyph_address_scene = true)
    by (vm_compute; reflexivity).
  assert (Hfont : font_loaded glyph_address_scene = true)
    by (vm_compute; reflexivity).
  split; [exact Hwf |]. split; [exact Hfont |].
  split; [vm_compute; reflexivity |].
  destruct (glyph_address glyph_address_scene Hwf Hfont) as (Hi & _).
  exact Hi.
Defined.

(** * Register transfers *)

(** X18 -- LD [I], Vx with I + x inside memory copies V[0] .. V[x] to
    memory[I] .. memory[I + x] and changes no other byte; LD Vx, [I] copies
    those bytes to V[0] .. V[x] and changes no register above x.  Neither
    changes any other field: in particular I is left where it was, not
    advanced past the block. *)
Theorem register_transfer_frames (cpu : CPU) :
  wf_CPU cpu = true ->
  i cpu + op_x cpu < 4096 ->
  (exists dumped,
     OP_Fx55 cpu = Ok dumped /\
     (forall j, 0 <= j <= op_x cpu ->
        get (memory dumped) (i cpu + j) = get (v cpu) j) /\
     (forall a, 0 <= a -> ~ i cpu <= a <= i cpu + op_x cpu ->
        get (memory dumped) a = get (memory cpu) a) /\
     dumped = set_memory cpu (memory dumped)) /\
  (exists loaded,
     OP_Fx65 cpu = Ok loaded /\
     (forall j, 0 <= j <= op_x cpu ->
        get (v loaded) j = get (memory cpu) (i cpu + j)) /\
     (forall j, op_x cpu < j -> get (v loaded) j = get (v cpu) j) /\
     loaded = set_v cpu (v loaded)).
Proof.
  intros Hwf Hfit. apply wf_CPU_WF in Hwf.
  pose proof (op_x_range cpu) as Hx.
  pose proof (wf_i _ Hwf) as Hi.
  split.
  - unfold OP_Fx55. fold (op_x cpu).
    destruct (Fx55_loop (Z.to_nat (op_x cpu + 1)) 0 cpu)
      as (m & Hrun & _ & Hin & Hout); [lia | lia | lia | apply Hwf |].
    rewrite Hrun. eexists. split; [reflexivity |].
    cbn [memory set_memory]. split; [| split; [| reflexivity]].
    + intros j Hj. apply Hin. lia.
    + intros a Ha Hrange. apply Hout; lia.
  - unfold OP_Fx65. fold (op_x cpu).
    destruct (Fx65_loop (Z.to_nat (op_x cpu + 1)) 0 cpu)
      as (V & Hrun & _ & Hin & Hout); [lia | lia | lia | lia | apply Hwf |].
    rewrite Hrun. eexists. split; [reflexivity |].
    cbn [v set_v]. split; [| split; [| reflexivity]].
    + intros j Hj. apply Hin. lia.
    + intros j Hj. apply Hout; lia.
Qed.

Lemma register_transfer_frames_witness :
  wf_CPU dump_scene = true /\
  op_x dump_scene = 3 /\
  exists dumped,
    OP_Fx55 dump_scene = Ok dumped /\
    get (memory dumped) (i dump_scene + 3) = get (v dump_scene) 3 /\
    get (memory dumped) (i dump_scene + 4)
    = get (memory dump_scene) (i dump_scene + 4) /\
    dumped = set_memory dump_scene (memory dumped).
Proof.
  assert (Hwf : wf_CPU dump_scene = true) by (vm_compute; reflexivity).
  assert (Hfit : i dump_scene + op_x dump_scene < 4096)
    by (vm_compute; reflexivity).
  split; [exact Hwf |]. split; [vm_compute; reflexivity |].
  destruct (register_transfer_frames dump_scene Hwf Hfit)
    as ((dumped & Hrun & Hin & Hout & Hrest) & _).
  exists dumped. split; [exact Hrun |]. split; [| split; [| exact Hrest]].
  - apply Hin. vm_compute. split; discriminate.
  - apply Hout; vm_compute; [discriminate |].
    intros [_ H]. by apply H.
Defined.

(** * Whole cycles *)

(** The three steps of a cycle that completes on created tables. *)
Lemma cycle_steps entries c0 c1 cpu fetched cpu' :
  Chip8_Create entries c0 = Ok c1 ->
  tables cpu = tables c1 ->
  Cycle_fetch cpu = Ok fetched ->
  in_table entries (opcode fetched) = true ->
  Chip8_Cycle cpu = Ok cpu' ->
  exists e,
    call (decode (opcode fetched)) fetched = Ok e /\ cpu' = Cycle_timers e /\
    fetched = set_pc (set_opcode cpu (opcode fetched)) (pc cpu + 2) /\
    0 <= pc cpu /\ pc cpu + 1 < 4096.
Proof.
  intros Hcreate Ht Hfetch Hin Hrun.
  unfold Chip8_Cycle in Hrun. rewrite Hfetch in Hrun. cbn [bind] in Hrun.
  apply Cycle_fetch_Ok in Hfetch as (Hpc0 & Hpc & Hfetched).
  rewrite (Cycle_execute_decode entries c0 c1) in Hrun; [| done | | done].
  2:{ rewrite Hfetched. cbn [tables set_pc set_opcode]. done. }
  apply bind_Ok in Hrun as (e & Hcall & Hrun). injection Hrun as <-.
  exists e. split; [done |]. split; [done |]. split; [| done].
  rewrite Hfetched at 1. cbn [opcode set_pc set_opcode].
  rewrite Hfetched at 1. cbn [opcode set_pc set_opcode].
  by rewrite (u16_small (pc cpu + 2)) by lia.
Qed.

(** X19 -- a cycle whose handler does not assign pc (every instruction but
    jumps, calls, returns, skips and the key wait) ends with pc advanced by
    exactly 2, the advance of the fetch. *)
Theorem straight_line_cycle
  (entries : nat -> nat) (c0 c1 cpu fetched cpu' : CPU) :
  Chip8_Create entries c0 = Ok c1 ->
  tables cpu = tables c1 ->
  Cycle_fetch cpu = Ok fetched ->
  in_table entries (opcode fetched) = true ->
  ~ In F_pc (writes (decode (opcode fetched))) ->
  Chip8_Cycle cpu = Ok cpu' ->
  pc cpu' = pc cpu + 2.
Proof.
  intros Hcreate Ht Hfetch Hin Hstraight Hrun.
  destruct (cycle_steps _ _ _ _ _ _ Hcreate Ht Hfetch Hin Hrun)
    as (e & Hcall & -> & Hfetched & _).
  apply call_footprint in Hcall as (_ & _ & _ & Hframe).
  specialize (Hframe F_pc Hstraight). cbn [same_field] in Hframe.
  destruct (Cycle_timers_keeps e) as (-> & _).
  rewrite Hframe, Hfetched. reflexivity.
Qed.

Lemma straight_line_cycle_witness :
  decode (opcode (state_of (Cycle_fetch timer_scene))) = fp_OP_6xkk /\
  Chip8_Cycle timer_scene = Ok (state_of (Chip8_Cycle timer_scene)) /\
  pc (state_of (Chip8_Cycle timer_scene)) = pc timer_scene + 2.
Proof.
  assert (Ht : tables timer_scene = tables power_on)
    by (vm_compute; reflexivity).
  assert (Hfetch : Cycle_fetch timer_scene
                   = Ok (state_of (Cycle_fetch timer_scene)))
    by (vm_compute; reflexivity).
  assert (Hin : in_table every_subindex
                  (opcode (state_of (Cycle_fetch timer_scene))) = true)
    by (vm_compute; reflexivity).
  assert (Hstraight :
            ~ In F_pc (writes (decode (opcode (state_of
                                                 (Cycle_fetch timer_scene))))))
    by (vm_compute; intros [H|[]]; discriminate).
  assert (Hrun : Chip8_Cycle timer_scene
                 = Ok (state_of (Chip8_Cycle timer_scene)))
    by (vm_compute; reflexivity).
  split; [vm_compute; reflexivity |]. split; [exact Hrun |].
  exact (straight_line_cycle every_subindex (cleared initial_seed) power_on
           timer_scene _ _ power_on_created Ht Hfetch Hin Hstraight Hrun).
Defined.

(** A cycle of a handler that cannot fault. *)
Lemma cycle_of_pure entries c0 c1 cpu fetched f h :
  Chip8_Create entries c0 = Ok c1 ->
  tables cpu = tables c1 ->
  Cycle_fetch cpu = Ok fetched ->
  decode (opcode fetched) = f -> f <> fp_OP_0nnn ->
  call f fetched = Ok (h fetched) ->
  Chip8_Cycle cpu = Ok (Cycle_timers (h fetched)).
Proof.
  intros Hcreate Ht Hfetch Hf Hassigned Hcall.
  rewrite (cycle_of_handler entries c0 c1 cpu fetched f) by done.
  by rewrite Hcall.
Qed.

(** X20 -- the four conditional skips as whole cycles: the cycle ends with
    pc advanced by 4 when the condition holds and by 2 when it does not.
    SE Vx, kk and SNE Vx, kk test V[x] = kk and its negation; SE Vx, Vy and
    SNE Vx, Vy test V[x] = V[y] and its negation. *)
Theorem skip_cycle (entries : nat -> nat) (c0 c1 cpu fetched : CPU) :
  Chip8_Create entries c0 = Ok c1 ->
  tables cpu = tables c1 ->
  Cycle_fetch cpu = Ok fetched ->
  let x := get (v cpu) (op_x fetched) in
  let y := get (v cpu) (op_y fetched) in
  let kk := op_kk fetched in
  forall f taken,
    In (f, taken) [ (fp_OP_3xkk, x =? kk); (fp_OP_4xkk, negb (x =? kk));
                    (fp_OP_5xy0, x =? y); (fp_OP_9xy0, negb (x =? y)) ] ->
    decode (opcode fetched) = f ->
    exists cpu',
      Chip8_Cycle cpu = Ok cpu' /\
      pc cpu' = pc cpu + (if taken then 4 else 2).
Proof.
  intros Hcreate Ht Hfetch x y kk f taken Hcase Hf.
  pose proof (Cycle_fetch_Ok _ _ Hfetch) as (Hpc0 & Hpc & Hfetched).
  assert (Ev : v fetched = v cpu) by (by rewrite Hfetched).
  assert (Epc : pc fetched = pc cpu + 2).
  { rewrite Hfetched. cbn [pc set_pc]. apply u16_small. lia. }
  assert (Eskip : u16 (pc fetched + 2) = pc cpu + 4).
  { rewrite Epc. rewrite u16_small by lia. lia. }
  subst x y kk. rewrite <- Ev in Hcase. cbn [In] in Hcase.
  destruct Hcase as [E|[E|[E|[E|[]]]]]; injection E as <- <-.
  - eexists. split.
    + by apply (cycle_of_pure entries c0 c1 cpu fetched fp_OP_3xkk OP_3xkk).
    + destruct (Cycle_timers_keeps (OP_3xkk fetched)) as (-> & _).
      unfold OP_3xkk. fold (op_x fetched) (op_kk fetched).
      destruct (_ =? _); cbn [pc set_pc]; lia.
  - eexists. split.
    + by apply (cycle_of_pure entries c0 c1 cpu fetched fp_OP_4xkk OP_4xkk).
    + destruct (Cycle_timers_keeps (OP_4xkk fetched)) as (-> & _).
      unfold OP_4xkk. fold (op_x fetched) (op_kk fetched).
      destruct (_ =? _); cbn [negb pc set_pc]; lia.
  - eexists. split.
    + by apply (cycle_of_pure entries c0 c1 cpu fetched fp_OP_5xy0 OP_5xy0).
    + destruct (Cycle_timers_keeps (OP_5xy0 fetched)) as (-> & _).
      unfold OP_5xy0. fold (op_x fetched) (op_y fetched).
      destruct (_ =? _); cbn [pc set_pc]; lia.
  - eexists. split.
    + by apply (cycle_of_pure entries c0 c1 cpu fetched fp_OP_9xy0 OP_9xy0).
    + destruct (Cycle_timers_keeps (OP_9xy0 fetched)) as (-> & _).
      unfold OP_9xy0. fold (op_x fetched) (op_y fetched).
      destruct (_ =? _); cbn [negb pc set_pc]; lia.
Qed.

Lemma skip_cycle_witness :
  decode (opcode (state_of (Cycle_fetch skip_scene))) = fp_OP_3xkk /\
  (get (v skip_scene) (op_x (state_of (Cycle_fetch skip_scene)))
   =? op_kk (state_of (Cycle_fetch skip_scene))) = true /\
  exists cpu',
    Chip8_Cycle skip_scene = Ok cpu' /\
    pc cpu' = pc skip_scene
              + (if get (v skip_scene)
                      (op_x (state_of (Cycle_fetch skip_scene)))
                    =? op_kk (state_of (Cycle_fetch skip_scene))
                 then 4 else 2).
Proof.
  assert (Ht : tables skip_scene = tables power_on)
    by (vm_compute; reflexivity).
  assert (Hfetch : Cycle_fetch skip_scene
                   = Ok (state_of (Cycle_fetch skip_scene)))
    by (vm_compute; reflexivity).
  assert (Hf : decode (opcode (state_of (Cycle_fetch skip_scene)))
               = fp_OP_3xkk) by (vm_compute; reflexivity).
  split; [exact Hf |]. split; [vm_compute; reflexivity |].
  exact (skip_cycle every_subindex (cleared initial_seed) power_on
           skip_scene _ power_on_created Ht Hfetch
           fp_OP_3xkk _ (or_introl eq_refl) Hf).
Defined.

(** * Timers *)

Lemma Cycle_timers_spec cpu :
  0 <= delaytimer cpu < 256 -> 0 <= soundtimer cpu < 256 ->
  delaytimer (Cycle_timers cpu) = Z.max 0 (delaytimer cpu - 1) /\
  soundtimer (Cycle_timers cpu) = Z.max 0 (soundtimer cpu - 1).
Proof.
  intros Hd Hs. unfold Cycle_timers.
  destruct (Z.ltb_spec 0 (delaytimer cpu));
    cbn [soundtimer delaytimer set_delaytimer];
    destruct (Z.ltb_spec 0 (soundtimer cpu));
    cbn [soundtimer delaytimer set_delaytimer set_soundtimer];
    rewrite ?u8_small by lia; lia.
Qed.

(** X21 -- each cycle that completes counts both timers down by one, never
    below zero, after the instruction has run.  An instruction other than
    LD DT, Vx leaves the delay timer at max 0 (DT - 1), and one other than
    LD ST, Vx leaves the sound timer at max 0 (ST - 1); LD DT, Vx and
    LD ST, Vx are ticked in the cycle that executes them, so the timer ends
    that cycle at max 0 (V[x] - 1), not at V[x]. *)
Theorem timers_count_down
  (entries : nat -> nat) (c0 c1 cpu fetched cpu' : CPU) :
  Chip8_Create entries c0 = Ok c1 ->
  tables cpu = tables c1 ->
  wf_CPU cpu = true ->
  Cycle_fetch cpu = Ok fetched ->
  in_table entries (opcode fetched) = true ->
  Chip8_Cycle cpu = Ok cpu' ->
  let f := decode (opcode fetched) in
  let vx := get (v cpu) (op_x fetched) in
  delaytimer cpu' =
    Z.max 0 ((if decide (f = fp_OP_Fx15) then vx else delaytimer cpu) - 1) /\
  soundtimer cpu' =
    Z.max 0 ((if decide (f = fp_OP_Fx18) then vx else soundtimer cpu) - 1).
Proof.
  intros Hcreate Ht Hwf Hfetch Hin Hrun f vx. apply wf_CPU_WF in Hwf.
  destruct (cycle_steps _ _ _ _ _ _ Hcreate Ht Hfetch Hin Hrun)
    as (e & Hcall & -> & Hfetched & Hpc0 & Hpc).
  assert (Hwf' : WF fetched).
  { rewrite Hfetched. apply WF_set_pc; [| lia].
    apply WF_set_opcode; [done |].
    apply Cycle_fetch_Ok in Hfetch as (_ & _ & ->).
    cbn [opcode set_pc set_opcode]. apply u16_range. }
  pose proof (call_WF _ _ _ Hwf' Hcall) as Hwfe.
  destruct (Cycle_timers_spec e (wf_delaytimer _ Hwfe)
              (wf_soundtimer _ Hwfe)) as (-> & ->).
  assert (Ev : v fetched = v cpu) by (by rewrite Hfetched).
  assert (Ed : delaytimer fetched = delaytimer cpu)
    by (by rewrite Hfetched).
  assert (Es : soundtimer fetched = soundtimer cpu)
    by (by rewrite Hfetched).
  pose proof (call_footprint _ _ _ Hcall) as (_ & _ & _ & Hframe).
  fold f in Hcall, Hframe. subst vx. rewrite <- Ev, <- Ed, <- Es.
  split.
  - case_decide as Ef.
    + rewrite Ef in Hcall. injection Hcall as <-. reflexivity.
    + rewrite (Hframe F_delaytimer); [done |].
      destruct f; cbn [writes In]; intuition congruence.
  - case_decide as Ef.
    + rewrite Ef in Hcall. injection Hcall as <-. reflexivity.
    + rewrite (Hframe F_soundtimer); [done |].
      destruct f; cbn [writes In]; intuition congruence.
Qed.

Lemma timers_count_down_witness :
  wf_CPU timer_scene = true /\
  delaytimer timer_scene = 7 /\
  Chip8_Cycle timer_scene = Ok (state_of (Chip8_Cycle timer_scene)) /\
  delaytimer (state_of (Chip8_Cycle timer_scene))
  = Z.max 0
      ((if decide (decode (opcode (state_of (Cycle_fetch timer_scene)))
                   = fp_OP_Fx15)
        then get (v timer_scene) (op_x (state_of (Cycle_fetch timer_scene)))
        else delaytimer timer_scene) - 1).
Proof.
  assert (Ht : tables timer_scene = tables power_on)
    by (vm_compute; reflexivity).
  assert (Hwf : wf_CPU timer_scene = true) by (vm_compute; reflexivity).
  assert (Hfetch : Cycle_fetch timer_scene
                   = Ok (state_of (Cycle_fetch timer_scene)))
    by (vm_compute; reflexivity).
  assert (Hin : in_table every_subindex
                  (opcode (state_of (Cycle_fetch timer_scene))) = true)
    by (vm_compute; reflexivity).
  assert (Hrun : Chip8_Cycle timer_scene
                 = Ok (state_of (Chip8_Cycle timer_scene)))
    by (vm_compute; reflexivity).
  split; [exact Hwf |]. split; [vm_compute; reflexivity |].
  split; [exact Hrun |].
  destruct (timers_count_down every_subindex (cleared initial_seed) power_on
              timer_scene _ _ power_on_created Ht Hwf Hfetch Hin Hrun)
    as (Hdelay & _).
  exact Hdelay.
Defined.

(** * Which registers an instruction changes *)

Lemma Dxyn_pixel_regs xPos yPos sb row col c c' :
  Dxyn_pixel xPos yPos sb row col c = Ok c' ->
  forall k, 0 <= k -> k <> 0xF -> get (v c') k = get (v c) k.
Proof.
  unfold Dxyn_pixel. destruct (negb _); [| by inversion 1].
  intros H k Hk Hne. apply bind_Ok in H as (px & _ & H).
  apply bind_Ok in H as (cells & _ & H). inversion H; subst; clear H.
  destruct (px =? 0xFFFFFFFF); cbn [v set_v set_gfx]; [| done].
  apply get_put_ne; lia.
Qed.

Lemma OP_Dxyn_regs cpu cpu' :
  OP_Dxyn cpu = Ok cpu' ->
  forall k, 0 <= k -> k <> 0xF -> get (v cpu') k = get (v cpu) k.
Proof.
  rewrite OP_Dxyn_loops. intros Hrun k Hk Hne. revert Hrun.
  apply (for_loop_invariant (fun s => get (v s) k = get (v cpu) k)).
  - intros row s s' Hs Hrow. unfold Dxyn_row in Hrow.
    apply bind_Ok in Hrow as (sb & _ & Hcols). revert Hcols.
    apply (for_loop_invariant (fun s => get (v s) k = get (v cpu) k));
      [| done].
    intros col p p' Hp Hpix.
    by rewrite (Dxyn_pixel_regs _ _ _ _ _ _ _ Hpix k Hk Hne).
  - cbn [v set_v]. apply get_put_ne; lia.
Qed.

(** X22 -- apart from LD Vx, [I], which loads V[0] .. V[x], an instruction
    changes no register other than V[x] and V[0xF]; and V[0xF] is changed
    (when x is not 0xF) only by the flag-producing handlers: ADD, SUB, SHR,
    SUBN, SHL on registers and DRW.  In particular ADD Vx, kk sets no carry
    and ADD I, Vx no overflow flag. *)
Theorem register_frame (f : OpcodeFunc) (cpu cpu' : CPU) :
  call f cpu = Ok cpu' ->
  f <> fp_OP_Fx65 ->
  forall k, 0 <= k -> k <> op_x cpu ->
    k <> 0xF \/ ~ In f flag_writers ->
    get (v cpu') k = get (v cpu) k.
Proof.
  intros Hrun Hload k Hk Hx Hflag.
  pose proof (op_x_range cpu) as Hopx.
  assert (HkF : In f flag_writers -> k <> 0xF) by tauto.
  clear Hflag.
  destruct f;
    try (apply call_footprint in Hrun as (_ & _ & _ & Hframe);
         specialize (Hframe F_v
                       ltac:(cbn [writes In]; intuition discriminate));
         cbn [same_field] in Hframe; by rewrite Hframe);
    cbn [call] in Hrun; try (injection Hrun as <-).
  - unfold OP_6xkk. cbn [v set_v]. fold_operands.
    rewrite !get_put_ne by lia. done.
  - unfold OP_7xkk. cbn [v set_v]. fold_operands.
    rewrite !get_put_ne by lia. done.
  - unfold OP_8xy0. cbn [v set_v]. fold_operands.
    rewrite !get_put_ne by lia. done.
  - unfold OP_8xy1. cbn [v set_v]. fold_operands.
    rewrite !get_put_ne by lia. done.
  - unfold OP_8xy2. cbn [v set_v]. fold_operands.
    rewrite !get_put_ne by lia. done.
  - unfold OP_8xy3. cbn [v set_v]. fold_operands.
    rewrite !get_put_ne by lia. done.
  - specialize (HkF ltac:(cbn; tauto)).
    unfold OP_8xy4. cbn [v set_v]. fold_operands.
    rewrite !get_put_ne by lia. done.
  - specialize (HkF ltac:(cbn; tauto)).
    unfold OP_8xy5. cbn [v set_v]. fold_operands.
    rewrite !get_put_ne by lia. done.
  - specialize (HkF ltac:(cbn; tauto)).
    unfold OP_8xy6. cbn [v set_v]. fold_operands.
    rewrite !get_put_ne by lia. done.
  - specialize (HkF ltac:(cbn; tauto)).
    unfold OP_8xy7. cbn [v set_v]. fold_operands.
    rewrite !get_put_ne by lia. done.
  - specialize (HkF ltac:(cbn; tauto)).
    unfold OP_8xyE. cbn [v set_v]. fold_operands.
    rewrite !get_put_ne by lia. done.
  - unfold OP_Cxkk. cbn [v set_v set_seed]. fold_operands.
    rewrite !get_put_ne by lia. done.
  - specialize (HkF ltac:(cbn; tauto)).
    by apply (OP_Dxyn_regs cpu cpu' Hrun).
  - unfold OP_Fx07. cbn [v set_v]. fold_operands.
    rewrite !get_put_ne by lia. done.
  - unfold OP_Fx0A. fold_operands.
    repeat match goal with
           | |- context [if negb ?b then _ else _] => destruct b; cbn [negb]
           end;
      cbn [v set_v set_pc]; rewrite ?get_put_ne by lia; done.
Qed.

Lemma register_frame_witness :
  call fp_OP_7xkk (set_opcode carry_scene 0x7001)
  = Ok (OP_7xkk (set_opcode carry_scene 0x7001)) /\
  get (v (OP_7xkk (set_opcode carry_scene 0x7001))) 0x0 = 0x00 /\
  get (v (OP_7xkk (set_opcode carry_scene 0x7001))) 0xF
  = get (v (set_opcode carry_scene 0x7001)) 0xF.
Proof.
  assert (Hrun : call fp_OP_7xkk (set_opcode carry_scene 0x7001)
                 = Ok (OP_7xkk (set_opcode carry_scene 0x7001)))
    by (vm_compute; reflexivity).
  assert (Hx : 0xF <> op_x (set_opcode carry_scene 0x7001))
    by (vm_compute; discriminate).
  assert (Hflag : 0xF <> 0xF \/ ~ In fp_OP_7xkk flag_writers).
  { right. cbn. intuition discriminate. }
  split; [exact Hrun |]. split; [vm_compute; reflexivity |].
  exact (register_frame fp_OP_7xkk _ _ Hrun ltac:(discriminate) 0xF
           ltac:(lia) Hx Hflag).
Defined.

(** * Where an instruction can index outside an array *)

Lemma Fx55_loop_fault n : forall k cpu,
  0 <= k -> 0 <= i cpu -> (0 < n)%nat -> 4096 <= i cpu + k + Z.of_nat n - 1 ->
  exists flt,
    for_loop n k (fun k cpu =>
      do m <- store MemoryFault MEMORY_SIZE (memory cpu) (i cpu + k)
                    (get (v cpu) k);
      Ok (set_memory cpu m)) cpu = Fault flt.
Proof.
  induction n as [|n IH]; intros k cpu Hk Hi Hn Hpast; [lia |].
  rewrite for_loop_S.
  destruct (Z.lt_ge_cases (i cpu + k) 4096) as [Hin|Hout].
  - rewrite store_in_range by (unfold MEMORY_SIZE; lia). cbn [bind].
    apply IH; cbn [i set_memory]; lia.
  - rewrite store_out_of_range by (unfold MEMORY_SIZE; lia). cbn [bind].
    eauto.
Qed.

Lemma Fx65_loop_fault n : forall k cpu,
  0 <= k -> 0 <= i cpu -> (0 < n)%nat -> 4096 <= i cpu + k + Z.of_nat n - 1 ->
  exists flt,
    for_loop n k (fun k cpu =>
      do b <- load MemoryFault MEMORY_SIZE (memory cpu) (i cpu + k);
      Ok (set_v cpu (put (v cpu) k b))) cpu = Fault flt.
Proof.
  induction n as [|n IH]; intros k cpu Hk Hi Hn Hpast; [lia |].
  rewrite for_loop_S.
  destruct (Z.lt_ge_cases (i cpu + k) 4096) as [Hin|Hout].
  - rewrite load_in_range by (unfold MEMORY_SIZE; lia). cbn [bind].
    apply IH; cbn [i set_v]; lia.
  - rewrite load_out_of_range by (unfold MEMORY_SIZE; lia). cbn [bind].
    eauto.
Qed.

Lemma call_in_bounds f cpu :
  WF cpu -> in_bounds f cpu = true -> exists cpu', call f cpu = Ok cpu'.
Proof.
  intros Hwf Hin.
  pose proof (op_x_range cpu) as Hx. pose proof (op_n_range cpu) as Hn.
  pose proof (wf_i _ Hwf) as Hi. pose proof (wf_sp _ Hwf) as Hsp.
  pose proof (wf_v _ Hwf (op_x cpu)) as Hvx.
  destruct f; cbn [call]; try (eexists; reflexivity);
    cbn [in_bounds] in Hin;
    unfold STACK_LEVELS, MEMORY_SIZE, KEY_COUNT in Hin.
  - (* RET *)
    apply andb_true_iff in Hin as [Hlo Hhi].
    unfold OP_00EE. cbv zeta. cbn [stack sp set_sp].
    rewrite u16_small by lia.
    rewrite load_in_range by (unfold STACK_LEVELS; lia). cbn [bind]. eauto.
  - (* CALL *)
    unfold OP_2nnn.
    rewrite store_in_range by (unfold STACK_LEVELS; lia). cbn [bind]. eauto.
  - (* DRW *)
    apply andb_true_iff in Hin as [Hinside Hfit].
    destruct (OP_Dxyn_on_screen cpu) as (cpu' & Hrun & _);
      [apply Hwf | apply Hwf | apply Hwf | by apply sprite_inside_spec
       | lia |].
    eauto.
  - (* SKP *)
    unfold OP_Ex9E. cbv zeta. fold (op_x cpu).
    rewrite load_in_range by (unfold KEY_COUNT; lia). cbn [bind]. eauto.
  - (* SKNP *)
    unfold OP_ExA1. cbv zeta. fold (op_x cpu).
    rewrite load_in_range by (unfold KEY_COUNT; lia). cbn [bind]. eauto.
  - (* LD B *)
    destruct (OP_Fx33_in_range cpu) as (_ & Hrun); [lia | lia | done].
  - (* LD [I] *)
    destruct (OP_Fx55_in_range cpu) as (_ & Hrun);
      [lia | lia | apply Hwf | done].
  - (* LD Vx, [I] *)
    destruct (OP_Fx65_in_range cpu) as (_ & Hrun);
      [lia | lia | apply Hwf | done].
Qed.

(** X23 -- the handlers test no index.  On a well-formed state a handler
    other than the draw completes exactly when the indexes it forms lie
    inside their arrays: RET needs 1 <= sp <= 16, CALL sp < 16, SKP and SKNP
    V[x] < 16, LD B I + 2 < 4096, LD [I] and LD Vx, [I] I + x < 4096; every
    other handler always completes.  Otherwise the handler indexes the
    stack, the key flags or memory outside the array.  The draw completes
    whenever no set sprite pixel leaves the screen and its rows lie inside
    memory. *)
Theorem faults_are_out_of_bounds (f : OpcodeFunc) (cpu : CPU) :
  wf_CPU cpu = true ->
  (f <> fp_OP_Dxyn -> is_Ok (call f cpu) = in_bounds f cpu) /\
  (in_bounds f cpu = true -> is_Ok (call f cpu) = true).
Proof.
  intros Hwf. apply wf_CPU_WF in Hwf.
  assert (Hsafe : in_bounds f cpu = true -> is_Ok (call f cpu) = true).
  { intros Hin. destruct (call_in_bounds f cpu Hwf Hin) as (cpu' & ->).
    reflexivity. }
  split; [| exact Hsafe].
  intros Hdraw. destruct (in_bounds f cpu) eqn:Hin; [by apply Hsafe |].
  pose proof (op_x_range cpu) as Hx.
  pose proof (wf_i _ Hwf) as Hi. pose proof (wf_sp _ Hwf) as Hsp.
  pose proof (wf_v _ Hwf (op_x cpu)) as Hvx.
  destruct f; cbn [in_bounds] in Hin; try discriminate; try done;
    unfold STACK_LEVELS, MEMORY_SIZE, KEY_COUNT in Hin; cbn [call].
  - (* RET *)
    apply andb_false_iff in Hin.
    unfold OP_00EE. cbv zeta. cbn [stack sp set_sp].
    destruct (Z.eq_dec (sp cpu) 0) as [E|E].
    + rewrite E. change (u16 (0 - 1)) with 65535.
      by rewrite load_out_of_range by (unfold STACK_LEVELS; lia).
    + rewrite u16_small by lia.
      by rewrite load_out_of_range by (unfold STACK_LEVELS; lia).
  - (* CALL *)
    unfold OP_2nnn.
    by rewrite store_out_of_range by (unfold STACK_LEVELS; lia).
  - (* SKP *)
    unfold OP_Ex9E. cbv zeta. fold (op_x cpu).
    by rewrite load_out_of_range by (unfold KEY_COUNT; lia).
  - (* SKNP *)
    unfold OP_ExA1. cbv zeta. fold (op_x cpu).
    by rewrite load_out_of_range by (unfold KEY_COUNT; lia).
  - (* LD B *)
    by rewrite OP_Fx33_out_of_range by lia.
  - (* LD [I] *)
    unfold OP_Fx55. fold (op_x cpu).
    destruct (Fx55_loop_fault (Z.to_nat (op_x cpu + 1)) 0 cpu)
      as (flt & ->); [lia | lia | lia | lia | done].
  - (* LD Vx, [I] *)
    unfold OP_Fx65. fold (op_x cpu).
    destruct (Fx65_loop_fault (Z.to_nat (op_x cpu + 1)) 0 cpu)
      as (flt & ->); [lia | lia | lia | lia | done].
Qed.

Lemma faults_are_out_of_bounds_witness :
  wf_CPU no_such_key_scene = true /\
  get (v no_such_key_scene) (op_x no_such_key_scene) = 0x20 /\
  in_bounds fp_OP_Ex9E no_such_key_scene = false /\
  is_Ok (call fp_OP_Ex9E no_such_key_scene)
  = in_bounds fp_OP_Ex9E no_such_key_scene.
Proof.
  assert (Hwf : wf_CPU no_such_key_scene = true)
    by (vm_compute; reflexivity).
  split; [exact Hwf |]. split; [vm_compute; reflexivity |].
  split; [vm_compute; reflexivity |].
  destruct (faults_are_out_of_bounds fp_OP_Ex9E no_such_key_scene Hwf)
    as (Hexact & _).
  exact (Hexact ltac:(discriminate)).
Defined.

(** X24 -- a cycle completes when its two opcode bytes lie inside memory,
    the sub-index of the opcode lies inside its sub-table and the indexes
    its handler forms lie inside their arrays; the state it ends in is well
    formed again, so the same test decides the next cycle. *)
Theorem cycle_completes (entries : nat -> nat) (c0 c1 cpu fetched : CPU) :
  Chip8_Create entries c0 = Ok c1 ->
  tables cpu = tables c1 ->
  wf_CPU cpu = true ->
  Cycle_fetch cpu = Ok fetched ->
  in_table entries (opcode fetched) = true ->
  in_bounds (decode (opcode fetched)) fetched = true ->
  exists cpu',
    Chip8_Cycle cpu = Ok cpu' /\ wf_CPU cpu' = true /\
    tables cpu' = tables c1.
Proof.
  intros Hcreate Ht Hwf Hfetch Hin Hsafe. apply wf_CPU_WF in Hwf.
  pose proof (Cycle_fetch_Ok _ _ Hfetch) as (Hpc0 & Hpc & Hfetched).
  assert (Hwf' : WF fetched).
  { rewrite Hfetched. apply WF_set_pc; [| apply u16_range].
    apply WF_set_opcode; [done | apply u16_range]. }
  assert (Ht' : tables fetched = tables c1) by (by rewrite Hfetched).
  destruct (call_in_bounds _ _ Hwf' Hsafe) as (e & Hcall).
  exists (Cycle_timers e). split.
  - unfold Chip8_Cycle. rewrite Hfetch. cbn [bind].
    rewrite (Cycle_execute_decode entries c0 c1) by done.
    by rewrite Hcall.
  - split.
    + apply WF_wf_CPU, Cycle_timers_WF. by apply (call_WF _ _ _ Hwf' Hcall).
    + destruct (Cycle_timers_tables e) as (-> & _).
      apply call_footprint in Hcall as (_ & _ & -> & _). done.
Qed.

Lemma cycle_completes_witness :
  wf_CPU skip_scene = true /\
  exists cpu',
    Chip8_Cycle skip_scene = Ok cpu' /\ wf_CPU cpu' = true /\
    tables cpu' = tables power_on.
Proof.
  assert (Ht : tables skip_scene = tables power_on)
    by (vm_compute; reflexivity).
  assert (Hwf : wf_CPU skip_scene = true) by (vm_compute; reflexivity).
  assert (Hfetch : Cycle_fetch skip_scene
                   = Ok (state_of (Cycle_fetch skip_scene)))
    by (vm_compute; reflexivity).
  assert (Hin : in_table every_subindex
                  (opcode (state_of (Cycle_fetch skip_scene))) = true)
    by (vm_compute; reflexivity).
  assert (Hsafe : in_bounds
                    (decode (opcode (state_of (Cycle_fetch skip_scene))))
                    (state_of (Cycle_fetch skip_scene)) = true)
    by (vm_compute; reflexivity).
  split; [exact Hwf |].
  exact (cycle_completes every_subindex (cleared initial_seed) power_on
           skip_scene _ power_on_created Ht Hwf Hfetch Hin Hsafe).
Defined.
